(** * ReactSSR: server-side component rendering for Handlebars templates

    A shallow embedding of the rendering core of the repository (the
    utilities, the component factories and the Handlebars helper registry
    under src/ui) together with the properties its specification states
    about it.

    The program is TypeScript.  Its values are modelled by the data the
    props of a component can hold: undefined, null, booleans, numbers,
    strings and plain objects.  Objects are association lists in
    own-property order, the order [Object.entries] and rest destructuring
    observe.  A function that can throw returns a [result].

    Limits of the model.  Strings are sequences of 8-bit characters: white
    space is the ASCII white space and [toUpperCase] is the ASCII case
    mapping, so the model is exact on ASCII text.  Numbers are the integers
    whose string form is their decimal notation.  Arrays, symbols and
    functions do not occur as prop values.

    Conversions.  The modules [Utils] and [Components] give the text a
    function produces, with the total [ToString]; they are exact on plain
    props, whose objects have no [toString] property of their own.  The
    module [Strict] follows the same sources with the conversions that
    throw, and [StrictFacts] relates the two. *)

From Stdlib Require Import Strings.String Strings.Ascii Lists.List ZArith.ZArith
  Bool.Bool Numbers.DecimalString micromega.Lia.
Import ListNotations.

Open Scope list_scope.
Open Scope string_scope.

Set Warnings "-register-all".

(** ** Strings *)

Module Str.

(** The double quote character, and text written with apostrophes standing
    for double quotes: [html "class='x'"] is the text [class="x"].  None of
    the template literals of the sources contains an apostrophe. *)
Definition dquote : ascii := ascii_of_nat 34.
Definition squote : ascii := ascii_of_nat 39.

Fixpoint html (s : string) : string :=
  match s with
  | EmptyString => EmptyString
  | String c r => String (if Ascii.eqb c squote then dquote else c) (html r)
  end.

Definition nonempty (s : string) : bool :=
  match s with EmptyString => false | String _ _ => true end.

(** ECMAScript WhiteSpace and LineTerminator code points below 128: the
    characters [String.prototype.trim] strips and the class [\s] matches. *)
Definition is_space (c : ascii) : bool :=
  let n := nat_of_ascii c in
  (Nat.eqb n 9 || Nat.eqb n 10 || Nat.eqb n 11 || Nat.eqb n 12
   || Nat.eqb n 13 || Nat.eqb n 32)%bool.

Fixpoint trimStart (s : string) : string :=
  match s with
  | EmptyString => EmptyString
  | String c r => if is_space c then trimStart r else s
  end.

Fixpoint trimEnd (s : string) : string :=
  match s with
  | EmptyString => EmptyString
  | String c r =>
      match trimEnd r with
      | EmptyString => if is_space c then EmptyString else String c EmptyString
      | r' => String c r'
      end
  end.

(** [s.trim()] *)
Definition trim (s : string) : string := trimEnd (trimStart s).

(** [s.split(/\s+/)]: the pieces of [s] between maximal runs of white
    space.  The head of the result of [split_go] is the piece being read;
    [in_sep] says that the previous character belonged to a separator. *)
Fixpoint split_go (in_sep : bool) (s : string) : list string :=
  match s with
  | EmptyString => [EmptyString]
  | String c r =>
      if is_space c then
        if in_sep then split_go true r else EmptyString :: split_go true r
      else
        match split_go false r with
        | p :: ps => String c p :: ps
        | [] => [String c EmptyString]
        end
  end.

Definition split_space (s : string) : list string := split_go false s.

(** [s.charAt(0)] *)
Definition charAt0 (s : string) : string :=
  match s with
  | EmptyString => EmptyString
  | String c _ => String c EmptyString
  end.

Definition upper_ascii (c : ascii) : ascii :=
  let n := nat_of_ascii c in
  if (Nat.leb 97 n && Nat.leb n 122)%bool then ascii_of_nat (n - 32) else c.

(** [s.toUpperCase()] on ASCII text *)
Fixpoint toUpperCase (s : string) : string :=
  match s with
  | EmptyString => EmptyString
  | String c r => String (upper_ascii c) (toUpperCase r)
  end.

(** [xs.join(sep)] *)
Definition join (sep : string) (xs : list string) : string := String.concat sep xs.

(** [haystack.includes(needle)] *)
Fixpoint includes (needle haystack : string) : bool :=
  (String.prefix needle haystack
   || match haystack with
      | EmptyString => false
      | String _ r => includes needle r
      end)%bool.

(** The white-space separated tokens of a text, as the specification
    speaks of them: the non-empty maximal runs of characters that are not
    white space, in order. *)
Fixpoint tokens_go (cur : string) (s : string) : list string :=
  match s with
  | EmptyString => if nonempty cur then [cur] else []
  | String c r =>
      if is_space c then
        if nonempty cur then cur :: tokens_go EmptyString r
        else tokens_go EmptyString r
      else tokens_go (cur ++ String c EmptyString) r
  end.

Definition tokens (s : string) : list string := tokens_go EmptyString s.

End Str.

(** ** JavaScript values and objects *)

Module JS.

(** The data a props object can hold.  [VNum] stands for the integral
    numbers whose decimal notation is their string form. *)
Inductive value : Type :=
| VUndefined
| VNull
| VBool (b : bool)
| VNum (n : Z)
| VStr (s : string)
| VObj (fields : list (string * value)).

(** A plain object: its own enumerable properties in property order, every
    key at most once. *)
Definition obj : Type := list (string * value).

(** What reading a property of an object literal can give: data, or what
    the object inherits from [Object.prototype] (its built-in functions,
    or the prototype itself under the key [__proto__]). *)
Inductive jsval : Type :=
| JVal (v : value)
| JNative (name : string)
| JObjectPrototype.

(** ToBoolean *)
Definition truthy (v : value) : bool :=
  match v with
  | VUndefined | VNull => false
  | VBool b => b
  | VNum n => negb (Z.eqb n 0)
  | VStr s => Str.nonempty s
  | VObj _ => true
  end.

Definition jtruthy (j : jsval) : bool :=
  match j with
  | JVal v => truthy v
  | JNative _ | JObjectPrototype => true
  end.

Definition number_to_string (n : Z) : string := NilZero.string_of_int (Z.to_int n).

(** The text of a value, as [String(v)] and template literals give it when
    the conversion returns.  The conversion of an object with a [toString]
    property of its own throws instead: [Strict.ToString] below is the
    conversion with that case, and [Strict] holds the functions of the
    program with it. *)
Definition ToString (v : value) : string :=
  match v with
  | VUndefined => "undefined"
  | VNull => "null"
  | VBool true => "true"
  | VBool false => "false"
  | VNum n => number_to_string n
  | VStr s => s
  | VObj _ => "[object Object]"
  end.

Definition jToString (j : jsval) : string :=
  match j with
  | JVal v => ToString v
  | JNative name => "function " ++ name ++ "() { [native code] }"
  | JObjectPrototype => "[object Object]"
  end.

(** [typeof v === 'string'] *)
Definition isString (v : value) : bool :=
  match v with VStr _ => true | _ => false end.

(** [a || b] and [a ?? b] *)
Definition or (a b : value) : value := if truthy a then a else b.
Definition jor (a b : jsval) : jsval := if jtruthy a then a else b.
Definition nullish (a b : value) : value :=
  match a with
  | VUndefined | VNull => b
  | _ => a
  end.

Fixpoint own (o : obj) (k : string) : option value :=
  match o with
  | [] => None
  | (k', v) :: rest => if String.eqb k' k then Some v else own rest k
  end.

(** [o.k] for a key that [Object.prototype] does not define *)
Definition get (o : obj) (k : string) : value :=
  match own o k with
  | Some v => v
  | None => VUndefined
  end.

(** The properties every object literal inherits from [Object.prototype]. *)
Definition prototype_functions : list (string * string) :=
  [ ("constructor", "Object");
    ("__defineGetter__", "__defineGetter__");
    ("__defineSetter__", "__defineSetter__");
    ("hasOwnProperty", "hasOwnProperty");
    ("__lookupGetter__", "__lookupGetter__");
    ("__lookupSetter__", "__lookupSetter__");
    ("isPrototypeOf", "isPrototypeOf");
    ("propertyIsEnumerable", "propertyIsEnumerable");
    ("toString", "toString");
    ("valueOf", "valueOf");
    ("toLocaleString", "toLocaleString") ].

Fixpoint assoc (l : list (string * string)) (k : string) : option string :=
  match l with
  | [] => None
  | (k', v) :: rest => if String.eqb k' k then Some v else assoc rest k
  end.

Definition inherited (k : string) : jsval :=
  if String.eqb k "__proto__" then JObjectPrototype
  else match assoc prototype_functions k with
       | Some name => JNative name
       | None => JVal VUndefined
       end.

(** [o[k]] for a computed key: own properties first, then the prototype *)
Definition lookup (o : obj) (k : string) : jsval :=
  match own o k with
  | Some v => JVal v
  | None => inherited k
  end.

(** [o.k = v]: an existing key keeps its place, a new one goes last (the
    keys the program assigns are not array indices, which would go first) *)
Fixpoint set (o : obj) (k : string) (v : value) : obj :=
  match o with
  | [] => [(k, v)]
  | (k', v') :: rest =>
      if String.eqb k' k then (k, v) :: rest else (k', v') :: set rest k v
  end.

Definition mem (k : string) (keys : list string) : bool := existsb (String.eqb k) keys.

(** [const { k1, ..., kn, ...rest } = o]: the rest object *)
Definition omit (keys : list string) (o : obj) : obj :=
  filter (fun kv => negb (mem (fst kv) keys)) o.

(** [{ ...target, ...source }] *)
Definition spread (target source : obj) : obj :=
  fold_left (fun acc kv => set acc (fst kv) (snd kv)) source target.

(** [{ ...target, ...(cond && { k: v }) }]: spreading a falsy value adds
    nothing *)
Definition spread_when (target : obj) (cond : value) (k : string) (v : value) : obj :=
  if truthy cond then set target k v else target.

(** A function either returns or throws a [TypeError]. *)
Inductive result (A : Type) : Type :=
| Return (a : A)
| TypeError (message : string).
Arguments Return {A} a.
Arguments TypeError {A} message.

Definition bind {A B : Type} (r : result A) (f : A -> result B) : result B :=
  match r with
  | Return a => f a
  | TypeError m => TypeError m
  end.

Definition returns {A : Type} (r : result A) : bool :=
  match r with Return _ => true | TypeError _ => false end.

End JS.

Import JS.

Notation "x <- r ;; k" := (JS.bind r (fun x => k))
  (at level 61, r at next level, right associativity).

(** ** The class-name libraries the components call

    [clsx], [cva] (class-variance-authority) and [twMerge]
    (tailwind-merge) are dependencies of the repository, not part of it.
    They are modelled after their published sources. *)

Module Clsx.

(** A [ClassValue]: a value, or an array of class values. *)
Inductive ClassValue : Type :=
| CVal (v : jsval)
| CArray (items : list ClassValue).

Definition cv_truthy (mix : ClassValue) : bool :=
  match mix with
  | CVal v => jtruthy v
  | CArray _ => true
  end.

(** [str && (str += ' '); str += x] *)
Definition push (str x : string) : string :=
  (if Str.nonempty str then str ++ " " else str) ++ x.

(** The loop of [toVal] over the keys of an object: a key whose value is
    truthy is a class name. *)
Definition keys_val (fields : obj) : string :=
  fold_left (fun str kv => if truthy (snd kv) then push str (fst kv) else str)
            fields "".

Fixpoint toVal (mix : ClassValue) : string :=
  match mix with
  | CVal (JVal (VStr s)) => s
  | CVal (JVal (VNum n)) => number_to_string n
  | CVal (JVal (VObj fields)) => keys_val fields
  | CVal _ => ""
  | CArray items =>
      fold_left
        (fun str item =>
           if cv_truthy item then
             let y := toVal item in
             if Str.nonempty y then push str y else str
           else str)
        items ""
  end.

(** [clsx(...args)] *)
Definition clsx (args : list ClassValue) : string :=
  fold_left
    (fun str tmp =>
       if cv_truthy tmp then
         let x := toVal tmp in
         if Str.nonempty x then push str x else str
       else str)
    args "".

(** An item of an array contributes to the class string when it is truthy
    and its class text is not empty. *)
Definition contributes (item : ClassValue) : bool :=
  (cv_truthy item && Str.nonempty (toVal item))%bool.

End Clsx.

Module Cva.
Import Clsx.

(** The second argument of [cva]: the variant axes in declaration order,
    each with its table from value name to class fragment, and the default
    value of each axis. *)
Record config : Type := {
  variants : list (string * obj);
  defaultVariants : obj
}.

Definition falsyToString (v : value) : value :=
  match v with
  | VBool true => VStr "true"
  | VBool false => VStr "false"
  | VNum 0 => VStr "0"
  | _ => v
  end.

(** The class fragment [cva] selects for one axis: nothing for [null],
    otherwise the table's entry under the given value or, when that value
    is falsy, under the axis default. *)
Definition variantClassName (cfg : config) (props : obj) (variant : string) (table : obj) : jsval :=
  let variantProp := get props variant in
  let defaultVariantProp := get (defaultVariants cfg) variant in
  match variantProp with
  | VNull => JVal VNull
  | _ =>
      let variantKey := JS.or (falsyToString variantProp) (falsyToString defaultVariantProp) in
      lookup table (ToString variantKey)
  end.

(** [cva(base, config)(props)] for a configuration without compound
    variants. *)
Definition cva (base : string) (cfg : config) (props : obj) : string :=
  let getVariantClassNames :=
    map (fun axis => CVal (variantClassName cfg props (fst axis) (snd axis))) (variants cfg) in
  clsx [ CVal (JVal (VStr base));
         CArray getVariantClassNames;
         CVal (JVal VUndefined);
         CVal (JVal (get props "class"));
         CVal (JVal (get props "className")) ].

(** The configuration without one of its axes. *)
Definition without (axis : string) (cfg : config) : config :=
  {| variants := filter (fun a => negb (String.eqb (fst a) axis)) (variants cfg);
     defaultVariants := defaultVariants cfg |}.

(** An axis value is absent when the prop is missing, [undefined] or the
    empty string; it is unknown to a table when it is [null] or names no
    entry of the table. *)
Definition absent (v : value) : Prop := v = VUndefined \/ v = VStr "".

Definition unknown (table : obj) (v : value) : Prop :=
  v = VNull
  \/ (truthy (falsyToString v) = true /\ own table (ToString (falsyToString v)) = None).

End Cva.

Module TailwindMerge.

(** What [twMerge] takes from its configuration: for a class name, whether
    it is a Tailwind class and then its modifier id, its class group and
    whether it carries a postfix modifier; and for a class group, the groups
    it overrides. *)
Class Config : Type := {
  classify : string -> option (string * string * bool);
  conflicting : string -> bool -> list string
}.

Section Merge.
Context {tw : Config}.

(** [originalClassName + (result.length > 0 ? ' ' + result : result)] *)
Definition prepend (originalClassName result : string) : string :=
  originalClassName ++ (if Str.nonempty result then " " ++ result else result).

(** The loop of [mergeClassList], from the last class name to the first. *)
Fixpoint mergeLoop (classNames : list string) (classGroupsInConflict : list string)
         (result : string) : string :=
  match classNames with
  | [] => result
  | originalClassName :: earlier =>
      match classify originalClassName with
      | None => mergeLoop earlier classGroupsInConflict (prepend originalClassName result)
      | Some (modifierId, classGroupId, hasPostfixModifier) =>
          let classId := modifierId ++ classGroupId in
          if mem classId classGroupsInConflict then
            mergeLoop earlier classGroupsInConflict result
          else
            mergeLoop earlier
              (classGroupsInConflict ++ classId
                 :: map (fun group => modifierId ++ group)
                        (conflicting classGroupId hasPostfixModifier))
              (prepend originalClassName result)
      end
  end.

Definition mergeClassList (classList : string) : string :=
  mergeLoop (rev (Str.split_space (Str.trim classList))) [] "".

(** The class id of a class name ([modifierId + classGroupId]), and the
    class ids it puts in conflict: its own and those of the groups its
    group overrides. *)
Definition classId (name : string) : option string :=
  match classify name with
  | Some (modifierId, classGroupId, _) => Some (modifierId ++ classGroupId)
  | None => None
  end.

Definition claimed (name : string) : list string :=
  match classify name with
  | Some (modifierId, classGroupId, hasPostfixModifier) =>
      (modifierId ++ classGroupId)
        :: map (fun group => modifierId ++ group)
               (conflicting classGroupId hasPostfixModifier)
  | None => []
  end.

(** The class names the loop keeps, in the order it visits them, and the
    class ids in conflict when it ends. *)
Fixpoint kept (classNames : list string) (inConflict : list string) : list string :=
  match classNames with
  | [] => []
  | name :: earlier =>
      match classId name with
      | None => name :: kept earlier inConflict
      | Some id =>
          if mem id inConflict then kept earlier inConflict
          else name :: kept earlier (inConflict ++ claimed name)
      end
  end.

Fixpoint inConflictAfter (classNames : list string) (inConflict : list string) : list string :=
  match classNames with
  | [] => inConflict
  | name :: earlier =>
      match classId name with
      | None => inConflictAfter earlier inConflict
      | Some id =>
          if mem id inConflict then inConflictAfter earlier inConflict
          else inConflictAfter earlier (inConflict ++ claimed name)
      end
  end.

(** The class names of a list that survive the merge, in their order. *)
Definition survivors (classNames : list string) : list string :=
  rev (kept (rev classNames) []).

(** [twMerge(classList)] *)
Definition twMerge (classList : string) : string := mergeClassList classList.

End Merge.

(** An excerpt of the default configuration of tailwind-merge: the padding
    class groups and the groups each of them overrides. *)
Definition paddingGroups : list string :=
  [ "px"; "py"; "ps"; "pe"; "pt"; "pr"; "pb"; "pl"; "p" ].

Definition paddingGroup (name : string) : option string :=
  find (fun group => String.prefix (group ++ "-") name) paddingGroups.

Definition paddingConfig : Config :=
  {| classify := fun name =>
       match paddingGroup name with
       | Some group => Some ("", group, false)
       | None => None
       end;
     conflicting := fun group _ =>
       if String.eqb group "p" then [ "px"; "py"; "ps"; "pe"; "pt"; "pr"; "pb"; "pl" ]
       else if String.eqb group "px" then [ "pr"; "pl" ]
       else if String.eqb group "py" then [ "pt"; "pb" ]
       else [] |}.

End TailwindMerge.

(** ** src/ui/utils/utils.ts: [cn] and [createAttributesStringified] *)

Module Utils.
Import Clsx TailwindMerge.

Section Cn.
Context {tw : Config}.

(** [cn(...inputs)] *)
Definition cn (inputs : list ClassValue) : string := twMerge (clsx [CArray inputs]).

End Cn.

Definition is_boolean (v : value) : bool :=
  match v with VBool _ => true | _ => false end.

Definition present (v : value) : bool :=
  match v with VUndefined | VNull => false | _ => true end.

(** The function [createAttributesStringified] maps over the entries. *)
Definition stringifyEntry (kv : string * value) : string :=
  match snd kv with
  | VBool value => if value then fst kv else ""
  | value => fst kv ++ Str.html "='" ++ ToString value ++ Str.html "'"
  end.

(** [createAttributesStringified(attributes)] *)
Definition createAttributesStringified (attributes : obj) : string :=
  Str.join " "
    (filter Str.nonempty
       (map stringifyEntry (filter (fun kv => present (snd kv)) attributes))).

End Utils.

(** ** The component factories *)

Module Components.
Import Clsx Cva TailwindMerge Utils Str.

(** An object literal whose values are class fragments. *)
Definition classes_table (entries : list (string * string)) : obj :=
  map (fun kv => (fst kv, VStr (snd kv))) entries.

(** *** The activity item (components/activity-item.ts; in the sources it
    follows the utilities in src/ui/utils/utils.ts) *)

Definition activityItemConfig : config :=
  {| variants :=
       [ ("hasBorder", classes_table [ ("true", "border-b border-gray-100"); ("false", "") ]) ];
     defaultVariants := [ ("hasBorder", VBool true) ] |}.

Definition activityItemBase : string :=
  "flex items-center justify-between py-4 hover:bg-gray-50 px-4 rounded-lg transition-colors".

Definition activityItemVariants : obj -> string := cva activityItemBase activityItemConfig.

Definition getActivityItemClasses (props : obj) : string :=
  let hasBorder := get props "hasBorder" in
  let className := get props "className" in
  clsx [ CVal (JVal (VStr (activityItemVariants [ ("hasBorder", hasBorder) ])));
         CVal (JVal className) ].

Definition statusColorClasses : obj :=
  classes_table
    [ ("blue", "bg-blue-600");
      ("green", "bg-green-600");
      ("yellow", "bg-yellow-600");
      ("red", "bg-red-600");
      ("purple", "bg-purple-600") ].

(** [statusColor] of [createActivityItem] *)
Definition activityStatusColor (props : obj) : jsval :=
  if truthy (get props "statusColor")
  then lookup statusColorClasses (ToString (get props "statusColor"))
  else lookup statusColorClasses "blue".

(** [descriptionHtml] of [createActivityItem] *)
Definition activityDescriptionHtml (props : obj) : string :=
  if truthy (get props "description")
  then html "<p class='text-xs text-gray-500 mt-1'>" ++ ToString (get props "description") ++ "</p>"
  else "".

(** [attributes] of [createActivityItem] and of [createUserInfoFields] *)
Definition testidAttribute (props : obj) : string :=
  if truthy (get props "data-testid")
  then html "data-testid='" ++ ToString (get props "data-testid") ++ html "'"
  else "".

(** The template literal [createActivityItem] returns, as a function of
    the expressions it interpolates. *)
Definition activityItemMarkup
    (classes attributes statusColor title descriptionHtml timeAgo : string) : string :=
  html "
    <div class='" ++ classes ++ html "' " ++ attributes ++ html ">
      <div class='flex items-center gap-4'>
        <div class='relative'>
          <div class='w-3 h-3 " ++ statusColor ++ html " rounded-full status-dot'></div>
        </div>
        <div>
          <p class='text-sm font-medium text-gray-900'>" ++ title ++ html "</p>
          " ++ descriptionHtml ++ html "
        </div>
      </div>
      <span class='text-xs text-gray-500 font-medium'>" ++ timeAgo ++ html "</span>
    </div>
  ".

Definition createActivityItem (props : obj) : string :=
  let classes := getActivityItemClasses props in
  let attributes := testidAttribute props in
  let statusColor := activityStatusColor props in
  let descriptionHtml := activityDescriptionHtml props in
  activityItemMarkup classes attributes (jToString statusColor)
    (ToString (get props "title")) descriptionHtml (ToString (get props "timeAgo")).

(** *** The user-info block (src/ui/components/user-info-fields.ts) *)

(** [u.k] for a value [u]: reading a property of [undefined] or [null]
    throws; the primitive values have no property named [name], [email] or
    [id]. *)
Definition member (u : value) (k : string) : result value :=
  match u with
  | VUndefined => TypeError ("Cannot read properties of undefined (reading '" ++ k ++ "')")
  | VNull => TypeError ("Cannot read properties of null (reading '" ++ k ++ "')")
  | VObj fields => Return (get fields k)
  | _ => Return VUndefined
  end.

(** The template literal [createUserInfoFields] returns, as a function of
    the expressions it interpolates. *)
Definition userInfoMarkup (attributes name email id : string) : string :=
  html "
    <div class='space-y-4' " ++ attributes ++ html ">
      <div class='p-4 bg-gray-50 rounded-lg border border-gray-100'>
        <label class='text-xs font-semibold text-gray-500 uppercase tracking-wide'>Full Name</label>
        <p class='text-gray-900 mt-1 font-medium'>" ++ name ++ html "</p>
      </div>
      <div class='p-4 bg-gray-50 rounded-lg border border-gray-100'>
        <label class='text-xs font-semibold text-gray-500 uppercase tracking-wide'>Email Address</label>
        <p class='text-gray-900 mt-1 font-medium'>" ++ email ++ html "</p>
      </div>
      <div class='p-4 bg-gray-50 rounded-lg border border-gray-100'>
        <label class='text-xs font-semibold text-gray-500 uppercase tracking-wide'>User ID</label>
        <p class='text-gray-900 mt-1 font-mono text-sm'>" ++ id ++ html "</p>
      </div>
    </div>
  ".

Definition createUserInfoFields (props : obj) : result string :=
  let attributes := testidAttribute props in
  name <- member (get props "user") "name" ;;
  email <- member (get props "user") "email" ;;
  id <- member (get props "user") "id" ;;
  Return (userInfoMarkup attributes (ToString name) (ToString email) (ToString id)).

(** *** The avatar (src/ui/components/avatar.ts) *)

Definition avatarConfig : config :=
  {| variants :=
       [ ("variant",
          classes_table
            [ ("default", "bg-muted");
              ("primary", "bg-primary text-primary-foreground");
              ("secondary", "bg-secondary text-secondary-foreground");
              ("accent", "bg-accent text-accent-foreground");
              ("destructive", "bg-destructive text-destructive-foreground") ]);
         ("size",
          classes_table
            [ ("sm", "size-8 text-xs");
              ("md", "size-10 text-sm");
              ("lg", "size-12 text-base");
              ("xl", "size-16 text-lg") ]) ];
     defaultVariants := [ ("variant", VStr "default"); ("size", VStr "md") ] |}.

Definition avatarBase : string :=
  "relative flex shrink-0 overflow-hidden rounded-full".

Definition avatarVariants : obj -> string := cva avatarBase avatarConfig.

Definition avatarKeys : list string :=
  [ "variant"; "size"; "className"; "name"; "src"; "alt" ].

Definition getAvatarAttributes (props : obj) : obj := omit avatarKeys props.

(** [getInitials(name)]; [name.trim] is a function only when [name] is a
    string. *)
Definition getInitials (name : value) : result string :=
  if negb (truthy name) then Return ""
  else
    match name with
    | VStr s =>
        let parts := split_space (trim s) in
        if Nat.eqb (length parts) 1
        then Return (toUpperCase (charAt0 (nth 0 parts "")))
        else Return (toUpperCase (charAt0 (nth 0 parts "")
                                  ++ charAt0 (nth (length parts - 1) parts "")))
    | _ => TypeError "name.trim is not a function"
    end.

Section WithTailwind.
Context {tw : Config}.

Definition avatarClasses (props : obj) : string :=
  cn [ CVal (JVal (VStr (avatarVariants [ ("variant", get props "variant");
                                           ("size", get props "size") ])));
       CVal (JVal (get props "className")) ].

Definition createAvatar (props : obj) : result string :=
  let name := get props "name" in
  let src := get props "src" in
  let alt := get props "alt" in
  let rest := omit avatarKeys props in
  let classes := avatarClasses props in
  let attributes := getAvatarAttributes rest in
  let attributesStringified := createAttributesStringified attributes in
  initials <- (if truthy name then getInitials name else Return "") ;;
  let displayAlt := JS.or (JS.or alt name) (VStr "Avatar") in
  if truthy src then
    Return (html "<img data-slot='avatar' class='" ++ classes ++ html "' src='" ++ ToString src
            ++ html "' alt='" ++ ToString displayAlt ++ html "' " ++ attributesStringified ++ " />")
  else
    Return (html "<div data-slot='avatar' class='" ++ classes
            ++ html " flex items-center justify-center font-semibold' "
            ++ attributesStringified ++ ">" ++ initials ++ "</div>").

End WithTailwind.

(** *** The KPI (components/kpi.ts; in the sources it follows the user-info
    block in src/ui/components/user-info-fields.ts) *)

Definition kpiConfig : config :=
  {| variants :=
       [ ("variant",
          classes_table
            [ ("default", "border-gray-200");
              ("gradient", "bg-gradient-to-br from-white to-gray-50 border-gray-200");
              ("outlined", "border-2 border-gray-300") ]);
         ("size",
          classes_table
            [ ("default", "p-6");
              ("sm", "p-4");
              ("lg", "p-8") ]) ];
     defaultVariants := [ ("variant", VStr "default"); ("size", VStr "default") ] |}.

Definition kpiBase : string :=
  "rounded-lg border bg-card text-card-foreground shadow-sm transition-all hover:shadow-md".

Definition kpiVariants : obj -> string := cva kpiBase kpiConfig.

Definition kpiKeys : list string :=
  [ "variant"; "size"; "className"; "title"; "value"; "description"; "iconPath";
    "iconColor"; "change"; "trend"; "changeDescription" ].

Definition getKPIAttributes (props : obj) : obj := omit kpiKeys props.

Definition colorMap : obj :=
  classes_table
    [ ("blue", "bg-blue-100 text-blue-600");
      ("purple", "bg-purple-100 text-purple-600");
      ("cyan", "bg-cyan-100 text-cyan-600");
      ("green", "bg-green-100 text-green-600");
      ("yellow", "bg-yellow-100 text-yellow-600");
      ("red", "bg-red-100 text-red-600");
      ("gray", "bg-gray-100 text-gray-600") ].

Definition getIconColorClasses (color : value) : jsval :=
  jor (lookup colorMap (ToString (JS.or color (VStr "blue")))) (lookup colorMap "blue").

Definition trendMap : obj :=
  classes_table
    [ ("up", "text-green-600");
      ("down", "text-red-600");
      ("neutral", "text-gray-600") ].

Definition getTrendColorClasses (trend : value) : jsval :=
  jor (lookup trendMap (ToString (JS.or trend (VStr "neutral")))) (lookup trendMap "neutral").

(** [a === 'text'] *)
Definition is_string (v : value) (text : string) : bool :=
  match v with
  | VStr s => String.eqb s text
  | _ => false
  end.

Definition getTrendIcon (trend : value) : string :=
  if is_string trend "up" then
    html "<svg class='w-3 h-3' fill='none' stroke='currentColor' viewBox='0 0 24 24'>
      <path stroke-linecap='round' stroke-linejoin='round' stroke-width='2' d='M13 7h8m0 0v8m0-8l-8 8-4-4-6 6' />
    </svg>"
  else if is_string trend "down" then
    html "<svg class='w-3 h-3' fill='none' stroke='currentColor' viewBox='0 0 24 24'>
      <path stroke-linecap='round' stroke-linejoin='round' stroke-width='2' d='M13 17h8m0 0V9m0 8l-8-8-4 4-6-6' />
    </svg>"
  else "".

Definition is_undefined (v : value) : bool :=
  match v with VUndefined => true | _ => false end.

(** The inner [changeDescription] span of [changeHtml] *)
Definition kpiChangeDescription (props : obj) : string :=
  if truthy (get props "changeDescription")
  then html "<span class='text-xs text-muted-foreground ml-1'>"
       ++ ToString (get props "changeDescription") ++ "</span>"
  else "".

(** The template literal [createKPI] returns (before [trim]), as a function
    of the expressions it interpolates. *)
Definition kpiMarkup
    (classes attributesStringified titleHtml valueHtml descriptionHtml changeHtml iconSvg
     : string) : string :=
  html "
    <div class='" ++ classes ++ html "' " ++ attributesStringified ++ html ">
      <div class='flex items-start justify-between'>
        <div class='flex-1'>
          " ++ titleHtml ++ html "
          <div class='flex items-baseline gap-2'>
            " ++ valueHtml ++ html "
          </div>
          " ++ descriptionHtml ++ html "
          " ++ changeHtml ++ html "
        </div>
        " ++ iconSvg ++ html "
      </div>
    </div>
  ".

Section WithTailwind.
Context {tw : Config}.

Definition kpiClasses (props : obj) : string :=
  cn [ CVal (JVal (VStr (kpiVariants [ ("variant", get props "variant");
                                        ("size", get props "size") ])));
       CVal (JVal (get props "className")) ].

Definition createKPI (props : obj) : string :=
  let rest := omit [ "variant"; "size"; "className" ] props in
  let classes := kpiClasses props in
  let attributes := getKPIAttributes rest in
  let attributesStringified := createAttributesStringified attributes in
  let iconClasses := getIconColorClasses (get props "iconColor") in
  let trendClasses := getTrendColorClasses (get props "trend") in
  let trendIcon := getTrendIcon (get props "trend") in
  let iconSvg :=
    if truthy (get props "iconPath") then
      html "<div class='flex h-10 w-10 shrink-0 items-center justify-center rounded-lg "
      ++ jToString iconClasses ++ html "'>
        <svg class='w-5 h-5' fill='none' stroke='currentColor' viewBox='0 0 24 24'>
          <path stroke-linecap='round' stroke-linejoin='round' stroke-width='2' d='"
      ++ ToString (get props "iconPath") ++ html "' />
        </svg>
      </div>"
    else "" in
  let titleHtml :=
    if truthy (get props "title") then
      html "<p class='text-sm font-medium text-muted-foreground mb-1'>"
      ++ ToString (get props "title") ++ "</p>"
    else "" in
  let valueHtml :=
    if negb (is_undefined (get props "value")) then
      html "<h3 class='text-2xl font-bold text-foreground'>"
      ++ ToString (get props "value") ++ "</h3>"
    else "" in
  let descriptionHtml :=
    if truthy (get props "description") then
      html "<p class='text-xs text-muted-foreground mt-1'>"
      ++ ToString (get props "description") ++ "</p>"
    else "" in
  let changeHtml :=
    if (truthy (get props "change") && truthy (get props "trend"))%bool then
      html "<div class='mt-2 flex items-center gap-1 " ++ jToString trendClasses ++ html "'>
          " ++ trendIcon ++ html "
          <span class='text-sm font-medium'>" ++ ToString (get props "change") ++ html "</span>
          " ++ kpiChangeDescription props ++ html "
        </div>"
    else if truthy (get props "change") then
      html "<div class='mt-2'>
            <span class='text-sm font-medium text-foreground'>" ++ ToString (get props "change") ++ html "</span>
            " ++ kpiChangeDescription props ++ html "
          </div>"
    else "" in
  trim (kpiMarkup classes attributesStringified titleHtml valueHtml descriptionHtml
          changeHtml iconSvg).

End WithTailwind.

(** *** The card family (components/card.ts; in the sources it follows the
    KPI in src/ui/components/user-info-fields.ts) *)

Definition cardConfig : config :=
  {| variants :=
       [ ("variant",
          classes_table
            [ ("default", "border-gray-200");
              ("gradient",
               "bg-gradient-to-br from-white dark:from-gray-900 to-gray-50 dark:to-gray-800 border-gray-200");
              ("outlined", "border-2 border-gray-300") ]);
         ("padding",
          classes_table
            [ ("none", "");
              ("sm", "py-4");
              ("md", "py-6");
              ("lg", "py-8") ]) ];
     defaultVariants := [ ("variant", VStr "default"); ("padding", VStr "md") ] |}.

Definition cardBase : string :=
  "bg-card text-card-foreground flex flex-col gap-6 rounded-xl border shadow-sm".

Definition cardVariants : obj -> string := cva cardBase cardConfig.

(** The opening tag of the elements of the card family. *)
Definition slotOpen (slot classes attributesStringified : string) : string :=
  html "<div data-slot='" ++ slot ++ html "' class='" ++ classes ++ html "' "
  ++ attributesStringified ++ ">".

Definition cardKeys : list string := [ "variant"; "padding"; "className"; "children" ].
Definition regionKeys : list string := [ "className"; "children" ].

Definition getCardAttributes (props : obj) : obj := omit cardKeys props.
Definition getCardHeaderAttributes (props : obj) : obj := omit regionKeys props.
Definition getCardTitleAttributes (props : obj) : obj := omit regionKeys props.
Definition getCardDescriptionAttributes (props : obj) : obj := omit regionKeys props.
Definition getCardActionAttributes (props : obj) : obj := omit regionKeys props.
Definition getCardContentAttributes (props : obj) : obj := omit regionKeys props.
Definition getCardFooterAttributes (props : obj) : obj := omit regionKeys props.

Section WithTailwind.
Context {tw : Config}.

Definition cardClasses (props : obj) : string :=
  cn [ CVal (JVal (VStr (cardVariants [ ("variant", get props "variant");
                                         ("padding", get props "padding") ])));
       CVal (JVal (get props "className")) ].

Definition createCard (props : obj) : string :=
  let children := get props "children" in
  let rest := omit cardKeys props in
  let classes := cardClasses props in
  let attributes := getCardAttributes rest in
  let attributesStringified := createAttributesStringified attributes in
  let content := nullish children (VStr "") in
  html "<div data-slot='card' class='" ++ classes ++ html "' " ++ attributesStringified
  ++ ">" ++ ToString content ++ "</div>".

(** The classes of a card sub-region: [cn(base, className)] *)
Definition regionClasses (base : string) (props : obj) : string :=
  cn [ CVal (JVal (VStr base)); CVal (JVal (get props "className")) ].

Definition cardHeaderBase : string :=
  "@container/card-header grid auto-rows-min grid-rows-[auto_auto] items-start gap-2 px-6 has-data-[slot=card-action]:grid-cols-[1fr_auto] [.border-b]:pb-6".

Definition createCardHeader (props : obj) : string :=
  let children := get props "children" in
  let rest := omit regionKeys props in
  let classes := regionClasses cardHeaderBase props in
  let attributes := getCardHeaderAttributes rest in
  let attributesStringified := createAttributesStringified attributes in
  let content := nullish children (VStr "") in
  html "<div data-slot='card-header' class='" ++ classes ++ html "' " ++ attributesStringified
  ++ ">" ++ ToString content ++ "</div>".

Definition createCardTitle (props : obj) : string :=
  let children := get props "children" in
  let rest := omit regionKeys props in
  let classes := regionClasses "leading-none font-semibold" props in
  let attributes := getCardTitleAttributes rest in
  let attributesStringified := createAttributesStringified attributes in
  let content := nullish children (VStr "") in
  html "<div data-slot='card-title' class='" ++ classes ++ html "' " ++ attributesStringified
  ++ ">" ++ ToString content ++ "</div>".

Definition createCardDescription (props : obj) : string :=
  let children := get props "children" in
  let rest := omit regionKeys props in
  let classes := regionClasses "text-muted-foreground text-sm" props in
  let attributes := getCardDescriptionAttributes rest in
  let attributesStringified := createAttributesStringified attributes in
  let content := nullish children (VStr "") in
  html "<div data-slot='card-description' class='" ++ classes ++ html "' " ++ attributesStringified
  ++ ">" ++ ToString content ++ "</div>".

Definition createCardAction (props : obj) : string :=
  let children := get props "children" in
  let rest := omit regionKeys props in
  let classes :=
    regionClasses "col-start-2 row-span-2 row-start-1 self-start justify-self-end" props in
  let attributes := getCardActionAttributes rest in
  let attributesStringified := createAttributesStringified attributes in
  let content := nullish children (VStr "") in
  html "<div data-slot='card-action' class='" ++ classes ++ html "' " ++ attributesStringified
  ++ ">" ++ ToString content ++ "</div>".

Definition createCardContent (props : obj) : string :=
  let children := get props "children" in
  let rest := omit regionKeys props in
  let classes := regionClasses "px-6" props in
  let attributes := getCardContentAttributes rest in
  let attributesStringified := createAttributesStringified attributes in
  let content := nullish children (VStr "") in
  html "<div data-slot='card-content' class='" ++ classes ++ html "' " ++ attributesStringified
  ++ ">" ++ ToString content ++ "</div>".

Definition createCardFooter (props : obj) : string :=
  let children := get props "children" in
  let rest := omit regionKeys props in
  let classes := regionClasses "flex items-center px-6 [.border-t]:pt-6" props in
  let attributes := getCardFooterAttributes rest in
  let attributesStringified := createAttributesStringified attributes in
  let content := nullish children (VStr "") in
  html "<div data-slot='card-footer' class='" ++ classes ++ html "' " ++ attributesStringified
  ++ ">" ++ ToString content ++ "</div>".

End WithTailwind.

(** *** The input (components/input.ts, src/unnamed/part_002) *)

Definition inputConfig : config :=
  {| variants :=
       [ ("variant",
          classes_table
            [ ("default", "");
              ("subtle", "bg-gray-100");
              ("ghost", "bg-transparent border-transparent focus-visible:border-gray-300") ]);
         ("size",
          classes_table
            [ ("lg", "h-10 px-4 text-sm");
              ("md", "h-9 px-3 text-sm");
              ("sm", "h-8 px-2.5 text-xs") ]);
         ("state",
          classes_table
            [ ("normal", "");
              ("error", "border-red-500 focus-visible:ring-red-500");
              ("success", "border-green-500 focus-visible:ring-green-500") ]) ];
     defaultVariants :=
       [ ("variant", VStr "default"); ("size", VStr "md"); ("state", VStr "normal") ] |}.

Definition inputBase : string :=
  "w-full appearance-none bg-white text-foreground placeholder:text-muted-foreground border border-gray-300 rounded-md ring-offset-white transition-colors focus-visible:outline-none focus-visible:ring-2 focus-visible:ring-primary focus-visible:ring-offset-2 disabled:cursor-not-allowed disabled:opacity-50".

Definition inputVariants : obj -> string := cva inputBase inputConfig.

Definition inputKeys : list string :=
  [ "variant"; "size"; "state"; "className"; "onInput"; "onChange"; "onBlur"; "onFocus" ].

Definition getInputAttributes (props : obj) : obj :=
  let onInput := get props "onInput" in
  let onChange := get props "onChange" in
  let onBlur := get props "onBlur" in
  let onFocus := get props "onFocus" in
  let attributes := omit inputKeys props in
  let a1 := spread_when attributes onInput "oninput" onInput in
  let a2 := spread_when a1 onChange "onchange" onChange in
  let a3 := spread_when a2 onBlur "onblur" onBlur in
  let a4 := spread_when a3 onFocus "onfocus" onFocus in
  let a5 := spread_when a4 (get props "disabled") "disabled" (VBool true) in
  let a6 := spread_when a5 (get props "readOnly") "readonly" (VBool true) in
  let a7 := spread_when a6 (get props "required") "required" (VBool true) in
  spread_when a7 (get props "autoFocus") "autofocus" (VBool true).

(** *** The badge (components/badge.ts; in the sources it follows the input
    in src/unnamed/part_002) *)

Definition badgeConfig : config :=
  {| variants :=
       [ ("variant",
          classes_table
            [ ("default",
               "border-transparent bg-primary text-primary-foreground [a&]:hover:bg-primary/90");
              ("secondary",
               "border-transparent bg-secondary text-secondary-foreground [a&]:hover:bg-secondary/90");
              ("destructive",
               "border-transparent bg-destructive text-white [a&]:hover:bg-destructive/90 focus-visible:ring-destructive/20 dark:focus-visible:ring-destructive/40 dark:bg-destructive/60");
              ("outline",
               "text-foreground [a&]:hover:bg-accent [a&]:hover:text-accent-foreground") ]) ];
     defaultVariants := [ ("variant", VStr "default") ] |}.

Definition badgeBase : string :=
  "inline-flex items-center justify-center rounded-full border px-2 py-0.5 text-xs font-medium w-fit whitespace-nowrap shrink-0 [&>svg]:size-3 gap-1 [&>svg]:pointer-events-none focus-visible:border-ring focus-visible:ring-ring/50 focus-visible:ring-[3px] aria-invalid:ring-destructive/20 dark:aria-invalid:ring-destructive/40 aria-invalid:border-destructive transition-[color,box-shadow] overflow-hidden".

Definition badgeVariants : obj -> string := cva badgeBase badgeConfig.

Definition badgeKeys : list string := [ "variant"; "className"; "children" ].

Section WithTailwind.
Context {tw : Config}.

Definition inputClasses (props : obj) : string :=
  cn [ CVal (JVal (VStr (inputVariants [ ("variant", get props "variant");
                                          ("size", get props "size");
                                          ("state", get props "state") ])));
       CVal (JVal (get props "className")) ].

Definition createInput (props : obj) : string :=
  let rest := omit [ "variant"; "size"; "state"; "className" ] props in
  let classes := inputClasses props in
  let attributes := getInputAttributes rest in
  let attributesStringified := createAttributesStringified attributes in
  html "<input class='" ++ classes ++ html "' " ++ attributesStringified ++ " />".

Definition badgeClasses (props : obj) : string :=
  cn [ CVal (JVal (VStr (badgeVariants [ ("variant", get props "variant") ])));
       CVal (JVal (get props "className")) ].

Definition createBadge (props : obj) : string :=
  let children := get props "children" in
  let rest := omit badgeKeys props in
  let classes := badgeClasses props in
  let attributesStringified := createAttributesStringified rest in
  let content := nullish children (VStr "") in
  html "<span class='" ++ classes ++ html "' " ++ attributesStringified
  ++ ">" ++ ToString content ++ "</span>".

(** The class resolvers that go through [cn], each with the string it
    passes to [cn] before the [className] override: the output of its
    variant table, or its fixed base classes. *)
Definition classResolvers : list ((obj -> string) * (obj -> string)) :=
  [ (avatarClasses,
     fun props => avatarVariants [ ("variant", get props "variant");
                                   ("size", get props "size") ]);
    (kpiClasses,
     fun props => kpiVariants [ ("variant", get props "variant");
                                ("size", get props "size") ]);
    (cardClasses,
     fun props => cardVariants [ ("variant", get props "variant");
                                 ("padding", get props "padding") ]);
    (regionClasses cardHeaderBase, fun _ => cardHeaderBase);
    (regionClasses "leading-none font-semibold", fun _ => "leading-none font-semibold");
    (regionClasses "text-muted-foreground text-sm", fun _ => "text-muted-foreground text-sm");
    (regionClasses "col-start-2 row-span-2 row-start-1 self-start justify-self-end",
     fun _ => "col-start-2 row-span-2 row-start-1 self-start justify-self-end");
    (regionClasses "px-6", fun _ => "px-6");
    (regionClasses "flex items-center px-6 [.border-t]:pt-6",
     fun _ => "flex items-center px-6 [.border-t]:pt-6");
    (inputClasses,
     fun props => inputVariants [ ("variant", get props "variant");
                                  ("size", get props "size");
                                  ("state", get props "state") ]);
    (badgeClasses,
     fun props => badgeVariants [ ("variant", get props "variant") ]) ].

End WithTailwind.

End Components.

(** ** The helper registry (helpers/handlebars-helpers.ts,
    src/unnamed/part_004) *)

Module Helpers.
Import Components TailwindMerge.

(** [new Handlebars.SafeString(html)]: markup the template engine does not
    escape. *)
Inductive SafeString : Type := MkSafeString (markup : string).

Section Registry.
Context {tw : Config}.

(** The data context of the surrounding template ([this]). *)
Variable Context_ : Type.

(** [createButton] of components/button.ts, which is not among the
    sources: any function from props to markup. *)
Variable createButton : obj -> string.

(** [Handlebars.HelperOptions]: the named arguments of the call ([hash])
    and, in block form, the renderer of the enclosed block ([fn]). *)
Record HelperOptions : Type := {
  hash : option obj;
  fn : option (Context_ -> string)
}.

(** [(options?.hash as Props) || {}] *)
Definition propsOf (options : HelperOptions) : obj :=
  match hash options with
  | Some h => h
  | None => []
  end.

(** [if (options.fn) { props.children = options.fn(this); }] *)
Definition withBlock (this : Context_) (options : HelperOptions) (props : obj) : obj :=
  match fn options with
  | Some render => set props "children" (VStr (render this))
  | None => props
  end.

Definition Helper : Type := Context_ -> HelperOptions -> result SafeString.

(** A helper with block support around a factory. *)
Definition blockHelper (create : obj -> string) : Helper :=
  fun this options =>
    let props := propsOf options in
    let props := withBlock this options props in
    let html := create props in
    Return (MkSafeString html).

(** A helper without block support. *)
Definition inlineHelper (create : obj -> result string) : Helper :=
  fun this options =>
    let props := propsOf options in
    html <- create props ;;
    Return (MkSafeString html).

Definition total (create : obj -> string) : obj -> result string :=
  fun props => Return (create props).

Definition buttonHelper : Helper := blockHelper createButton.
Definition inputHelper : Helper := inlineHelper (total createInput).
Definition avatarHelper : Helper := inlineHelper createAvatar.
Definition badgeHelper : Helper := inlineHelper (total createBadge).
Definition activityItemHelper : Helper := inlineHelper (total createActivityItem).
Definition kpiHelper : Helper := inlineHelper (total createKPI).
Definition userInfoFieldsHelper : Helper := inlineHelper createUserInfoFields.
Definition cardHelper : Helper := blockHelper createCard.
Definition cardHeaderHelper : Helper := blockHelper createCardHeader.
Definition cardTitleHelper : Helper := blockHelper createCardTitle.
Definition cardDescriptionHelper : Helper := blockHelper createCardDescription.
Definition cardActionHelper : Helper := blockHelper createCardAction.
Definition cardContentHelper : Helper := blockHelper createCardContent.
Definition cardFooterHelper : Helper := blockHelper createCardFooter.

(** The component helpers [registerHandlebarsHelpers] registers, by name. *)
Definition registerHandlebarsHelpers : list (string * Helper) :=
  [ ("button", buttonHelper);
    ("input", inputHelper);
    ("avatar", avatarHelper);
    ("badge", badgeHelper);
    ("activityItem", activityItemHelper);
    ("kpi", kpiHelper);
    ("userInfoFields", userInfoFieldsHelper);
    ("card", cardHelper);
    ("cardHeader", cardHeaderHelper);
    ("cardTitle", cardTitleHelper);
    ("cardDescription", cardDescriptionHelper);
    ("cardAction", cardActionHelper);
    ("cardContent", cardContentHelper);
    ("cardFooter", cardFooterHelper) ].

(** The factories behind the helpers with block support. *)
Definition blockFactories : list (string * (obj -> string)) :=
  [ ("button", createButton);
    ("card", createCard);
    ("cardHeader", createCardHeader);
    ("cardTitle", createCardTitle);
    ("cardDescription", createCardDescription);
    ("cardAction", createCardAction);
    ("cardContent", createCardContent);
    ("cardFooter", createCardFooter) ].

End Registry.

Arguments hash {Context_} _.
Arguments fn {Context_} _.
Arguments Build_HelperOptions {Context_} _ _.

End Helpers.

(** ** The specification's wording *)

Module Spec.
Import Str Cva Components.

(** 4.2 Attribute Serializer: what one entry contributes, and the
    serialized mapping. *)
Definition emitted (kv : string * value) : list string :=
  match snd kv with
  | VUndefined | VNull => []
  | VBool true => [fst kv]
  | VBool false => []
  | v => [fst kv ++ html "='" ++ ToString v ++ html "'"]
  end.

Definition serialize (attributes : obj) : string :=
  join " " (flat_map emitted attributes).

(** Every entry whose value is [true] has a name. *)
Definition named (attributes : obj) : Prop :=
  forall k, In (k, VBool true) attributes -> k <> "".

(** 4.3 Avatar initials: the upper-cased first letter of the first token,
    followed by that of the last token when there are several. *)
Definition initials (name : string) : string :=
  match tokens name with
  | [] => ""
  | [t] => toUpperCase (charAt0 t)
  | t :: rest => toUpperCase (charAt0 t ++ charAt0 (last rest ""))
  end.

(** 4.1 Class Resolver: each variant table of the components, with its
    base classes. *)
Definition variantTables : list (string * config) :=
  [ (activityItemBase, activityItemConfig);
    (avatarBase, avatarConfig);
    (kpiBase, kpiConfig);
    (cardBase, cardConfig);
    (inputBase, inputConfig);
    (badgeBase, badgeConfig) ].

End Spec.

(** ** Further definitions: the rest of the helpers, the sign-in flow, and
    the notions the further properties are stated with *)

Module More.
Import Str Clsx Cva TailwindMerge Utils Components.

(** A text without white space. *)
Fixpoint spaceless (s : string) : bool :=
  match s with
  | EmptyString => true
  | String c r => (negb (is_space c) && spaceless r)%bool
  end.

(** The texts [createAttributesStringified] joins. *)
Definition attributePieces (attributes : obj) : list string :=
  filter nonempty (map stringifyEntry (filter (fun kv => present (snd kv)) attributes)).

(** An entry the serializer writes nothing for. *)
Definition silent (kv : string * value) : Prop :=
  snd kv = VUndefined \/ snd kv = VNull \/ snd kv = VBool false
  \/ (snd kv = VBool true /\ fst kv = "").

(** What [clsx] writes for an item: nothing when it is falsy. *)
Definition classText (item : ClassValue) : string :=
  if cv_truthy item then toVal item else "".

(** The template of the KPI without the indentation around it. *)
Definition kpiElement
    (classes attributesStringified titleHtml valueHtml descriptionHtml changeHtml iconSvg
     : string) : string :=
  html "<div class='" ++ classes ++ html "' " ++ attributesStringified ++ html ">
      <div class='flex items-start justify-between'>
        <div class='flex-1'>
          " ++ titleHtml ++ html "
          <div class='flex items-baseline gap-2'>
            " ++ valueHtml ++ html "
          </div>
          " ++ descriptionHtml ++ html "
          " ++ changeHtml ++ html "
        </div>
        " ++ iconSvg ++ html "
      </div>
    </div>".

(** The props of the input that [getInputAttributes] forwards under a
    lower-case attribute name, and those it turns into boolean attributes. *)
Definition inputHandlers : list (string * string) :=
  [ ("onInput", "oninput"); ("onChange", "onchange");
    ("onBlur", "onblur"); ("onFocus", "onfocus") ].

Definition inputBooleans : list (string * string) :=
  [ ("disabled", "disabled"); ("readOnly", "readonly");
    ("required", "required"); ("autoFocus", "autofocus") ].

Section WithTailwind.
Context {tw : Config}.

(** The class ids of the class names the configuration classifies. *)
Definition classIds (classNames : list string) : list string :=
  flat_map (fun name => match classId name with Some id => [id] | None => [] end) classNames.

(** A class name the configuration does not classify. *)
Definition unclassified (name : string) : bool :=
  match classId name with
  | Some _ => false
  | None => true
  end.

End WithTailwind.

End More.

(** *** The logic and text helpers of the registry
    (helpers/handlebars-helpers.ts, src/unnamed/part_004) *)

Module TemplateHelpers.
Import Str.

(** [(a, b) => a && b], [(a, b) => a || b] and [(a) => !a] *)
Definition andHelper (a b : value) : value := if truthy a then b else a.
Definition orHelper (a b : value) : value := if truthy a then a else b.
Definition notHelper (a : value) : value := VBool (negb (truthy a)).

(** An integral index of [substring], clamped to the text: below zero it
    counts as zero, beyond the end as the length. *)
Definition clampIndex (len : nat) (i : Z) : nat :=
  Nat.min (Z.to_nat i) len.

(** [s.substring(start, end)] for integral [start] and [end]: the
    characters from the smaller to the larger of the clamped indices. *)
Definition jsSubstring (s : string) (start finish : Z) : string :=
  let a := clampIndex (String.length s) start in
  let b := clampIndex (String.length s) finish in
  String.substring (Nat.min a b) (Nat.max a b - Nat.min a b) s.

(** The [substring] helper; [str.substring] is a function only when [str]
    is a string. *)
Definition substringHelper (str : value) (start finish : Z) : result string :=
  if negb (truthy str) then Return ""
  else
    match str with
    | VStr s => Return (toUpperCase (jsSubstring s start finish))
    | _ => TypeError "str.substring is not a function"
    end.

End TemplateHelpers.

(** *** The sign-in flow (auth service, auth controller and guard in
    src/auth/guards/auth.guard.ts; dashboard and root controllers in
    src/dashboard/controllers/dashboard.controller.ts)

    The handlers are asynchronous only in that they await the service,
    whose promises resolve at once; the session is the object the handlers
    read and write through their type cast. *)

Module Auth.
Import Components.

Record User : Type := {
  id : string;
  email : string;
  name : string
}.

(** [AuthService.users] *)
Definition users : list User :=
  [ {| id := "1"; email := "admin@example.com"; name := "Admin User" |};
    {| id := "2"; email := "user@example.com"; name := "Regular User" |} ].

(** [AuthService.validateUser(email, password)] *)
Definition validateUser (email_ password : value) : option User :=
  match find (fun u => is_string email_ (email u)) users with
  | Some user => if truthy password then Some user else None
  | None => None
  end.

(** [AuthService.findUserByEmail(email)] and [AuthService.findUserById(id)] *)
Definition findUserByEmail (email_ : value) : option User :=
  find (fun u => is_string email_ (email u)) users.

Definition findUserById (id_ : value) : option User :=
  find (fun u => is_string id_ (id u)) users.

(** What a handler of the sign-in page hands to the view, or that it has
    nothing to hand over. *)
Inductive Page : Type :=
| SignInPage (title : string) (error : option string)
| NoPage.

(** [AuthController.signIn(body, request)]: the returned value and the
    session afterwards. *)
Definition signIn (body session : obj) : Page * obj :=
  let email_ := get body "email" in
  let password := get body "password" in
  if (negb (truthy email_) || negb (truthy password))%bool then
    (SignInPage "Sign in" (Some "Email and password are required"), session)
  else
    match validateUser email_ password with
    | None => (SignInPage "Sign in" (Some "Invalid email or password"), session)
    | Some user =>
        (NoPage,
         set (set session "userId" (VStr (id user))) "userEmail" (VStr (email user)))
    end.

(** [AuthGuard.canActivate(context)] on the session of the request: it
    returns [true] or throws [UnauthorizedException]. *)
Inductive Guarded (A : Type) : Type :=
| Activated (a : A)
| Unauthorized (message : string).
Arguments Activated {A} a.
Arguments Unauthorized {A} message.

Definition canActivate (session : obj) : Guarded bool :=
  if negb (truthy (get session "userId"))
  then Unauthorized "Authentication required"
  else Activated true.

(** [DashboardController.getDashboard(request)]: the [user] of the view
    data. *)
Definition getDashboardUser (session : obj) : option User :=
  if truthy (get session "userId") then findUserById (get session "userId") else None.

(** The dashboard route behind its guard. *)
Definition dashboardRoute (session : obj) : Guarded (option User) :=
  match canActivate session with
  | Activated _ => Activated (getDashboardUser session)
  | Unauthorized message => Unauthorized message
  end.

(** [AppController.root(request)]: the [url] it redirects to. *)
Definition root (session : obj) : string :=
  if truthy (get session "userId") then "/dashboard" else "/auth/sign-in".

(** [AuthController.getSignIn(request, reply)]: a redirect to the
    dashboard, or the view data of the sign-in page. *)
Inductive SignInView : Type :=
| RedirectTo (url : string) (status : Z)
| Render (page : Page).

Definition getSignIn (session : obj) : SignInView :=
  if truthy (get session "userId") then RedirectTo "/dashboard" 302
  else Render (SignInPage "Sign in" None).

End Auth.

(** ** The conversions that can throw

    [String(v)], the interpolation of [v] in a template literal and the use
    of [v] as a computed property key convert an object through its
    [toString] method.  The values of the props hold data only, so an own
    property named [toString] is never callable: the conversion of such an
    object throws a [TypeError], and every other object converts to
    [[object Object]] through [Object.prototype.toString].

    The definitions of [Components] give the markup of a factory as a
    total function, with [ToString] for these conversions.  The definitions
    of this module follow the same sources statement by statement with the
    conversions that throw, in evaluation order; where a factory of
    [Components] already returns a [result], it is the same function up to
    the conversions. *)

Module Strict.
Import Str Clsx Cva TailwindMerge Utils Components.

(** The message of the [TypeError] of a failed conversion. *)
Definition conversion_error : string := "Cannot convert object to primitive value".

(** An object converts when it has no own property named [toString]. *)
Definition stringable (v : value) : bool :=
  match v with
  | VObj fields => negb (mem "toString" (map fst fields))
  | _ => true
  end.



(** [String(v)] and [`${v}`] *)
Definition ToString (v : value) : result string :=
  if stringable v then Return (JS.ToString v) else TypeError conversion_error.

(** [table[v]]: the property key of a computed member access *)
Definition ToPropertyKey (v : value) : result string := ToString v.

(** [xs.map(f)] for an [f] that can throw: the elements in order, up to
    the first that throws. *)
Fixpoint mapM {A B : Type} (f : A -> result B) (xs : list A) : result (list B) :=
  match xs with
  | [] => Return []
  | x :: rest =>
      y <- f x ;;
      ys <- mapM f rest ;;
      Return (y :: ys)
  end.

(** *** class-variance-authority *)

Definition variantClassName (cfg : config) (props : obj) (variant : string) (table : obj)
  : result jsval :=
  let variantProp := get props variant in
  let defaultVariantProp := get (defaultVariants cfg) variant in
  match variantProp with
  | VNull => Return (JVal VNull)
  | _ =>
      let variantKey := JS.or (falsyToString variantProp) (falsyToString defaultVariantProp) in
      key <- ToPropertyKey variantKey ;;
      Return (lookup table key)
  end.

Definition cva (base : string) (cfg : config) (props : obj) : result string :=
  getVariantClassNames <-
    mapM (fun axis => variantClassName cfg props (fst axis) (snd axis)) (variants cfg) ;;
  Return (clsx [ CVal (JVal (VStr base));
                 CArray (map CVal getVariantClassNames);
                 CVal (JVal VUndefined);
                 CVal (JVal (get props "class"));
                 CVal (JVal (get props "className")) ]).

Definition activityItemVariants : obj -> result string := cva activityItemBase activityItemConfig.
Definition avatarVariants : obj -> result string := cva avatarBase avatarConfig.
Definition kpiVariants : obj -> result string := cva kpiBase kpiConfig.
Definition cardVariants : obj -> result string := cva cardBase cardConfig.
Definition inputVariants : obj -> result string := cva inputBase inputConfig.
Definition badgeVariants : obj -> result string := cva badgeBase badgeConfig.

(** *** src/ui/utils/utils.ts *)

Definition stringifyEntry (kv : string * value) : result string :=
  match snd kv with
  | VBool value => Return (if value then fst kv else "")
  | value =>
      text <- ToString value ;;
      Return (fst kv ++ html "='" ++ text ++ html "'")
  end.

Definition createAttributesStringified (attributes : obj) : result string :=
  pieces <- mapM stringifyEntry (filter (fun kv => present (snd kv)) attributes) ;;
  Return (join " " (filter nonempty pieces)).

Definition getActivityItemClasses (props : obj) : result string :=
  let hasBorder := get props "hasBorder" in
  let className := get props "className" in
  classes <- activityItemVariants [ ("hasBorder", hasBorder) ] ;;
  Return (clsx [ CVal (JVal (VStr classes)); CVal (JVal className) ]).

Definition testidAttribute (props : obj) : result string :=
  if truthy (get props "data-testid") then
    text <- ToString (get props "data-testid") ;;
    Return (html "data-testid='" ++ text ++ html "'")
  else Return "".

Definition activityStatusColor (props : obj) : result jsval :=
  if truthy (get props "statusColor") then
    key <- ToPropertyKey (get props "statusColor") ;;
    Return (lookup statusColorClasses key)
  else Return (lookup statusColorClasses "blue").

Definition activityDescriptionHtml (props : obj) : result string :=
  if truthy (get props "description") then
    text <- ToString (get props "description") ;;
    Return (html "<p class='text-xs text-gray-500 mt-1'>" ++ text ++ "</p>")
  else Return "".

Definition createActivityItem (props : obj) : result string :=
  classes <- getActivityItemClasses props ;;
  attributes <- testidAttribute props ;;
  statusColor <- activityStatusColor props ;;
  descriptionHtml <- activityDescriptionHtml props ;;
  title <- ToString (get props "title") ;;
  timeAgo <- ToString (get props "timeAgo") ;;
  Return (activityItemMarkup classes attributes (jToString statusColor) title descriptionHtml
            timeAgo).

(** *** src/ui/components/user-info-fields.ts *)

Definition createUserInfoFields (props : obj) : result string :=
  attributes <- testidAttribute props ;;
  name <- member (get props "user") "name" ;;
  name <- ToString name ;;
  email <- member (get props "user") "email" ;;
  email <- ToString email ;;
  id <- member (get props "user") "id" ;;
  id <- ToString id ;;
  Return (userInfoMarkup attributes name email id).

(** *** src/ui/components/avatar.ts *)

Section WithTailwind.
Context {tw : Config}.

Definition avatarClasses (props : obj) : result string :=
  classes <- avatarVariants [ ("variant", get props "variant"); ("size", get props "size") ] ;;
  Return (cn [ CVal (JVal (VStr classes)); CVal (JVal (get props "className")) ]).

Definition createAvatar (props : obj) : result string :=
  let name := get props "name" in
  let src := get props "src" in
  let alt := get props "alt" in
  let rest := omit avatarKeys props in
  classes <- avatarClasses props ;;
  let attributes := getAvatarAttributes rest in
  attributesStringified <- createAttributesStringified attributes ;;
  initials <- (if truthy name then getInitials name else Return "") ;;
  let displayAlt := JS.or (JS.or alt name) (VStr "Avatar") in
  if truthy src then
    srcText <- ToString src ;;
    altText <- ToString displayAlt ;;
    Return (html "<img data-slot='avatar' class='" ++ classes ++ html "' src='" ++ srcText
            ++ html "' alt='" ++ altText ++ html "' " ++ attributesStringified ++ " />")
  else
    Return (html "<div data-slot='avatar' class='" ++ classes
            ++ html " flex items-center justify-center font-semibold' "
            ++ attributesStringified ++ ">" ++ initials ++ "</div>").

(** *** The KPI *)

Definition getIconColorClasses (color : value) : result jsval :=
  key <- ToPropertyKey (JS.or color (VStr "blue")) ;;
  Return (jor (lookup colorMap key) (lookup colorMap "blue")).

Definition getTrendColorClasses (trend : value) : result jsval :=
  key <- ToPropertyKey (JS.or trend (VStr "neutral")) ;;
  Return (jor (lookup trendMap key) (lookup trendMap "neutral")).

Definition kpiChangeDescription (props : obj) : result string :=
  if truthy (get props "changeDescription") then
    text <- ToString (get props "changeDescription") ;;
    Return (html "<span class='text-xs text-muted-foreground ml-1'>" ++ text ++ "</span>")
  else Return "".

Definition kpiClasses (props : obj) : result string :=
  classes <- kpiVariants [ ("variant", get props "variant"); ("size", get props "size") ] ;;
  Return (cn [ CVal (JVal (VStr classes)); CVal (JVal (get props "className")) ]).

Definition createKPI (props : obj) : result string :=
  let rest := omit [ "variant"; "size"; "className" ] props in
  classes <- kpiClasses props ;;
  let attributes := getKPIAttributes rest in
  attributesStringified <- createAttributesStringified attributes ;;
  iconClasses <- getIconColorClasses (get props "iconColor") ;;
  trendClasses <- getTrendColorClasses (get props "trend") ;;
  let trendIcon := getTrendIcon (get props "trend") in
  iconSvg <-
    (if truthy (get props "iconPath") then
       iconPath <- ToString (get props "iconPath") ;;
       Return (html "<div class='flex h-10 w-10 shrink-0 items-center justify-center rounded-lg "
               ++ jToString iconClasses ++ html "'>
        <svg class='w-5 h-5' fill='none' stroke='currentColor' viewBox='0 0 24 24'>
          <path stroke-linecap='round' stroke-linejoin='round' stroke-width='2' d='"
               ++ iconPath ++ html "' />
        </svg>
      </div>")
     else Return "") ;;
  titleHtml <-
    (if truthy (get props "title") then
       title <- ToString (get props "title") ;;
       Return (html "<p class='text-sm font-medium text-muted-foreground mb-1'>"
               ++ title ++ "</p>")
     else Return "") ;;
  valueHtml <-
    (if negb (is_undefined (get props "value")) then
       value <- ToString (get props "value") ;;
       Return (html "<h3 class='text-2xl font-bold text-foreground'>" ++ value ++ "</h3>")
     else Return "") ;;
  descriptionHtml <-
    (if truthy (get props "description") then
       description <- ToString (get props "description") ;;
       Return (html "<p class='text-xs text-muted-foreground mt-1'>" ++ description ++ "</p>")
     else Return "") ;;
  changeHtml <-
    (if (truthy (get props "change") && truthy (get props "trend"))%bool then
       change <- ToString (get props "change") ;;
       changeDescription <- kpiChangeDescription props ;;
       Return (html "<div class='mt-2 flex items-center gap-1 " ++ jToString trendClasses ++ html "'>
          " ++ trendIcon ++ html "
          <span class='text-sm font-medium'>" ++ change ++ html "</span>
          " ++ changeDescription ++ html "
        </div>")
     else if truthy (get props "change") then
       change <- ToString (get props "change") ;;
       changeDescription <- kpiChangeDescription props ;;
       Return (html "<div class='mt-2'>
            <span class='text-sm font-medium text-foreground'>" ++ change ++ html "</span>
            " ++ changeDescription ++ html "
          </div>")
     else Return "") ;;
  Return (trim (kpiMarkup classes attributesStringified titleHtml valueHtml descriptionHtml
                  changeHtml iconSvg)).

(** *** The card family *)

Definition cardClasses (props : obj) : result string :=
  classes <- cardVariants [ ("variant", get props "variant"); ("padding", get props "padding") ] ;;
  Return (cn [ CVal (JVal (VStr classes)); CVal (JVal (get props "className")) ]).

Definition createCard (props : obj) : result string :=
  let children := get props "children" in
  let rest := omit cardKeys props in
  classes <- cardClasses props ;;
  let attributes := getCardAttributes rest in
  attributesStringified <- createAttributesStringified attributes ;;
  let content := nullish children (VStr "") in
  text <- ToString content ;;
  Return (html "<div data-slot='card' class='" ++ classes ++ html "' " ++ attributesStringified
          ++ ">" ++ text ++ "</div>").

(** A card sub-region: the six factories differ in the slot name and the
    base classes only. *)
Definition createRegion (slot base : string) (props : obj) : result string :=
  let children := get props "children" in
  let rest := omit regionKeys props in
  let classes := regionClasses base props in
  let attributes := omit regionKeys rest in
  attributesStringified <- createAttributesStringified attributes ;;
  let content := nullish children (VStr "") in
  text <- ToString content ;;
  Return (html "<div data-slot='" ++ slot ++ html "' class='" ++ classes ++ html "' "
          ++ attributesStringified ++ ">" ++ text ++ "</div>").

Definition createCardHeader : obj -> result string := createRegion "card-header" cardHeaderBase.
Definition createCardTitle : obj -> result string :=
  createRegion "card-title" "leading-none font-semibold".
Definition createCardDescription : obj -> result string :=
  createRegion "card-description" "text-muted-foreground text-sm".
Definition createCardAction : obj -> result string :=
  createRegion "card-action" "col-start-2 row-span-2 row-start-1 self-start justify-self-end".
Definition createCardContent : obj -> result string := createRegion "card-content" "px-6".
Definition createCardFooter : obj -> result string :=
  createRegion "card-footer" "flex items-center px-6 [.border-t]:pt-6".

(** *** The input and the badge *)

Definition inputClasses (props : obj) : result string :=
  classes <- inputVariants [ ("variant", get props "variant"); ("size", get props "size");
                             ("state", get props "state") ] ;;
  Return (cn [ CVal (JVal (VStr classes)); CVal (JVal (get props "className")) ]).

Definition createInput (props : obj) : result string :=
  let rest := omit [ "variant"; "size"; "state"; "className" ] props in
  classes <- inputClasses props ;;
  let attributes := getInputAttributes rest in
  attributesStringified <- createAttributesStringified attributes ;;
  Return (html "<input class='" ++ classes ++ html "' " ++ attributesStringified ++ " />").

Definition badgeClasses (props : obj) : result string :=
  classes <- badgeVariants [ ("variant", get props "variant") ] ;;
  Return (cn [ CVal (JVal (VStr classes)); CVal (JVal (get props "className")) ]).

Definition createBadge (props : obj) : result string :=
  let children := get props "children" in
  let rest := omit badgeKeys props in
  classes <- badgeClasses props ;;
  attributesStringified <- createAttributesStringified rest ;;
  let content := nullish children (VStr "") in
  text <- ToString content ;;
  Return (html "<span class='" ++ classes ++ html "' " ++ attributesStringified
          ++ ">" ++ text ++ "</span>").


End WithTailwind.

End Strict.

(** * Properties *)

(** ** Strings and objects *)

Module StrFacts.
Import Str.

Lemma append_empty_r (s : string) : s ++ "" = s.
Proof. induction s; simpl; congruence. Qed.

Lemma append_assoc (a b c : string) : (a ++ b) ++ c = a ++ (b ++ c).
Proof. induction a; simpl; congruence. Qed.

Lemma nonempty_false (s : string) : nonempty s = false <-> s = "".
Proof. destruct s; simpl; split; congruence. Qed.

Lemma nonempty_true (s : string) : nonempty s = true <-> s <> "".
Proof. destruct s; simpl; split; congruence. Qed.

Lemma nonempty_append_l (a b : string) : nonempty a = true -> nonempty (a ++ b) = true.
Proof. destruct a; simpl; congruence. Qed.

Lemma append_eq_empty (a b : string) : a ++ b = "" -> a = "" /\ b = "".
Proof. destruct a; simpl; [auto | discriminate]. Qed.

Lemma trimEnd_cons_nonspace (c : ascii) (r : string) :
  is_space c = false -> trimEnd (String c r) = String c (trimEnd r).
Proof. intros Hc. simpl. rewrite Hc. now destruct (trimEnd r). Qed.

(** [trimEnd] only touches the end of a text. *)
Lemma trimEnd_app (a b : string) :
  trimEnd b <> "" -> trimEnd (a ++ b) = a ++ trimEnd b.
Proof.
  intros Hb. induction a as [| c a IH]; [reflexivity |].
  simpl. rewrite IH. destruct (a ++ trimEnd b) eqn:E; [| reflexivity].
  apply append_eq_empty in E. tauto.
Qed.

Lemma trimEnd_app_ne (a b : string) : trimEnd b <> "" -> trimEnd (a ++ b) <> "".
Proof.
  intros Hb. rewrite trimEnd_app by assumption.
  intros E. apply append_eq_empty in E. tauto.
Qed.

Lemma trimStart_app_spaces (a b : string) :
  trimStart a = "" -> trimStart (a ++ b) = trimStart b.
Proof.
  induction a as [| c a IH]; [reflexivity |].
  simpl. destruct (is_space c); [assumption | discriminate].
Qed.

End StrFacts.

Module ObjFacts.

Lemma mem_In (k : string) (keys : list string) : mem k keys = true <-> In k keys.
Proof.
  unfold mem. rewrite existsb_exists. split.
  - intros [x [Hin Heq]]. apply String.eqb_eq in Heq. now subst.
  - intros Hin. exists k. split; [assumption | apply String.eqb_refl].
Qed.

Lemma own_omit_in (keys : list string) (o : obj) (k : string) :
  In k keys -> own (omit keys o) k = None.
Proof.
  intros Hin. induction o as [| [k' v] o IH]; simpl; [reflexivity |].
  destruct (mem k' keys) eqn:Hm; simpl; [assumption |].
  destruct (String.eqb k' k) eqn:He; [| assumption].
  apply String.eqb_eq in He. subst k'.
  apply mem_In in Hin. congruence.
Qed.

Lemma own_omit_out (keys : list string) (o : obj) (k : string) :
  ~ In k keys -> own (omit keys o) k = own o k.
Proof.
  intros Hout. induction o as [| [k' v] o IH]; simpl; [reflexivity |].
  destruct (mem k' keys) eqn:Hm; simpl.
  - destruct (String.eqb k' k) eqn:He; [| assumption].
    apply String.eqb_eq in He. subst k'. apply mem_In in Hm. contradiction.
  - now rewrite IH.
Qed.

Lemma omit_idem (keys : list string) (o : obj) : omit keys (omit keys o) = omit keys o.
Proof.
  unfold omit. induction o as [| [k v] o IH]; simpl; [reflexivity |].
  destruct (mem k keys) eqn:Hm; simpl; [assumption |].
  rewrite Hm. simpl. now rewrite IH.
Qed.

Lemma omit_set_in (keys : list string) (o : obj) (k : string) (v : value) :
  In k keys -> omit keys (set o k v) = omit keys o.
Proof.
  intros Hin. apply mem_In in Hin.
  induction o as [| [k' v'] o IH]; simpl.
  - now rewrite Hin.
  - destruct (String.eqb k' k) eqn:He; simpl.
    + apply String.eqb_eq in He. subst k'. now rewrite Hin.
    + destruct (mem k' keys); simpl; now rewrite IH.
Qed.

Lemma own_set_eq (o : obj) (k : string) (v : value) : own (set o k v) k = Some v.
Proof.
  induction o as [| [k' v'] o IH]; simpl.
  - now rewrite String.eqb_refl.
  - destruct (String.eqb k' k) eqn:He; simpl.
    + now rewrite String.eqb_refl.
    + now rewrite He.
Qed.

Lemma own_set_ne (o : obj) (k k' : string) (v : value) :
  k <> k' -> own (set o k v) k' = own o k'.
Proof.
  intros Hne. induction o as [| [k0 v0] o IH]; simpl.
  - destruct (String.eqb k k') eqn:He; [| reflexivity].
    apply String.eqb_eq in He. contradiction.
  - destruct (String.eqb k0 k) eqn:He; simpl.
    + apply String.eqb_eq in He. subst k0.
      destruct (String.eqb k k') eqn:He'; [| reflexivity].
      apply String.eqb_eq in He'. contradiction.
    + now rewrite IH.
Qed.

Lemma get_set_eq (o : obj) (k : string) (v : value) : get (set o k v) k = v.
Proof. unfold get. now rewrite own_set_eq. Qed.

Lemma get_set_ne (o : obj) (k k' : string) (v : value) :
  k <> k' -> get (set o k v) k' = get o k'.
Proof. intros Hne. unfold get. now rewrite own_set_ne. Qed.

Lemma set_set (o : obj) (k : string) (v w : value) : set (set o k v) k w = set o k w.
Proof.
  induction o as [| [k' v'] o IH]; simpl.
  - now rewrite String.eqb_refl.
  - destruct (String.eqb k' k) eqn:He; simpl.
    + now rewrite String.eqb_refl.
    + now rewrite He, IH.
Qed.

End ObjFacts.

(** ** The attribute serializer *)

Module SerializerFacts.
Import Str Utils Spec StrFacts.

Lemma nonempty_pair (k v : string) :
  nonempty (k ++ html "='" ++ v ++ html "'") = true.
Proof. destruct k; reflexivity. Qed.

(** The pieces the serializer joins are the pieces the specification
    lists, when no [true] entry goes under the empty name. *)
Lemma pieces_emitted (attributes : obj) :
  named attributes ->
  filter nonempty (map stringifyEntry (filter (fun kv => present (snd kv)) attributes))
  = flat_map emitted attributes.
Proof.
  induction attributes as [| [k v] attributes IH]; intros Hnamed; [reflexivity |].
  assert (Htail : named attributes).
  { intros k' Hin. apply Hnamed. now right. }
  specialize (IH Htail).
  assert (Hk : v = VBool true -> nonempty k = true).
  { intros ->. apply nonempty_true. apply Hnamed. now left. }
  destruct v as [| | [|] | n | s | fields];
    cbn [filter map flat_map present snd fst stringifyEntry emitted app];
    rewrite ?nonempty_pair, ?Hk by reflexivity; cbn [nonempty]; now rewrite IH.
Qed.

(** C2. For every attribute mapping (each name under which a [true] value
    is stored being a non-empty name), [createAttributesStringified] omits
    the entries whose value is null or undefined, emits a [true] entry as
    the bare name, omits a [false] entry, emits every other entry as
    name="value" with the value in its string form, and joins what it
    emits with single spaces in the order of the entries. *)
Theorem createAttributesStringified_serialize (attributes : obj) :
  named attributes ->
  createAttributesStringified attributes = serialize attributes.
Proof.
  intros Hnamed. unfold createAttributesStringified, serialize.
  now rewrite pieces_emitted.
Qed.

(** The empty mapping serializes to the empty string, and the mapping
    [{disabled: true, hidden: false, id: "x"}] to [disabled id="x"]. *)
Lemma createAttributesStringified_examples :
  createAttributesStringified [] = ""
  /\ createAttributesStringified
       [ ("disabled", VBool true); ("hidden", VBool false); ("id", VStr "x") ]
     = html "disabled id='x'".
Proof.
  split.
  - rewrite (createAttributesStringified_serialize []); [reflexivity |].
    intros k [].
  - rewrite (createAttributesStringified_serialize
               [ ("disabled", VBool true); ("hidden", VBool false); ("id", VStr "x") ]);
      [reflexivity |].
    intros k [H | [H | [H | []]]]; inversion H; discriminate.
Defined.

(** Under the empty name a [true] entry is not emitted at all: no space
    stands for it in the output. *)
Lemma createAttributesStringified_empty_name :
  createAttributesStringified [ ("", VBool true); ("id", VStr "x") ] = html "id='x'"
  /\ serialize [ ("", VBool true); ("id", VStr "x") ] = html " id='x'".
Proof. split; reflexivity. Qed.

End SerializerFacts.

(** ** Passthrough attributes *)

Module AttributeFacts.
Import Str Utils Components ObjFacts.

Lemma own_spread_when_ne (target : obj) (cond : value) (k k' : string) (v : value) :
  k <> k' -> own (spread_when target cond k v) k' = own target k'.
Proof.
  intros Hne. unfold spread_when. destruct (truthy cond); [| reflexivity].
  now apply own_set_ne.
Qed.

Lemma own_getInputAttributes (rest : obj) (k : string) :
  In k inputKeys -> own (getInputAttributes rest) k = None.
Proof.
  intros Hin. unfold getInputAttributes. cbv zeta.
  rewrite !own_spread_when_ne.
  - now apply own_omit_in.
  - intros <-. simpl in Hin. intuition discriminate.
  - intros <-. simpl in Hin. intuition discriminate.
  - intros <-. simpl in Hin. intuition discriminate.
  - intros <-. simpl in Hin. intuition discriminate.
  - intros <-. simpl in Hin. intuition discriminate.
  - intros <-. simpl in Hin. intuition discriminate.
  - intros <-. simpl in Hin. intuition discriminate.
  - intros <-. simpl in Hin. intuition discriminate.
Qed.




End AttributeFacts.

(** ** The card family *)

Module CardFacts.
Import Str Clsx Utils TailwindMerge Components ObjFacts StrFacts.

Section WithTailwind.
Context {tw : Config}.

Lemma slotOpen_element (slot classes attrs content : string) :
  html "<div data-slot='" ++ slot ++ html "' class='" ++ classes ++ html "' " ++ attrs
  ++ ">" ++ content ++ "</div>"
  = slotOpen slot classes attrs ++ content ++ "</div>".
Proof. unfold slotOpen. now rewrite !append_assoc. Qed.

Lemma cardClasses_children (props : obj) (v : value) :
  cardClasses (set props "children" v) = cardClasses props.
Proof. unfold cardClasses. now rewrite !get_set_ne by discriminate. Qed.

Lemma regionClasses_children (base : string) (props : obj) (v : value) :
  regionClasses base (set props "children" v) = regionClasses base props.
Proof. unfold regionClasses. now rewrite !get_set_ne by discriminate. Qed.

Lemma createCard_children (props : obj) (s : string) :
  createCard (set props "children" (VStr s))
  = slotOpen "card" (cardClasses props)
      (createAttributesStringified (getCardAttributes (omit cardKeys props)))
    ++ s ++ "</div>".
Proof.
  unfold createCard. cbv zeta.
  rewrite get_set_eq, cardClasses_children, omit_set_in by (simpl; auto).
  apply (slotOpen_element "card").
Qed.

Lemma region_children (slot base : string) (props : obj) (s : string) :
  html "<div data-slot='" ++ slot ++ html "' class='"
  ++ regionClasses base (set props "children" (VStr s)) ++ html "' "
  ++ createAttributesStringified (omit regionKeys (omit regionKeys (set props "children" (VStr s))))
  ++ ">" ++ ToString (nullish (get (set props "children" (VStr s)) "children") (VStr ""))
  ++ "</div>"
  = slotOpen slot (regionClasses base props)
      (createAttributesStringified (omit regionKeys (omit regionKeys props)))
    ++ s ++ "</div>".
Proof.
  rewrite get_set_eq, regionClasses_children, omit_set_in by (simpl; auto).
  apply slotOpen_element.
Qed.

(** C8. Each factory of the card family splices its [children] string
    into its markup unchanged, between an opening tag that does not depend
    on the children and the closing tag; so a card given the concatenation
    of a rendered header and a rendered content holds exactly those two
    fragments, in that order, inside its own wrapper. *)
Theorem card_children_verbatim (props : obj) (s : string) :
  createCard (set props "children" (VStr s))
  = slotOpen "card" (cardClasses props)
      (createAttributesStringified (getCardAttributes (omit cardKeys props)))
    ++ s ++ "</div>"
  /\ createCardHeader (set props "children" (VStr s))
     = slotOpen "card-header" (regionClasses cardHeaderBase props)
         (createAttributesStringified (getCardHeaderAttributes (omit regionKeys props)))
       ++ s ++ "</div>"
  /\ createCardTitle (set props "children" (VStr s))
     = slotOpen "card-title" (regionClasses "leading-none font-semibold" props)
         (createAttributesStringified (getCardTitleAttributes (omit regionKeys props)))
       ++ s ++ "</div>"
  /\ createCardDescription (set props "children" (VStr s))
     = slotOpen "card-description" (regionClasses "text-muted-foreground text-sm" props)
         (createAttributesStringified (getCardDescriptionAttributes (omit regionKeys props)))
       ++ s ++ "</div>"
  /\ createCardAction (set props "children" (VStr s))
     = slotOpen "card-action" (regionClasses "col-start-2 row-span-2 row-start-1 self-start justify-self-end" props)
         (createAttributesStringified (getCardActionAttributes (omit regionKeys props)))
       ++ s ++ "</div>"
  /\ createCardContent (set props "children" (VStr s))
     = slotOpen "card-content" (regionClasses "px-6" props)
         (createAttributesStringified (getCardContentAttributes (omit regionKeys props)))
       ++ s ++ "</div>"
  /\ createCardFooter (set props "children" (VStr s))
     = slotOpen "card-footer" (regionClasses "flex items-center px-6 [.border-t]:pt-6" props)
         (createAttributesStringified (getCardFooterAttributes (omit regionKeys props)))
       ++ s ++ "</div>"
  /\ (forall header content,
       createCard (set props "children"
                     (VStr (createCardHeader header ++ createCardContent content)))
       = slotOpen "card" (cardClasses props)
           (createAttributesStringified (getCardAttributes (omit cardKeys props)))
         ++ (createCardHeader header ++ createCardContent content) ++ "</div>").
Proof.
  repeat split; intros.
  - apply createCard_children.
  - exact (region_children "card-header" cardHeaderBase props s).
  - exact (region_children "card-title" "leading-none font-semibold" props s).
  - exact (region_children "card-description" "text-muted-foreground text-sm" props s).
  - exact (region_children "card-action" "col-start-2 row-span-2 row-start-1 self-start justify-self-end" props s).
  - exact (region_children "card-content" "px-6" props s).
  - exact (region_children "card-footer" "flex items-center px-6 [.border-t]:pt-6" props s).
  - apply createCard_children.
Qed.

End WithTailwind.
End CardFacts.

(** ** The space before the passthrough attributes *)

Module TagFacts.
Import Str Clsx Utils TailwindMerge Components ObjFacts StrFacts.

Section WithTailwind.
Context {tw : Config}.

(** [trim] removes the white space around the template of the KPI; the
    markup starts with the opening tag. *)
Lemma createKPI_no_attributes (props : obj) :
  createAttributesStringified (getKPIAttributes (omit [ "variant"; "size"; "className" ] props))
  = "" ->
  exists rest, createKPI props = html "<div class='" ++ kpiClasses props ++ html "' >" ++ rest.
Proof.
  intros Hattrs. unfold createKPI. cbv zeta. rewrite Hattrs.
  set (titleHtml := if truthy (get props "title") then _ else _).
  set (valueHtml := if negb (is_undefined (get props "value")) then _ else _).
  set (descriptionHtml := if truthy (get props "description") then _ else _).
  set (changeHtml := if (truthy (get props "change") && truthy (get props "trend"))%bool
                     then _ else _).
  set (iconSvg := if truthy (get props "iconPath") then _ else _).
  unfold kpiMarkup, trim.
  match goal with
  | |- context [trimStart (html _ ++ ?X)] =>
      change (trimStart (html _ ++ X))
        with (trimStart (html "
    " ++ String "<" (html "div class='" ++ X)))
  end.
  rewrite trimStart_app_spaces by reflexivity.
  cbn [trimStart is_space].
  change (is_space "<") with false. cbv iota.
  rewrite trimEnd_cons_nonspace by reflexivity.
  rewrite !trimEnd_app;
    [ eexists; reflexivity | repeat apply trimEnd_app_ne; discriminate .. ].
Qed.

(** C10. A factory writes a space between the class attribute and the
    serialized passthrough attributes; when these serialize to the empty
    string the space stays, so the tag reads [class="..." >] (and
    [class="..."  />] for the input, [alt="..."  />] for the avatar image). *)
Theorem attributes_follow_a_space (props : obj) :
  (createAttributesStringified (getCardAttributes (omit cardKeys props)) = "" ->
   createCard props
   = html "<div data-slot='card' class='" ++ cardClasses props ++ html "' >"
     ++ ToString (nullish (get props "children") (VStr "")) ++ "</div>")
  /\ (createAttributesStringified (getCardHeaderAttributes (omit regionKeys props)) = "" ->
      createCardHeader props
      = html "<div data-slot='card-header' class='" ++ regionClasses cardHeaderBase props ++ html "' >"
        ++ ToString (nullish (get props "children") (VStr "")) ++ "</div>")
  /\ (createAttributesStringified (getCardTitleAttributes (omit regionKeys props)) = "" ->
      createCardTitle props
      = html "<div data-slot='card-title' class='" ++ regionClasses "leading-none font-semibold" props ++ html "' >"
        ++ ToString (nullish (get props "children") (VStr "")) ++ "</div>")
  /\ (createAttributesStringified (getCardDescriptionAttributes (omit regionKeys props)) = "" ->
      createCardDescription props
      = html "<div data-slot='card-description' class='" ++ regionClasses "text-muted-foreground text-sm" props ++ html "' >"
        ++ ToString (nullish (get props "children") (VStr "")) ++ "</div>")
  /\ (createAttributesStringified (getCardActionAttributes (omit regionKeys props)) = "" ->
      createCardAction props
      = html "<div data-slot='card-action' class='" ++ regionClasses "col-start-2 row-span-2 row-start-1 self-start justify-self-end" props ++ html "' >"
        ++ ToString (nullish (get props "children") (VStr "")) ++ "</div>")
  /\ (createAttributesStringified (getCardContentAttributes (omit regionKeys props)) = "" ->
      createCardContent props
      = html "<div data-slot='card-content' class='" ++ regionClasses "px-6" props ++ html "' >"
        ++ ToString (nullish (get props "children") (VStr "")) ++ "</div>")
  /\ (createAttributesStringified (getCardFooterAttributes (omit regionKeys props)) = "" ->
      createCardFooter props
      = html "<div data-slot='card-footer' class='" ++ regionClasses "flex items-center px-6 [.border-t]:pt-6" props ++ html "' >"
        ++ ToString (nullish (get props "children") (VStr "")) ++ "</div>")
  /\ (createAttributesStringified (getAvatarAttributes (omit avatarKeys props)) = "" ->
      truthy (get props "src") = false ->
      createAvatar props
      = (initials <- (if truthy (get props "name") then getInitials (get props "name")
                      else Return "") ;;
         Return (html "<div data-slot='avatar' class='" ++ avatarClasses props
                 ++ html " flex items-center justify-center font-semibold' >"
                 ++ initials ++ "</div>")))
  /\ (createAttributesStringified (getAvatarAttributes (omit avatarKeys props)) = "" ->
      truthy (get props "src") = true ->
      createAvatar props
      = (initials <- (if truthy (get props "name") then getInitials (get props "name")
                      else Return "") ;;
         Return (html "<img data-slot='avatar' class='" ++ avatarClasses props
                 ++ html "' src='" ++ ToString (get props "src") ++ html "' alt='"
                 ++ ToString (JS.or (JS.or (get props "alt") (get props "name")) (VStr "Avatar"))
                 ++ html "'  />")))
  /\ (createAttributesStringified
        (getInputAttributes (omit [ "variant"; "size"; "state"; "className" ] props)) = "" ->
      createInput props = html "<input class='" ++ inputClasses props ++ html "'  />")
  /\ (createAttributesStringified (omit badgeKeys props) = "" ->
      createBadge props
      = html "<span class='" ++ badgeClasses props ++ html "' >"
        ++ ToString (nullish (get props "children") (VStr "")) ++ "</span>")
  /\ (createAttributesStringified
        (getKPIAttributes (omit [ "variant"; "size"; "className" ] props)) = "" ->
      exists rest,
        createKPI props = html "<div class='" ++ kpiClasses props ++ html "' >" ++ rest)
  /\ (truthy (get props "data-testid") = false ->
      exists rest,
        createActivityItem props
        = html "
    <div class='" ++ getActivityItemClasses props ++ html "' >" ++ rest)
  /\ (truthy (get props "data-testid") = false ->
      forall markup, createUserInfoFields props = Return markup ->
      exists rest,
        markup = html "
    <div class='space-y-4' >" ++ rest).
Proof.
  repeat split.
  - intros H. unfold createCard. cbv zeta. rewrite H. reflexivity.
  - intros H. unfold createCardHeader. cbv zeta. rewrite H. reflexivity.
  - intros H. unfold createCardTitle. cbv zeta. rewrite H. reflexivity.
  - intros H. unfold createCardDescription. cbv zeta. rewrite H. reflexivity.
  - intros H. unfold createCardAction. cbv zeta. rewrite H. reflexivity.
  - intros H. unfold createCardContent. cbv zeta. rewrite H. reflexivity.
  - intros H. unfold createCardFooter. cbv zeta. rewrite H. reflexivity.
  - intros H Hsrc. unfold createAvatar. cbv zeta. rewrite H, Hsrc. reflexivity.
  - intros H Hsrc. unfold createAvatar. cbv zeta. rewrite H, Hsrc. reflexivity.
  - intros H. unfold createInput. cbv zeta. rewrite H. reflexivity.
  - intros H. unfold createBadge. cbv zeta. rewrite H. reflexivity.
  - apply createKPI_no_attributes.
  - intros H. unfold createActivityItem, testidAttribute. cbv zeta. rewrite H.
    unfold activityItemMarkup. eexists. reflexivity.
  - intros H markup. unfold createUserInfoFields, testidAttribute. cbv zeta. rewrite H.
    destruct (member (get props "user") "name") as [name |]; [| discriminate].
    destruct (member (get props "user") "email") as [email |]; [| discriminate].
    destruct (member (get props "user") "id") as [id |]; [| discriminate].
    cbn [bind]. intros [= <-]. unfold userInfoMarkup. eexists. reflexivity.
Qed.

End WithTailwind.

(** [createCard({})], with the padding excerpt of the Tailwind
    configuration. *)
Lemma createCard_empty_props :
  @createCard paddingConfig []
  = html "<div data-slot='card' class='bg-card text-card-foreground flex flex-col gap-6 rounded-xl border shadow-sm border-gray-200 py-6' ></div>".
Proof.
  rewrite (proj1 (@attributes_follow_a_space paddingConfig [])); reflexivity.
Defined.

End TagFacts.

(** ** The helper registry *)

Module HelperFacts.
Import Str Clsx Utils TailwindMerge Components Helpers ObjFacts.

Section WithTailwind.
Context {tw : Config}.
Variable Context_ : Type.
Variable createButton : obj -> string.

(** C5. For each helper with block support (button, card and the card
    sub-regions), a call in block form whose block renders to [s] returns
    the markup of the factory applied to the named arguments with
    [children] set to [s]: the same as the inline call that passes
    [children = s], whatever [children] the named arguments held. *)
Theorem block_form_sets_children (name : string) (create : obj -> string) :
  In (name, create) (blockFactories createButton) ->
  In (name, blockHelper Context_ create) (registerHandlebarsHelpers Context_ createButton)
  /\ forall (this : Context_) (p : obj) (render : Context_ -> string),
       blockHelper Context_ create this {| hash := Some p; fn := Some render |}
       = Return (MkSafeString (create (set p "children" (VStr (render this)))))
       /\ blockHelper Context_ create this {| hash := Some p; fn := Some render |}
          = blockHelper Context_ create this
              {| hash := Some (set p "children" (VStr (render this))); fn := None |}
       /\ forall v,
            blockHelper Context_ create this
              {| hash := Some (set p "children" v); fn := Some render |}
            = blockHelper Context_ create this {| hash := Some p; fn := Some render |}.
Proof.
  intros Hin. split.
  - simpl in Hin.
    repeat (destruct Hin as [Hin | Hin];
            [ injection Hin as <- <-; simpl; tauto | ]).
    contradiction.
  - intros this p render. repeat split.
    intros v. unfold blockHelper, propsOf, withBlock. simpl.
    now rewrite set_set.
Qed.

End WithTailwind.

(** The card helper in block form around the text [Hello]. *)
Lemma card_block_hello :
  blockHelper unit (@createCard paddingConfig) tt
    {| hash := Some [ ("children", VStr "ignored") ]; fn := Some (fun _ => "Hello") |}
  = Return (MkSafeString (@createCard paddingConfig [ ("children", VStr "Hello") ])).
Proof.
  apply (proj1 (proj2 (@block_form_sets_children paddingConfig unit (fun _ => "")
                         "card" createCard
                         (or_intror (or_introl eq_refl)))
                  tt [ ("children", VStr "ignored") ] (fun _ => "Hello"))).
Defined.

End HelperFacts.

(** ** Failures and structural fragments *)

Module FactoryFacts.
Import Str Clsx Utils TailwindMerge Components Helpers ObjFacts.

Lemma returns_member (u : value) (k : string) : returns (member u k) = present u.
Proof. now destruct u. Qed.

Lemma returns_getInitials (name : value) :
  returns (getInitials name) = (negb (truthy name) || isString name)%bool.
Proof.
  unfold getInitials. destruct (truthy name) eqn:Ht; [| reflexivity].
  destruct name; try reflexivity. simpl.
  now destruct (Nat.eqb (length (split_space (trim s))) 1).
Qed.

(** An activity item without a description: its markup holds no
    description paragraph. *)
Lemma activity_item_without_description :
  includes (html "<p class='text-xs text-gray-500 mt-1'>")
    (createActivityItem [ ("title", VStr "Deployed"); ("timeAgo", VStr "2 hours ago") ])
  = false
  /\ includes (html "<p class='text-xs text-gray-500 mt-1'>now live</p>")
       (createActivityItem [ ("title", VStr "Deployed"); ("description", VStr "now live");
                             ("timeAgo", VStr "2 hours ago") ])
     = true.
Proof. split; vm_compute; reflexivity. Qed.

(** C7. The status dot of an activity item whose [statusColor] names no
    entry of the table: the lookup gives [undefined], and the text
    [undefined] stands where the default class [bg-blue-600] would. *)
Theorem activity_unknown_statusColor :
  activityStatusColor [ ("statusColor", VStr "orange") ] = JVal VUndefined
  /\ includes (html "<div class='w-3 h-3 undefined rounded-full status-dot'>")
       (createActivityItem [ ("title", VStr "T"); ("timeAgo", VStr "now");
                             ("statusColor", VStr "orange") ])
     = true
  /\ activityStatusColor [] = JVal (VStr "bg-blue-600").
Proof. repeat split; vm_compute; reflexivity. Qed.

(** The lookups of the KPI fall back to the default entry for every value
    that names neither an entry of the table nor a property inherited from
    [Object.prototype]; the status colour of the activity item falls back
    when the prop is absent. *)
Lemma kpi_lookups_fall_back (v : value) :
  (own colorMap (ToString (JS.or v (VStr "blue"))) = None ->
   inherited (ToString (JS.or v (VStr "blue"))) = JVal VUndefined ->
   getIconColorClasses v = JVal (VStr "bg-blue-100 text-blue-600"))
  /\ (own trendMap (ToString (JS.or v (VStr "neutral"))) = None ->
      inherited (ToString (JS.or v (VStr "neutral"))) = JVal VUndefined ->
      getTrendColorClasses v = JVal (VStr "text-gray-600"))
  /\ (truthy v = false ->
      getIconColorClasses v = JVal (VStr "bg-blue-100 text-blue-600")
      /\ getTrendColorClasses v = JVal (VStr "text-gray-600")
      /\ forall props, get props "statusColor" = v ->
           activityStatusColor props = JVal (VStr "bg-blue-600")).
Proof.
  repeat split.
  - intros Hown Hinh. unfold getIconColorClasses, lookup. now rewrite Hown, Hinh.
  - intros Hown Hinh. unfold getTrendColorClasses, lookup. now rewrite Hown, Hinh.
  - unfold getIconColorClasses, JS.or. now rewrite H.
  - unfold getTrendColorClasses, JS.or. now rewrite H.
  - intros props Hget. unfold activityStatusColor. now rewrite Hget, H.
Qed.

(** A name inherited from [Object.prototype] selects the inherited
    function instead of a class. *)
Lemma kpi_lookup_inherited_name :
  getIconColorClasses (VStr "constructor") = JNative "Object"
  /\ getTrendColorClasses (VStr "toString") = JNative "toString".
Proof. split; reflexivity. Qed.

End FactoryFacts.

(** ** White-space separated tokens *)

Module TokenFacts.
Import Str StrFacts.

Lemma split_go_cons (b : bool) (s : string) : exists p ps, split_go b s = p :: ps.
Proof.
  revert b. induction s as [| c s IH]; intros b; simpl; [now eexists; eexists |].
  destruct (is_space c).
  - destruct b; [apply IH | now eexists; eexists].
  - destruct (IH false) as [p [ps ->]]. now eexists; eexists.
Qed.

Lemma tokens_go_nonempty (cur s : string) : nonempty cur = true -> tokens_go cur s <> [].
Proof.
  revert cur. induction s as [| c s IH]; intros cur Hcur; simpl.
  - now rewrite Hcur.
  - destruct (is_space c).
    + now rewrite Hcur.
    + apply IH. now apply nonempty_append_l.
Qed.

(** The pieces of a text trimmed at its end, read in the middle of a token
    ([cur] holds what was read of it) or after a separator, are its tokens. *)
Lemma split_trimEnd_tokens (s : string) :
  (forall cur, nonempty cur = true ->
     match split_go false (trimEnd s) with
     | p :: ps => (cur ++ p) :: ps
     | [] => [cur]
     end = tokens_go cur s)
  /\ (trimEnd s <> "" -> split_go true (trimEnd s) = tokens_go "" s)
  /\ (trimEnd s = "" -> tokens_go "" s = []).
Proof.
  induction s as [| c s [IHcur [IHsep IHnil]]].
  - simpl. repeat split; try congruence.
    intros cur Hcur. now rewrite append_empty_r, Hcur.
  - destruct (is_space c) eqn:Hc.
    + assert (Hte : trimEnd (String c s) = match trimEnd s with "" => "" | _ => String c (trimEnd s) end).
      { simpl. rewrite Hc. now destruct (trimEnd s). }
      repeat split.
      * intros cur Hcur. simpl tokens_go. rewrite Hc, Hcur. rewrite Hte.
        destruct (trimEnd s) eqn:E.
        -- simpl. rewrite append_empty_r. now rewrite IHnil.
        -- cbn [split_go]. rewrite Hc, append_empty_r. f_equal. apply IHsep. discriminate.
      * intros Hne. simpl tokens_go. rewrite Hc. cbn [nonempty]. rewrite Hte in *.
        destruct (trimEnd s) eqn:E; [congruence |].
        cbn [split_go]. rewrite Hc. apply IHsep. discriminate.
      * intros He. simpl tokens_go. rewrite Hc. cbn [nonempty]. rewrite Hte in He.
        destruct (trimEnd s) eqn:E; [now apply IHnil | discriminate].
    + rewrite trimEnd_cons_nonspace by assumption.
      repeat split.
      * intros cur Hcur. simpl tokens_go. rewrite Hc. cbn [split_go]. rewrite Hc.
        rewrite <- IHcur by now apply nonempty_append_l.
        destruct (split_go_cons false (trimEnd s)) as [p [ps ->]].
        now rewrite append_assoc.
      * intros _. simpl tokens_go. rewrite Hc. cbn [split_go]. rewrite Hc.
        rewrite <- (IHcur (String c "")) by reflexivity.
        now destruct (split_go_cons false (trimEnd s)) as [p [ps ->]].
      * discriminate.
Qed.

Lemma tokens_trimStart (s : string) : tokens (trimStart s) = tokens s.
Proof.
  unfold tokens. induction s as [| c s IH]; [reflexivity |].
  simpl. destruct (is_space c) eqn:Hc; [assumption |].
  simpl. now rewrite Hc.
Qed.

Lemma trimStart_shape (s : string) :
  trimStart s = "" \/ exists c r, trimStart s = String c r /\ is_space c = false.
Proof.
  induction s as [| c s IH]; [now left |].
  simpl. destruct (is_space c) eqn:Hc; [assumption |].
  right. now exists c, s.
Qed.

(** [s.trim().split(/\s+/)] is the list of the tokens of [s], or the list
    holding the empty string when [s] has no token. *)
Lemma split_trim_tokens (s : string) :
  split_space (trim s) = match tokens s with [] => [""] | ts => ts end.
Proof.
  unfold split_space, trim. rewrite <- (tokens_trimStart s).
  destruct (trimStart_shape s) as [-> | [c [r [-> Hc]]]]; [reflexivity |].
  rewrite trimEnd_cons_nonspace by assumption.
  cbn [split_go]. rewrite Hc.
  unfold tokens. simpl tokens_go. rewrite Hc. simpl append.
  pose proof (proj1 (split_trimEnd_tokens r) (String c "") eq_refl) as H.
  destruct (split_go_cons false (trimEnd r)) as [p [ps E]]. rewrite E in *.
  simpl in H. rewrite H.
  pose proof (tokens_go_nonempty (String c "") r eq_refl).
  now destruct (tokens_go (String c "") r).
Qed.

End TokenFacts.

(** ** Avatar initials *)

Module AvatarFacts.
Import Str Clsx Utils TailwindMerge Components Spec StrFacts TokenFacts.

Lemma nth_pred_length_last (l : list string) (d : string) :
  l <> [] -> nth (length l - 1) l d = last l d.
Proof.
  induction l as [| x l IH]; [congruence |]. intros _.
  destruct l as [| y l]; [reflexivity |].
  specialize (IH ltac:(discriminate)).
  cbn [length Nat.sub] in *. rewrite Nat.sub_0_r in *.
  cbn [nth last]. exact IH.
Qed.

Lemma getInitials_string (s : string) : getInitials (VStr s) = Return (initials s).
Proof.
  unfold getInitials, initials. destruct s as [| c s]; [reflexivity |].
  cbn [truthy nonempty negb]. rewrite split_trim_tokens.
  destruct (tokens (String c s)) as [| t [| t' rest]]; try reflexivity.
  rewrite (nth_pred_length_last (t :: t' :: rest)) by discriminate.
  reflexivity.
Qed.

Section WithTailwind.
Context {tw : Config}.

(** C6. The initials [getInitials] computes from a name are the upper-cased
    first letter of its first white-space separated token, followed by
    that of its last token when the name has several; [Ada Lovelace] gives
    [AL] and [Prince] gives [P].  Without an image source [createAvatar]
    writes them inside the wrapper [div], which it also writes, with
    nothing inside, when there is no name either. *)
Theorem avatar_initials :
  (forall s, getInitials (VStr s) = Return (initials s))
  /\ initials "Ada Lovelace" = "AL"
  /\ initials "Prince" = "P"
  /\ (forall props s,
        get props "name" = VStr s -> truthy (get props "src") = false ->
        createAvatar props
        = Return (html "<div data-slot='avatar' class='" ++ avatarClasses props
                  ++ html " flex items-center justify-center font-semibold' "
                  ++ createAttributesStringified (getAvatarAttributes (omit avatarKeys props))
                  ++ ">" ++ initials s ++ "</div>"))
  /\ (forall props,
        truthy (get props "name") = false -> truthy (get props "src") = false ->
        createAvatar props
        = Return (html "<div data-slot='avatar' class='" ++ avatarClasses props
                  ++ html " flex items-center justify-center font-semibold' "
                  ++ createAttributesStringified (getAvatarAttributes (omit avatarKeys props))
                  ++ ">" ++ "" ++ "</div>")).
Proof.
  repeat split.
  - apply getInitials_string.
  - intros props s Hname Hsrc. unfold createAvatar. cbv zeta.
    rewrite Hname, Hsrc, getInitials_string.
    destruct (truthy (VStr s)) eqn:Ht; [reflexivity |].
    destruct s; [reflexivity | discriminate].
  - intros props Hname Hsrc. unfold createAvatar. cbv zeta.
    now rewrite Hname, Hsrc.
Qed.

End WithTailwind.

(** The avatar of [Ada Lovelace], and the avatar without name and image,
    with the padding excerpt of the Tailwind configuration. *)
Lemma avatar_examples :
  @createAvatar paddingConfig [ ("name", VStr "Ada Lovelace") ]
  = Return (html "<div data-slot='avatar' class='relative flex shrink-0 overflow-hidden rounded-full bg-muted size-10 text-sm flex items-center justify-center font-semibold' >AL</div>")
  /\ @createAvatar paddingConfig []
     = Return (html "<div data-slot='avatar' class='relative flex shrink-0 overflow-hidden rounded-full bg-muted size-10 text-sm flex items-center justify-center font-semibold' ></div>").
Proof.
  split.
  - rewrite (proj1 (proj2 (proj2 (proj2 (@avatar_initials paddingConfig))))
               [ ("name", VStr "Ada Lovelace") ] "Ada Lovelace" eq_refl eq_refl).
    reflexivity.
  - rewrite (proj2 (proj2 (proj2 (proj2 (@avatar_initials paddingConfig))))
               [] eq_refl eq_refl).
    reflexivity.
Defined.

End AvatarFacts.

(** ** Variant resolution *)

Module CvaFacts.
Import Str Clsx Cva TailwindMerge Utils Components Spec StrFacts ObjFacts.

(** [toVal] of an array is the loop over its items. *)
Lemma toVal_array (items : list ClassValue) :
  toVal (CArray items)
  = fold_left (fun str item =>
                 if cv_truthy item then
                   let y := toVal item in if nonempty y then push str y else str
                 else str) items "".
Proof. reflexivity. Qed.

(** The loop skips the items that contribute nothing. *)
Lemma array_loop_filter (items : list ClassValue) (acc : string) :
  fold_left (fun str item =>
               if cv_truthy item then
                 let y := toVal item in if nonempty y then push str y else str
               else str) items acc
  = fold_left (fun str item =>
               if cv_truthy item then
                 let y := toVal item in if nonempty y then push str y else str
               else str) (filter contributes items) acc.
Proof.
  revert acc. induction items as [| item items IH]; intros acc; [reflexivity |].
  cbn [filter fold_left]. unfold contributes at 1.
  destruct (cv_truthy item) eqn:Ht; cbn [andb]; [| apply IH].
  cbv zeta. destruct (nonempty (toVal item)) eqn:Hn; [| apply IH].
  cbn [fold_left]. rewrite Ht. cbv zeta. rewrite Hn. apply IH.
Qed.

(** [cva] reads the props only through the axes of the table, [class] and
    [className]. *)
Lemma cva_ext (base : string) (cfg : config) (p q : obj) :
  (forall a t, In (a, t) (variants cfg) ->
     variantClassName cfg p a t = variantClassName cfg q a t) ->
  get p "class" = get q "class" -> get p "className" = get q "className" ->
  cva base cfg p = cva base cfg q.
Proof.
  intros Hax Hclass HclassName. unfold cva. cbv zeta.
  rewrite Hclass, HclassName.
  replace (map (fun axis => CVal (variantClassName cfg p (fst axis) (snd axis))) (variants cfg))
    with (map (fun axis => CVal (variantClassName cfg q (fst axis) (snd axis))) (variants cfg));
    [reflexivity |].
  apply map_ext_in. intros [a t] Hin. simpl. f_equal. symmetry. now apply Hax.
Qed.

Lemma or_same (x : value) : JS.or x x = x.
Proof. unfold JS.or. now destruct (truthy x). Qed.

Lemma variantClassName_absent (cfg : config) (p : obj) (axis : string) (table : obj) :
  absent (get p axis) -> get (defaultVariants cfg) axis <> VNull ->
  variantClassName cfg (set p axis (get (defaultVariants cfg) axis)) axis table
  = variantClassName cfg p axis table.
Proof.
  intros Habs Hd. unfold variantClassName. rewrite get_set_eq, or_same.
  assert (Hor : JS.or (falsyToString (get p axis))
                  (falsyToString (get (defaultVariants cfg) axis))
                = falsyToString (get (defaultVariants cfg) axis)).
  { now destruct Habs as [-> | ->]. }
  rewrite Hor.
  destruct Habs as [-> | ->];
    now destruct (get (defaultVariants cfg) axis).
Qed.

Lemma variantClassName_set_other (cfg : config) (p : obj) (axis a : string) (v : value) (t : obj) :
  axis <> a -> variantClassName cfg (set p axis v) a t = variantClassName cfg p a t.
Proof. intros Hne. unfold variantClassName. now rewrite get_set_ne. Qed.

Lemma inherited_contributes_nothing (k : string) : contributes (CVal (inherited k)) = false.
Proof.
  unfold inherited. destruct (String.eqb k "__proto__"); [reflexivity |].
  now destruct (assoc prototype_functions k).
Qed.

(** A value the table does not know selects nothing that [clsx] would write. *)
Lemma variantClassName_unknown (cfg : config) (p : obj) (axis : string) (table : obj) :
  unknown table (get p axis) ->
  contributes (CVal (variantClassName cfg p axis table)) = false.
Proof.
  intros [Hnull | [Htruthy Hown]]; unfold variantClassName.
  - now rewrite Hnull.
  - assert (Hkey : JS.or (falsyToString (get p axis))
                     (falsyToString (get (defaultVariants cfg) axis))
                   = falsyToString (get p axis)).
    { unfold JS.or. now rewrite Htruthy. }
    rewrite Hkey. unfold lookup. rewrite Hown.
    destruct (get p axis); try apply inherited_contributes_nothing.
    discriminate.
Qed.

Lemma filter_map_without (f : string * obj -> ClassValue) (axis : string)
      (l : list (string * obj)) :
  (forall e, In e l -> fst e = axis -> contributes (f e) = false) ->
  filter contributes (map f l)
  = filter contributes (map f (filter (fun a => negb (String.eqb (fst a) axis)) l)).
Proof.
  induction l as [| e l IH]; intros H; [reflexivity |].
  cbn [map filter].
  destruct (String.eqb (fst e) axis) eqn:He; cbn [negb].
  - apply String.eqb_eq in He. rewrite (H e) by (simpl; auto).
    apply IH. intros e' Hin. apply H. now right.
  - cbn [map filter]. rewrite IH; [reflexivity |].
    intros e' Hin. apply H. now right.
Qed.

(** An axis that contributes nothing can be left out of the table. *)
Lemma cva_without (base : string) (cfg : config) (p : obj) (axis : string) :
  (forall a t, In (a, t) (variants cfg) -> a = axis ->
     contributes (CVal (variantClassName cfg p a t)) = false) ->
  cva base cfg p = cva base (without axis cfg) p.
Proof.
  intros H. unfold cva. cbv zeta. unfold clsx. cbn [fold_left cv_truthy].
  rewrite !toVal_array.
  rewrite (array_loop_filter (map _ (variants cfg))).
  rewrite (array_loop_filter (map _ (variants (without axis cfg)))).
  cbn [without variants defaultVariants].
  rewrite (filter_map_without _ axis (variants cfg)).
  - reflexivity.
  - intros [a t] Hin Ha. simpl in *. now apply H.
Qed.

(** An absent value resolves as the declared default. *)
Lemma cva_absent_default (base : string) (cfg : config) (props : obj) (axis : string) :
  axis <> "class" -> axis <> "className" ->
  get (defaultVariants cfg) axis <> VNull ->
  absent (get props axis) ->
  cva base cfg props = cva base cfg (set props axis (get (defaultVariants cfg) axis)).
Proof.
  intros Hclass HclassName Hdefault Habs. apply cva_ext.
  - intros a t Hin. destruct (String.eqb axis a) eqn:E.
    + apply String.eqb_eq in E. subst a.
      symmetry. now apply variantClassName_absent.
    + apply String.eqb_neq in E. symmetry. now apply variantClassName_set_other.
  - now rewrite get_set_ne.
  - now rewrite get_set_ne.
Qed.

(** The axes of the variant tables of the components: none is named
    [class] or [className], none has [null] for its default, and no table
    names an axis twice. *)
Lemma variantTables_axes (base : string) (cfg : config) (axis : string) (table : obj) :
  In (base, cfg) variantTables -> In (axis, table) (variants cfg) ->
  axis <> "class" /\ axis <> "className"
  /\ get (defaultVariants cfg) axis <> VNull
  /\ forall a t, In (a, t) (variants cfg) -> a = axis -> t = table.
Proof.
  intros Htable Haxis. simpl in Htable.
  repeat (destruct Htable as [Htable | Htable];
          [ injection Htable as <- <-; simpl in Haxis;
            repeat (destruct Haxis as [Haxis | Haxis];
                    [ injection Haxis as <- <-;
                      repeat split; try discriminate;
                      intros a t Hin Ha; simpl in Hin;
                      repeat (destruct Hin as [Hin | Hin];
                              [ injection Hin as <- <-; first [ reflexivity | discriminate ] | ]);
                      contradiction
                    | ]);
            contradiction
          | ]).
  contradiction.
Qed.

Section WithTailwind.
Context {tw : Config}.

(** The classes of the avatar and of the input with an absent axis value
    are those with the declared default. *)
Lemma factory_classes_absent (props : obj) :
  (absent (get props "variant") ->
   avatarClasses props = avatarClasses (set props "variant" (VStr "default")))
  /\ (absent (get props "size") ->
      avatarClasses props = avatarClasses (set props "size" (VStr "md")))
  /\ (absent (get props "variant") ->
      inputClasses props = inputClasses (set props "variant" (VStr "default")))
  /\ (absent (get props "size") ->
      inputClasses props = inputClasses (set props "size" (VStr "md")))
  /\ (absent (get props "state") ->
      inputClasses props = inputClasses (set props "state" (VStr "normal"))).
Proof.
  repeat split; intros Habs.
  - unfold avatarClasses. rewrite get_set_eq, !get_set_ne by discriminate.
    do 5 f_equal.
    apply (cva_absent_default avatarBase avatarConfig
             [ ("variant", get props "variant"); ("size", get props "size") ]
             "variant"); try discriminate.
    exact Habs.
  - unfold avatarClasses. rewrite get_set_eq, !get_set_ne by discriminate.
    do 5 f_equal.
    apply (cva_absent_default avatarBase avatarConfig
             [ ("variant", get props "variant"); ("size", get props "size") ]
             "size"); try discriminate.
    exact Habs.
  - unfold inputClasses. rewrite get_set_eq, !get_set_ne by discriminate.
    do 5 f_equal.
    apply (cva_absent_default inputBase inputConfig
             [ ("variant", get props "variant"); ("size", get props "size");
                      ("state", get props "state") ]
             "variant"); try discriminate.
    exact Habs.
  - unfold inputClasses. rewrite get_set_eq, !get_set_ne by discriminate.
    do 5 f_equal.
    apply (cva_absent_default inputBase inputConfig
             [ ("variant", get props "variant"); ("size", get props "size");
                      ("state", get props "state") ]
             "size"); try discriminate.
    exact Habs.
  - unfold inputClasses. rewrite get_set_eq, !get_set_ne by discriminate.
    do 5 f_equal.
    apply (cva_absent_default inputBase inputConfig
             [ ("variant", get props "variant"); ("size", get props "size");
                      ("state", get props "state") ]
             "state"); try discriminate.
    exact Habs.
Qed.
End WithTailwind.

End CvaFacts.

(** ** Class merging *)

Module MergeFacts.
Import Str Clsx Cva TailwindMerge Utils Components Spec StrFacts ObjFacts TokenFacts.

Lemma tokens_go_app_space (a b cur : string) :
  tokens_go cur (a ++ String " " b) = (tokens_go cur a ++ tokens b)%list.
Proof.
  revert cur. induction a as [| c a IH]; intros cur.
  - simpl. now destruct (nonempty cur).
  - simpl. destruct (is_space c); [| apply IH].
    destruct (nonempty cur); simpl; now rewrite IH.
Qed.

Lemma tokens_app_space (a b : string) : tokens (a ++ " " ++ b) = (tokens a ++ tokens b)%list.
Proof. apply tokens_go_app_space. Qed.

Lemma tokens_go_all_nonempty (s cur : string) :
  Forall (fun t => nonempty t = true) (tokens_go cur s).
Proof.
  revert cur. induction s as [| c s IH]; intros cur; simpl.
  - destruct (nonempty cur) eqn:E; auto.
  - destruct (is_space c); [| apply IH].
    destruct (nonempty cur) eqn:E; auto.
Qed.

Lemma tokens_all_nonempty (s : string) : Forall (fun t => nonempty t = true) (tokens s).
Proof. apply tokens_go_all_nonempty. Qed.

Lemma join_nonempty (x : string) (l : list string) :
  nonempty x = true -> nonempty (join " " (x :: l)) = true.
Proof.
  intros Hx. unfold join. simpl. destruct l; [assumption |].
  now apply nonempty_append_l.
Qed.

Lemma prepend_join (x : string) (acc : list string) :
  Forall (fun t => nonempty t = true) acc ->
  prepend x (join " " acc) = join " " (x :: acc).
Proof.
  intros Hacc. unfold prepend. destruct acc as [| a acc].
  - simpl. apply append_empty_r.
  - inversion Hacc; subst. now rewrite join_nonempty.
Qed.

Lemma fold_prepend_join (l acc : list string) :
  Forall (fun t => nonempty t = true) l ->
  Forall (fun t => nonempty t = true) acc ->
  fold_left (fun r x => prepend x r) l (join " " acc) = join " " (rev l ++ acc)%list.
Proof.
  revert acc. induction l as [| x l IH]; intros acc Hl Hacc; [reflexivity |].
  inversion Hl; subst. cbn [fold_left]. rewrite prepend_join by assumption.
  rewrite IH by auto. cbn [rev]. now rewrite <- app_assoc.
Qed.

Section WithTailwind.
Context {tw : Config}.

(** The loop writes the names it keeps, each before the previous ones. *)
Lemma mergeLoop_kept (l G : list string) (r : string) :
  mergeLoop l G r = fold_left (fun r x => prepend x r) (kept l G) r.
Proof.
  revert G r. induction l as [| x l IH]; intros G r; [reflexivity |].
  cbn [mergeLoop kept]. unfold classId, claimed.
  destruct (classify x) as [[[m g] pf] |]; [| apply IH].
  destruct (mem (m ++ g) G); apply IH.
Qed.

Lemma kept_app (l1 l2 G : list string) :
  kept (l1 ++ l2)%list G = (kept l1 G ++ kept l2 (inConflictAfter l1 G))%list.
Proof.
  revert G. induction l1 as [| x l1 IH]; intros G; [reflexivity |].
  cbn [app kept inConflictAfter].
  destruct (classId x) as [id |]; [| now rewrite IH].
  destruct (mem id G); now rewrite IH.
Qed.

Lemma kept_Forall (P : string -> Prop) (l G : list string) :
  Forall P l -> Forall P (kept l G).
Proof.
  revert G. induction l as [| x l IH]; intros G Hl; [constructor |].
  inversion Hl; subst. cbn [kept].
  destruct (classId x) as [id |]; [| auto].
  destruct (mem id G); auto.
Qed.

Lemma kept_In (l G : list string) (x : string) : In x (kept l G) -> In x l.
Proof.
  revert G. induction l as [| y l IH]; intros G; [auto |].
  cbn [kept]. destruct (classId y) as [id |].
  - destruct (mem id G); simpl; intros H; [right | destruct H; [left | right]]; eauto.
  - simpl. intros [H | H]; [left | right]; eauto.
Qed.

Lemma mem_app_l (id : string) (G H : list string) : mem id G = true -> mem id (G ++ H)%list = true.
Proof. unfold mem. rewrite existsb_app. now intros ->. Qed.

Lemma inConflictAfter_mono (l G : list string) (id : string) :
  mem id G = true -> mem id (inConflictAfter l G) = true.
Proof.
  revert G. induction l as [| x l IH]; intros G HG; [assumption |].
  cbn [inConflictAfter]. destruct (classId x) as [id' |]; [| auto].
  destruct (mem id' G); auto using mem_app_l.
Qed.

Lemma mem_claimed (x id : string) : classId x = Some id -> mem id (claimed x) = true.
Proof.
  unfold classId, claimed. destruct (classify x) as [[[m g] pf] |]; [| discriminate].
  intros [= <-]. unfold mem. simpl. now rewrite String.eqb_refl.
Qed.

(** Every classified name of the list has its class id in conflict afterwards. *)
Lemma inConflictAfter_In (l G : list string) (d id : string) :
  In d l -> classId d = Some id -> mem id (inConflictAfter l G) = true.
Proof.
  revert G. induction l as [| x l IH]; intros G Hin Hid; [contradiction |].
  cbn [inConflictAfter]. destruct Hin as [-> | Hin].
  - rewrite Hid. destruct (mem id G) eqn:E.
    + now apply inConflictAfter_mono.
    + apply inConflictAfter_mono. unfold mem. rewrite existsb_app.
      fold (mem id (claimed d)). rewrite (mem_claimed d id Hid). apply orb_true_r.
  - destruct (classId x) as [id' |]; [| eauto].
    destruct (mem id' G); eauto.
Qed.

(** A kept name's class id was not in conflict when the loop started. *)
Lemma kept_not_in_conflict (l G : list string) (c id : string) :
  In c (kept l G) -> classId c = Some id -> mem id G = false.
Proof.
  revert G. induction l as [| x l IH]; intros G Hin Hid; [contradiction |].
  cbn [kept] in Hin. destruct (classId x) as [id' |] eqn:Hx.
  - destruct (mem id' G) eqn:E; [eauto |].
    destruct Hin as [-> | Hin].
    + congruence.
    + specialize (IH _ Hin Hid). unfold mem in *. rewrite existsb_app in IH.
      now apply orb_false_elim in IH.
  - destruct Hin as [-> | Hin]; [congruence | eauto].
Qed.

(** [twMerge] returns the surviving class names joined by single spaces. *)
Lemma twMerge_survivors (s : string) : twMerge s = join " " (survivors (tokens s)).
Proof.
  unfold twMerge, mergeClassList, survivors. rewrite split_trim_tokens, mergeLoop_kept.
  destruct (tokens s) as [| t ts] eqn:E.
  - cbn. unfold classId. destruct (classify "") as [[[m g] pf] |]; reflexivity.
  - rewrite <- E.
    rewrite (fold_prepend_join _ []); [now rewrite app_nil_r | | constructor].
    apply kept_Forall. apply Forall_rev. apply tokens_all_nonempty.
Qed.

(** [clsx] of the array of two strings. *)
Lemma clsx_pair (prefix override : string) :
  clsx [ CArray [ CVal (JVal (VStr prefix)); CVal (JVal (VStr override)) ] ]
  = if nonempty prefix
    then if nonempty override then prefix ++ " " ++ override else prefix
    else override.
Proof.
  destruct prefix as [| c p]; destruct override as [| c' o]; try reflexivity.
  unfold clsx, push. simpl. f_equal. apply append_assoc.
Qed.

Lemma clsx_pair_tokens (prefix override : string) :
  tokens (clsx [ CArray [ CVal (JVal (VStr prefix)); CVal (JVal (VStr override)) ] ])
  = (tokens prefix ++ tokens override)%list.
Proof.
  rewrite clsx_pair.
  destruct prefix as [| c p]; destruct override as [| c' o]; cbn [nonempty].
  - reflexivity.
  - reflexivity.
  - now rewrite app_nil_r.
  - apply tokens_app_space.
Qed.
Lemma survivors_app (xs ys : list string) :
  survivors (xs ++ ys)%list
  = (rev (kept (rev xs) (inConflictAfter (rev ys) [])) ++ survivors ys)%list.
Proof. unfold survivors. now rewrite rev_app_distr, kept_app, rev_app_distr. Qed.

Lemma survivors_last (front : list string) (d : string) :
  exists keptFront, survivors (front ++ [d])%list = (keptFront ++ [d])%list.
Proof.
  unfold survivors. rewrite rev_app_distr. cbn [rev app kept].
  destruct (classId d) as [id |]; cbn [mem existsb rev]; eexists; reflexivity.
Qed.

(** [cn] of a class string and an override. *)
Lemma cn_override (prefix override : string) :
  exists earlier,
    cn [ CVal (JVal (VStr prefix)); CVal (JVal (VStr override)) ]
    = join " " (earlier ++ survivors (tokens override))%list
    /\ (forall c, In c earlier -> In c (tokens prefix))
    /\ (forall c d id,
          In c earlier -> In d (tokens override) ->
          classId c = Some id -> classId d = Some id -> False)
    /\ (forall front d,
          tokens override = (front ++ [d])%list ->
          exists keptFront, survivors (tokens override) = (keptFront ++ [d])%list).
Proof.
  exists (rev (kept (rev (tokens prefix)) (inConflictAfter (rev (tokens override)) []))).
  repeat split.
  - unfold cn. now rewrite twMerge_survivors, clsx_pair_tokens, survivors_app.
  - intros c Hin. apply in_rev in Hin. apply kept_In in Hin. now apply in_rev.
  - intros c d id Hc Hd Hcid Hdid.
    apply in_rev in Hc.
    pose proof (kept_not_in_conflict _ _ _ _ Hc Hcid) as Hout.
    rewrite (inConflictAfter_In (rev (tokens override)) [] d id) in Hout;
      [discriminate | now apply in_rev in Hd | assumption].
  - intros front d ->. apply survivors_last.
Qed.

(** Each resolver is [cn] applied to its variant classes and [className]. *)
Lemma classResolvers_cn (classes variantsOf : obj -> string) (props : obj) :
  In (classes, variantsOf) classResolvers ->
  classes props
  = cn [ CVal (JVal (VStr (variantsOf props))); CVal (JVal (get props "className")) ].
Proof.
  intros Hin. simpl in Hin.
  repeat (destruct Hin as [Hin | Hin]; [ injection Hin as <- <-; reflexivity | ]).
  contradiction.
Qed.

Lemma clsx_two_tokens (first override : string) :
  tokens (clsx [ CVal (JVal (VStr first)); CVal (JVal (VStr override)) ])
  = (tokens first ++ tokens override)%list.
Proof.
  rewrite <- clsx_pair_tokens. f_equal.
  destruct first; destruct override; reflexivity.
Qed.

(** Where the classes are resolved through [cn] (avatar, KPI, card and its
    sub-regions, input, badge), the resolved class string is the classes
    kept from the base and the variant fragments, followed by the classes
    [twMerge] keeps of the [className] override alone; no class kept from
    the earlier part has the class id (modifiers and class group) of a
    class of the override, and the last class of the override is always
    kept. *)
Lemma cn_resolvers_override (classes variantsOf : obj -> string) :
  In (classes, variantsOf) classResolvers ->
  forall props override,
    get props "className" = VStr override ->
    exists earlier,
      classes props = join " " (earlier ++ survivors (tokens override))%list
      /\ (forall c, In c earlier -> In c (tokens (variantsOf props)))
      /\ (forall c d id,
            In c earlier -> In d (tokens override) ->
            classId c = Some id -> classId d = Some id -> False)
      /\ (forall front d,
            tokens override = (front ++ [d])%list ->
            exists keptFront,
              survivors (tokens override) = (keptFront ++ [d])%list).
Proof.
  intros Hin props override Hclass.
  rewrite (classResolvers_cn classes variantsOf props Hin), Hclass.
  apply cn_override.
Qed.

(** The activity item joins with [clsx] alone: its class string is all the
    classes of its variants followed by all the classes of the override. *)
Lemma activity_item_classes_joined (props : obj) (override : string) :
  get props "className" = VStr override ->
  tokens (getActivityItemClasses props)
  = (tokens (activityItemVariants [ ("hasBorder", get props "hasBorder") ])
     ++ tokens override)%list.
Proof.
  intros Hclass. unfold getActivityItemClasses. cbv zeta.
  rewrite Hclass. apply clsx_two_tokens.
Qed.

End WithTailwind.

(** The KPI with the override [p-2], under the padding excerpt of the
    Tailwind configuration: [p-6], the fragment of the default size, is
    dropped and [p-2] ends the class string. *)
Lemma kpi_padding_override :
  exists earlier,
    @kpiClasses paddingConfig [ ("className", VStr "p-2") ] = join " " (earlier ++ [ "p-2" ])%list
    /\ ~ In "p-6" earlier
    /\ In "p-6" (tokens (kpiVariants [ ("variant", VUndefined); ("size", VUndefined) ])).
Proof.
  destruct (@cn_resolvers_override paddingConfig kpiClasses _
              (or_intror (or_introl eq_refl))
              [ ("className", VStr "p-2") ] "p-2" eq_refl)
    as [earlier [Heq [Hsub [Hconflict Hlast]]]].
  exists earlier. repeat split.
  - exact Heq.
  - intros Hin. exact (Hconflict "p-6" "p-2" "p" Hin (or_introl eq_refl) eq_refl eq_refl).
  - vm_compute. tauto.
Qed.

(** The class string of that KPI. *)
Lemma kpi_padding_text :
 @kpiClasses paddingConfig [ ("className", VStr "p-2") ] = "rounded-lg border bg-card text-card-foreground shadow-sm transition-all hover:shadow-md border-gray-200 p-2".
Proof. reflexivity. Qed.

End MergeFacts.

(** ** Laws of the attribute serializer *)

Module SerializerLaws.
Import Str JS Utils Spec StrFacts More.

Lemma prefix_app (n b : string) : String.prefix n (n ++ b) = true.
Proof.
  induction n as [| c n IH]; simpl; [now destruct b |].
  destruct (ascii_dec c c); [assumption | congruence].
Qed.

Lemma includes_here (n b : string) : includes n (n ++ b) = true.
Proof. destruct (n ++ b) eqn:E; cbn [includes]; rewrite <- E, prefix_app; reflexivity. Qed.

Lemma includes_app_r (n a s : string) : includes n s = true -> includes n (a ++ s) = true.
Proof.
  intros H. induction a as [| c a IH]; [assumption |].
  simpl. rewrite IH. apply orb_true_r.
Qed.

Lemma prefix_app_l (n s b : string) : String.prefix n s = true -> String.prefix n (s ++ b) = true.
Proof.
  revert s. induction n as [| c n IH]; intros s H; [now destruct (s ++ b) |].
  destruct s as [| d s]; [discriminate |].
  simpl in *. destruct (ascii_dec c d); [now apply IH | discriminate].
Qed.

Lemma includes_app_l (n s b : string) : includes n s = true -> includes n (s ++ b) = true.
Proof.
  induction s as [| c s IH]; intros H.
  - simpl in H. rewrite orb_false_r in H. destruct n; [| discriminate]. now destruct b.
  - cbn [includes] in H. apply orb_true_iff in H. destruct H as [H | H].
    + pose proof (prefix_app_l n (String c s) b H) as Hp.
      change (String c s ++ b) with (String c (s ++ b)) in *. cbn [includes].
      rewrite Hp. reflexivity.
    + change (String c s ++ b) with (String c (s ++ b)). cbn [includes].
      rewrite (IH H). apply orb_true_r.
Qed.

Lemma includes_middle (n a b : string) : includes n (a ++ n ++ b) = true.
Proof. apply includes_app_r, includes_here. Qed.

Lemma join_app (l1 l2 : list string) :
  l1 <> [] -> l2 <> [] -> join " " (l1 ++ l2)%list = join " " l1 ++ " " ++ join " " l2.
Proof.
  intros H1 H2. induction l1 as [| x l1 IH]; [congruence |].
  destruct l1 as [| y l1].
  - simpl. destruct l2; [congruence | reflexivity].
  - change (join " " ((x :: y :: l1) ++ l2)%list) with (x ++ " " ++ join " " ((y :: l1) ++ l2)%list).
    rewrite IH by discriminate.
    change (join " " (x :: y :: l1)) with (x ++ " " ++ join " " (y :: l1)).
    now rewrite !append_assoc.
Qed.

Lemma join_includes (x : string) (l : list string) :
  In x l -> includes x (join " " l) = true.
Proof.
  induction l as [| y l IH]; [contradiction |].
  intros [-> | Hin].
  - destruct l; [rewrite <- (append_empty_r x) at 2; apply includes_here |].
    apply (includes_here x).
  - destruct l as [| z l]; [contradiction |].
    change (join " " (y :: z :: l)) with (y ++ " " ++ join " " (z :: l)).
    apply includes_app_r, includes_app_r. now apply IH.
Qed.

Lemma createAttributesStringified_pieces (a : obj) :
  createAttributesStringified a = join " " (attributePieces a).
Proof. reflexivity. Qed.

Lemma attributePieces_app (a b : obj) :
  attributePieces (a ++ b)%list = (attributePieces a ++ attributePieces b)%list.
Proof. unfold attributePieces. now rewrite filter_app, map_app, filter_app. Qed.

Lemma attributePieces_nonempty (a : obj) :
  Forall (fun p => nonempty p = true) (attributePieces a).
Proof. unfold attributePieces. apply Forall_forall. intros x Hx. now apply filter_In in Hx. Qed.

Lemma join_empty (l : list string) :
  Forall (fun p => nonempty p = true) l -> join " " l = "" -> l = [].
Proof.
  intros Hl Hj. destruct l as [| x l]; [reflexivity |].
  inversion Hl; subst. destruct x; [discriminate |].
  destruct l; discriminate.
Qed.

Lemma attributePieces_silent (kv : string * value) : silent kv -> attributePieces [kv] = [].
Proof.
  destruct kv as [k v]. unfold silent. simpl.
  intros [-> | [-> | [-> | [-> ->]]]]; reflexivity.
Qed.

(** The serializer is a homomorphism from concatenation of attribute
    objects to joining with one space, the empty string being neutral; an
    entry whose value is undefined, null or false, or true under the empty
    name, can be dropped anywhere without changing the text. *)
Theorem createAttributesStringified_app (a b : obj) :
  createAttributesStringified (a ++ b)%list
  = (if nonempty (createAttributesStringified a)
     then if nonempty (createAttributesStringified b)
          then createAttributesStringified a ++ " " ++ createAttributesStringified b
          else createAttributesStringified a
     else createAttributesStringified b)
  /\ forall kv, silent kv ->
       createAttributesStringified (a ++ kv :: b)%list = createAttributesStringified (a ++ b)%list.
Proof.
  split.
  - rewrite !createAttributesStringified_pieces, attributePieces_app.
    destruct (nonempty (join " " (attributePieces a))) eqn:Ha.
    + destruct (nonempty (join " " (attributePieces b))) eqn:Hb.
      * apply join_app; intros E; rewrite E in *; discriminate.
      * apply nonempty_false in Hb.
        apply join_empty in Hb; [| apply attributePieces_nonempty].
        now rewrite Hb, app_nil_r.
    + apply nonempty_false in Ha.
      apply join_empty in Ha; [| apply attributePieces_nonempty].
      now rewrite Ha.
  - intros kv Hkv. rewrite !createAttributesStringified_pieces.
    change (kv :: b) with ([kv] ++ b)%list.
    now rewrite !attributePieces_app, (attributePieces_silent kv Hkv).
Qed.

Lemma stringifyEntry_value (k : string) (v : value) :
  present v = true -> is_boolean v = false ->
  stringifyEntry (k, v) = k ++ html "='" ++ ToString v ++ html "'".
Proof. now destruct v. Qed.

(** The serializer writes a value between the quotes as it is: nothing is
    escaped, so the text of every entry that is present and not a boolean
    occurs verbatim in the result, whatever characters it holds. *)
Theorem createAttributesStringified_verbatim (attributes : obj) (k : string) (v : value) :
  In (k, v) attributes -> present v = true -> is_boolean v = false ->
  includes (k ++ html "='" ++ ToString v ++ html "'") (createAttributesStringified attributes)
  = true.
Proof.
  intros Hin Hp Hb. rewrite createAttributesStringified_pieces.
  apply join_includes. unfold attributePieces.
  apply filter_In. split.
  - rewrite <- (stringifyEntry_value k v Hp Hb).
    apply in_map. apply filter_In. now split.
  - destruct k; reflexivity.
Qed.

(** A value that holds a quote ends the attribute and starts another. *)
Lemma quote_breaks_out :
  includes (html "title='a' onclick='x'")
    (createAttributesStringified [ ("id", VStr "i"); ("title", VStr (html "a' onclick='x")) ])
  = true.
Proof.
  apply (createAttributesStringified_verbatim _ "title" (VStr (html "a' onclick='x")));
    [simpl; tauto | reflexivity | reflexivity].
Defined.

End SerializerLaws.

(** ** Laws of the class merge *)

Module MergeLaws.
Import Str JS Clsx Cva TailwindMerge Utils Components Spec StrFacts ObjFacts TokenFacts MergeFacts More.

(** The classes of a joined list. *)
Lemma tokens_go_spaceless (t rest cur : string) :
  spaceless t = true -> tokens_go cur (t ++ rest) = tokens_go (cur ++ t) rest.
Proof.
  revert cur. induction t as [| c t IH]; intros cur Ht.
  - now rewrite append_empty_r.
  - simpl in Ht. apply andb_true_iff in Ht. destruct Ht as [Hc Ht].
    apply negb_true_iff in Hc. simpl. rewrite Hc, IH by assumption.
    now rewrite append_assoc.
Qed.

Lemma tokens_join (l : list string) :
  Forall (fun t => nonempty t = true /\ spaceless t = true) l -> tokens (join " " l) = l.
Proof.
  induction l as [| t l IH]; intros Hl; [reflexivity |].
  inversion Hl as [| ? ? [Hne Hsp] Hl']; subst.
  destruct l as [| u l].
  - unfold tokens. simpl join.
    pose proof (tokens_go_spaceless t "" "" Hsp) as E. rewrite append_empty_r in E.
    rewrite E. simpl. now rewrite Hne.
  - change (join " " (t :: u :: l)) with (t ++ " " ++ join " " (u :: l)).
    unfold tokens. rewrite tokens_go_spaceless by assumption.
    simpl. rewrite Hne. f_equal. now apply IH.
Qed.

Lemma spaceless_app (a b : string) :
  spaceless a = true -> spaceless b = true -> spaceless (a ++ b) = true.
Proof.
  intros Ha Hb. induction a as [| c a IH]; [assumption |].
  simpl in *. apply andb_true_iff in Ha. destruct Ha as [Hc Ha].
  now rewrite Hc, IH.
Qed.

Lemma tokens_go_spaceless_all (s cur : string) :
  spaceless cur = true -> Forall (fun t => spaceless t = true) (tokens_go cur s).
Proof.
  revert cur. induction s as [| c s IH]; intros cur Hcur; simpl.
  - destruct (nonempty cur); auto.
  - destruct (is_space c) eqn:Hc.
    + destruct (nonempty cur); auto.
    + apply IH. apply spaceless_app; [assumption |]. simpl. now rewrite Hc.
Qed.

Lemma tokens_wellformed (s : string) :
  Forall (fun t => nonempty t = true /\ spaceless t = true) (tokens s).
Proof.
  apply Forall_forall. intros t Ht. split.
  - pose proof (tokens_all_nonempty s) as H. rewrite Forall_forall in H. now apply H.
  - pose proof (tokens_go_spaceless_all s "" eq_refl) as H. rewrite Forall_forall in H.
    now apply H.
Qed.

Section WithTailwind.
Context {tw : Config}.

Lemma kept_idem (l G : list string) : kept (kept l G) G = kept l G.
Proof.
  revert G. induction l as [| x l IH]; intros G; [reflexivity |].
  cbn [kept]. destruct (classId x) as [id |] eqn:Hx.
  - destruct (mem id G) eqn:Hm; [apply IH |].
    cbn [kept]. rewrite Hx, Hm. now rewrite IH.
  - cbn [kept]. rewrite Hx. now rewrite IH.
Qed.

Lemma survivors_idem (l : list string) : survivors (survivors l) = survivors l.
Proof. unfold survivors. now rewrite rev_involutive, kept_idem. Qed.

Lemma survivors_In (l : list string) (x : string) : In x (survivors l) -> In x l.
Proof. unfold survivors. intros H. apply in_rev in H. apply kept_In in H. now apply in_rev. Qed.

Lemma survivors_wellformed (s : string) :
  Forall (fun t => nonempty t = true /\ spaceless t = true) (survivors (tokens s)).
Proof.
  apply Forall_forall. intros t Ht. apply survivors_In in Ht.
  pose proof (tokens_wellformed s) as H. rewrite Forall_forall in H. now apply H.
Qed.

Lemma tokens_twMerge (s : string) : tokens (twMerge s) = survivors (tokens s).
Proof. rewrite twMerge_survivors. apply tokens_join, survivors_wellformed. Qed.

Lemma twMerge_idem (s : string) : twMerge (twMerge s) = twMerge s.
Proof.
  rewrite (twMerge_survivors (twMerge s)), tokens_twMerge, survivors_idem.
  symmetry. apply twMerge_survivors.
Qed.

Lemma clsx_single (s : string) : clsx [ CArray [ CVal (JVal (VStr s)) ] ] = s.
Proof. destruct s; reflexivity. Qed.

(** [cn] is idempotent: merging its own result again changes nothing, and
    the result is in normal form, its classes separated by single spaces
    with no space at either end. *)
Theorem cn_idempotent (inputs : list ClassValue) :
  cn [ CVal (JVal (VStr (cn inputs))) ] = cn inputs
  /\ join " " (tokens (cn inputs)) = cn inputs.
Proof.
  split.
  - unfold cn. rewrite clsx_single. apply twMerge_idem.
  - unfold cn. rewrite tokens_twMerge. symmetry. apply twMerge_survivors.
Qed.

(** No class group occurs twice among the kept classes. *)
Lemma classIds_app (l1 l2 : list string) : classIds (l1 ++ l2)%list = (classIds l1 ++ classIds l2)%list.
Proof. unfold classIds. apply flat_map_app. Qed.

Lemma classIds_In (l : list string) (id : string) :
  In id (classIds l) -> exists c, In c l /\ classId c = Some id.
Proof.
  unfold classIds. rewrite in_flat_map. intros [c [Hc Hid]].
  exists c. split; [assumption |].
  destruct (classId c) as [i |]; [| contradiction].
  destruct Hid as [-> | []]. reflexivity.
Qed.

Lemma classIds_rev (l : list string) : classIds (rev l) = rev (classIds l).
Proof.
  induction l as [| x l IH]; [reflexivity |].
  cbn [rev]. rewrite classIds_app, IH. cbn [classIds flat_map].
  destruct (classId x); cbn; now rewrite ?app_nil_r.
Qed.

Lemma kept_NoDup (l G : list string) : NoDup (classIds (kept l G)).
Proof.
  revert G. induction l as [| x l IH]; intros G; [constructor |].
  cbn [kept]. destruct (classId x) as [id |] eqn:Hx.
  - destruct (mem id G) eqn:Hm; [apply IH |].
    cbn [classIds flat_map]. rewrite Hx. cbn [app]. constructor; [| apply IH].
    intros Hin. apply classIds_In in Hin. destruct Hin as [c [Hc Hcid]].
    pose proof (kept_not_in_conflict _ _ _ _ Hc Hcid) as Hout.
    unfold mem in Hout. rewrite existsb_app in Hout. apply orb_false_elim in Hout.
    destruct Hout as [_ Hout]. fold (mem id (claimed x)) in Hout.
    now rewrite (mem_claimed x id Hx) in Hout.
  - cbn [classIds flat_map]. rewrite Hx. apply IH.
Qed.

Lemma survivors_NoDup (l : list string) : NoDup (classIds (survivors l)).
Proof. unfold survivors. rewrite classIds_rev. apply NoDup_rev. apply kept_NoDup. Qed.

(** In the result of [cn] no two classes belong to the same class group,
    whatever the configuration. *)
Theorem cn_no_duplicate_class_id (inputs : list ClassValue) :
  NoDup (classIds (tokens (cn inputs))).
Proof. unfold cn. rewrite tokens_twMerge. apply survivors_NoDup. Qed.

(** What the merge keeps. *)
Lemma kept_unclassified (l G : list string) :
  filter unclassified (kept l G) = filter unclassified l.
Proof.
  revert G. induction l as [| x l IH]; intros G; [reflexivity |].
  cbn [kept filter]. unfold unclassified at 2. destruct (classId x) as [id |] eqn:Hx.
  - destruct (mem id G); [apply IH |].
    cbn [filter]. unfold unclassified at 1. rewrite Hx. apply IH.
  - cbn [filter]. unfold unclassified at 1. rewrite Hx. now rewrite IH.
Qed.

Lemma filter_rev' (f : string -> bool) (l : list string) : filter f (rev l) = rev (filter f l).
Proof.
  induction l as [| x l IH]; [reflexivity |].
  cbn [rev filter]. rewrite filter_app, IH. cbn [filter].
  destruct (f x); cbn; now rewrite ?app_nil_r.
Qed.

Lemma survivors_unclassified (l : list string) :
  filter unclassified (survivors l) = filter unclassified l.
Proof.
  unfold survivors. rewrite filter_rev', kept_unclassified, filter_rev'. apply rev_involutive.
Qed.

(** [cn] never invents or reorders: the classes the configuration does not
    classify are all kept, in their order and with their repetitions, and
    every class of the result is a class of the input. *)
Theorem cn_keeps_unclassified (inputs : list ClassValue) :
  filter unclassified (tokens (cn inputs)) = filter unclassified (tokens (clsx [ CArray inputs ]))
  /\ forall c, In c (tokens (cn inputs)) -> In c (tokens (clsx [ CArray inputs ])).
Proof.
  unfold cn. rewrite tokens_twMerge. split.
  - apply survivors_unclassified.
  - apply survivors_In.
Qed.

End WithTailwind.

End MergeLaws.

(** ** Laws of text *)

Module TextLaws.
Import Str JS StrFacts.

Lemma upper_ascii_idem (c : ascii) : upper_ascii (upper_ascii c) = upper_ascii c.
Proof. destruct c as [[] [] [] [] [] [] [] []]; reflexivity. Qed.

Lemma toUpperCase_idem (s : string) : toUpperCase (toUpperCase s) = toUpperCase s.
Proof. induction s as [| c s IH]; [reflexivity |]. simpl. now rewrite upper_ascii_idem, IH. Qed.

Lemma toUpperCase_length (s : string) : String.length (toUpperCase s) = String.length s.
Proof. induction s as [| c s IH]; [reflexivity |]. simpl. now rewrite IH. Qed.

Lemma substring_split (s : string) (n m : nat) :
  n + m <= String.length s ->
  exists before after,
    s = before ++ String.substring n m s ++ after
    /\ String.length before = n /\ String.length (String.substring n m s) = m.
Proof.
  revert n m. induction s as [| c s IH]; intros n m H.
  - simpl in H. assert (n = 0) by lia. assert (m = 0) by lia. subst.
    exists "", "". repeat split.
  - destruct n as [| n].
    + destruct m as [| m].
      * exists "", (String c s). repeat split.
      * simpl in H. destruct (IH 0 m ltac:(lia)) as [b [a [E [Hb Hm]]]].
        destruct b; [| discriminate]. simpl in E.
        exists "", a. simpl. repeat split; [now rewrite <- E | now rewrite Hm].
    + simpl in H. destruct (IH n m ltac:(lia)) as [b [a [E [Hb Hm]]]].
      exists (String c b), a. simpl. repeat split; [now rewrite <- E | now rewrite Hb | assumption].
Qed.

Lemma length_app (a b : string) : String.length (a ++ b) = String.length a + String.length b.
Proof. induction a as [| c a IH]; [reflexivity |]. simpl. now rewrite IH. Qed.

End TextLaws.

(** ** The logic and text helpers *)

Module TemplateHelperFacts.
Import Str JS StrFacts TemplateHelpers TextLaws.

Lemma clampIndex_le (len : nat) (i : Z) : clampIndex len i <= len.
Proof. unfold clampIndex. lia. Qed.

(** The [substring] helper: a falsy first argument gives the empty text; a
    truthy argument that is not a string makes the call throw; for a string
    the result is the upper-cased piece between the two indices, each
    clamped to the text, taken from the smaller to the larger, so swapping
    the indices changes nothing. *)
Theorem substringHelper_result (str : value) (start finish : Z) :
  (truthy str = false -> substringHelper str start finish = Return "")
  /\ (truthy str = true -> isString str = false ->
      substringHelper str start finish = TypeError "str.substring is not a function")
  /\ (forall s, str = VStr s ->
      exists before piece after,
        s = before ++ piece ++ after
        /\ String.length before
           = Nat.min (clampIndex (String.length s) start) (clampIndex (String.length s) finish)
        /\ String.length (before ++ piece)
           = Nat.max (clampIndex (String.length s) start) (clampIndex (String.length s) finish)
        /\ substringHelper str start finish = Return (toUpperCase piece)
        /\ substringHelper str finish start = Return (toUpperCase piece)).
Proof.
  split; [| split].
  - intros H. unfold substringHelper. now rewrite H.
  - intros Ht Hs. unfold substringHelper. rewrite Ht. now destruct str.
  - intros s ->.
    set (a := clampIndex (String.length s) start).
    set (b := clampIndex (String.length s) finish).
    pose proof (clampIndex_le (String.length s) start) as Ha.
    pose proof (clampIndex_le (String.length s) finish) as Hb.
    fold a in Ha. fold b in Hb.
    destruct (substring_split s (Nat.min a b) (Nat.max a b - Nat.min a b) ltac:(lia))
      as [before [after [E [Hbefore Hpiece]]]].
    exists before, (String.substring (Nat.min a b) (Nat.max a b - Nat.min a b) s), after.
    split; [exact E |]. split; [exact Hbefore |]. split.
    + rewrite length_app, Hbefore, Hpiece. lia.
    + unfold substringHelper, jsSubstring. fold a b.
      rewrite (Nat.min_comm b a), (Nat.max_comm b a).
      destruct s as [| c s]; [| split; reflexivity].
      simpl. destruct (Nat.max a b - Nat.min a b), (Nat.min a b); split; reflexivity.
Qed.

(** The helpers [and], [or] and [not]: [and] and [or] return one of their
    operands, not a boolean; on truthiness they are conjunction,
    disjunction and negation, and De Morgan's laws hold for the values
    themselves. *)
Theorem logic_helpers_truthiness (a b : value) :
  truthy (andHelper a b) = (truthy a && truthy b)%bool
  /\ truthy (orHelper a b) = (truthy a || truthy b)%bool
  /\ truthy (notHelper a) = negb (truthy a)
  /\ (andHelper a b = a \/ andHelper a b = b)
  /\ (orHelper a b = a \/ orHelper a b = b)
  /\ notHelper (andHelper a b) = orHelper (notHelper a) (notHelper b)
  /\ notHelper (orHelper a b) = andHelper (notHelper a) (notHelper b)
  /\ notHelper (notHelper (notHelper a)) = notHelper a.
Proof.
  unfold andHelper, orHelper, notHelper.
  destruct (truthy a) eqn:Ha; destruct (truthy b) eqn:Hb; cbn [truthy negb andb orb];
    rewrite ?Ha, ?Hb; cbn [negb]; repeat split; auto.
Qed.

End TemplateHelperFacts.

(** ** The sign-in flow *)

Module AuthFacts.
Import Str JS Components StrFacts ObjFacts Auth.

Lemma find_email (v : value) (u : User) :
  find (fun u => is_string v (email u)) users = Some u <-> In u users /\ v = VStr (email u).
Proof.
  split.
  - intros H. pose proof (find_some _ _ H) as [Hin Hv]. split; [assumption |].
    destruct v; try discriminate. simpl in Hv. apply String.eqb_eq in Hv. now subst.
  - intros [Hin ->]. simpl in Hin. destruct Hin as [<- | [<- | []]]; reflexivity.
Qed.

Lemma find_id (u : User) : In u users -> findUserById (VStr (id u)) = Some u.
Proof. intros [<- | [<- | []]]; reflexivity. Qed.

Lemma id_truthy (u : User) : In u users -> truthy (VStr (id u)) = true.
Proof. intros [<- | [<- | []]]; reflexivity. Qed.

Lemma validateUser_Some (e p : value) (u : User) :
  validateUser e p = Some u <-> In u users /\ e = VStr (email u) /\ truthy p = true.
Proof.
  unfold validateUser. split.
  - destruct (find _ users) as [u' |] eqn:F; [| discriminate].
    destruct (truthy p); [| discriminate]. intros [= ->].
    apply find_email in F. tauto.
  - intros [Hin [He Hp]]. rewrite (proj2 (find_email e u) (conj Hin He)). now rewrite Hp.
Qed.

Lemma email_truthy (u : User) : In u users -> truthy (VStr (email u)) = true.
Proof. intros [<- | [<- | []]]; reflexivity. Qed.

Lemma signIn_NoPage (body session : obj) :
  fst (signIn body session) = NoPage ->
  exists u, In u users /\ get body "email" = VStr (email u)
            /\ truthy (get body "password") = true
            /\ signIn body session
               = (NoPage, set (set session "userId" (VStr (id u))) "userEmail" (VStr (email u))).
Proof.
  unfold signIn.
  destruct (negb (truthy (get body "email")) || negb (truthy (get body "password")))%bool;
    [discriminate |].
  destruct (validateUser _ _) as [u |] eqn:V; [| discriminate].
  intros _. apply validateUser_Some in V. destruct V as [Hin [He Hp]].
  exists u. repeat split; assumption.
Qed.

(** Sign-in succeeds exactly when the e-mail of the body is the e-mail of a
    stored user and the password is truthy: the content of the password is
    never compared. *)
Theorem signIn_accepts (body session : obj) :
  fst (signIn body session) = NoPage
  <-> (exists u, In u users /\ get body "email" = VStr (email u))
      /\ truthy (get body "password") = true.
Proof.
  split.
  - intros H. destruct (signIn_NoPage _ _ H) as [u [Hin [He [Hp _]]]]. split; [now exists u | assumption].
  - intros [[u [Hin He]] Hp]. unfold signIn. rewrite He, Hp, (email_truthy u Hin). cbn [negb orb].
    rewrite <- He.
    now rewrite (proj2 (validateUser_Some (get body "email") (get body "password") u)
                   (conj Hin (conj He Hp))).
Qed.

(** A sign-in that fails leaves the session as it was and hands the view an
    error message. *)
Theorem signIn_rejects (body session : obj) :
  fst (signIn body session) <> NoPage ->
  snd (signIn body session) = session
  /\ exists message, fst (signIn body session) = SignInPage "Sign in" (Some message).
Proof.
  unfold signIn.
  destruct (negb (truthy (get body "email")) || negb (truthy (get body "password")))%bool.
  - intros _. split; [reflexivity |]. eexists. reflexivity.
  - destruct (validateUser _ _); [intros H; now elim H |].
    intros _. split; [reflexivity |]. eexists. reflexivity.
Qed.

(** After a successful sign-in, whatever the session held before, the guard
    lets the request pass, the dashboard shows the user whose e-mail was
    sent, the root and the sign-in page redirect to the dashboard, and the
    other keys of the session are unchanged. *)
Theorem signIn_opens_dashboard (body session session' : obj) :
  signIn body session = (NoPage, session') ->
  exists u, In u users
    /\ get body "email" = VStr (email u)
    /\ canActivate session' = Activated true
    /\ dashboardRoute session' = Activated (Some u)
    /\ root session' = "/dashboard"
    /\ getSignIn session' = RedirectTo "/dashboard" 302
    /\ get session' "userEmail" = VStr (email u)
    /\ forall k, k <> "userId" -> k <> "userEmail" -> get session' k = get session k.
Proof.
  intros H. destruct (signIn_NoPage body session) as [u [Hin [He [Hp E]]]]; [now rewrite H |].
  rewrite H in E. injection E as ->.
  assert (Hid : get (set (set session "userId" (VStr (id u))) "userEmail" (VStr (email u))) "userId"
                = VStr (id u)).
  { rewrite get_set_ne by discriminate. apply get_set_eq. }
  exists u. split; [assumption |]. split; [assumption |].
  unfold dashboardRoute, canActivate, getDashboardUser, root, getSignIn.
  rewrite Hid, (id_truthy u Hin), (find_id u Hin). cbn [negb].
  repeat split.
  - apply get_set_eq.
  - intros k H1 H2. rewrite !get_set_ne by congruence. reflexivity.
Qed.

(** Signing in as the administrator on an empty session. *)
Lemma signIn_admin :
  exists u, In u users
    /\ get [ ("email", VStr "admin@example.com"); ("password", VStr "x") ] "email" = VStr (email u)
    /\ canActivate [ ("userId", VStr "1"); ("userEmail", VStr "admin@example.com") ] = Activated true
    /\ dashboardRoute [ ("userId", VStr "1"); ("userEmail", VStr "admin@example.com") ] = Activated (Some u)
    /\ root [ ("userId", VStr "1"); ("userEmail", VStr "admin@example.com") ] = "/dashboard"
    /\ getSignIn [ ("userId", VStr "1"); ("userEmail", VStr "admin@example.com") ] = RedirectTo "/dashboard" 302
    /\ get [ ("userId", VStr "1"); ("userEmail", VStr "admin@example.com") ] "userEmail" = VStr (email u)
    /\ forall k, k <> "userId" -> k <> "userEmail" ->
         get [ ("userId", VStr "1"); ("userEmail", VStr "admin@example.com") ] k = get [] k.
Proof.
  apply (signIn_opens_dashboard [ ("email", VStr "admin@example.com"); ("password", VStr "x") ] []).
  reflexivity.
Defined.

(** An unknown e-mail on the session of the second user. *)
Lemma signIn_unknown_email :
  snd (signIn [ ("email", VStr "eve@example.com"); ("password", VStr "x") ] [ ("userId", VStr "2") ])
  = [ ("userId", VStr "2") ]
  /\ exists message,
       fst (signIn [ ("email", VStr "eve@example.com"); ("password", VStr "x") ] [ ("userId", VStr "2") ])
       = SignInPage "Sign in" (Some message).
Proof.
  apply (signIn_rejects [ ("email", VStr "eve@example.com"); ("password", VStr "x") ] [ ("userId", VStr "2") ]).
  discriminate.
Defined.

End AuthFacts.

(** ** The attributes of the input *)

Module InputFacts.
Import Str JS Utils Components StrFacts ObjFacts AttributeFacts More.

Lemma own_spread_when (target : obj) (cond : value) (key k : string) (v : value) :
  own (spread_when target cond key v) k
  = if (truthy cond && String.eqb key k)%bool then Some v else own target k.
Proof.
  unfold spread_when. destruct (truthy cond); cbn [andb]; [| reflexivity].
  destruct (String.eqb key k) eqn:E.
  - apply String.eqb_eq in E. subst. apply own_set_eq.
  - apply String.eqb_neq in E. now apply own_set_ne.
Qed.

Lemma own_getInputAttributes_all (props : obj) (k : string) :
  own (getInputAttributes props) k
  = if (truthy (get props "autoFocus") && String.eqb "autofocus" k)%bool then Some (VBool true)
    else if (truthy (get props "required") && String.eqb "required" k)%bool then Some (VBool true)
    else if (truthy (get props "readOnly") && String.eqb "readonly" k)%bool then Some (VBool true)
    else if (truthy (get props "disabled") && String.eqb "disabled" k)%bool then Some (VBool true)
    else if (truthy (get props "onFocus") && String.eqb "onfocus" k)%bool then Some (get props "onFocus")
    else if (truthy (get props "onBlur") && String.eqb "onblur" k)%bool then Some (get props "onBlur")
    else if (truthy (get props "onChange") && String.eqb "onchange" k)%bool then Some (get props "onChange")
    else if (truthy (get props "onInput") && String.eqb "oninput" k)%bool then Some (get props "onInput")
    else own (omit inputKeys props) k.
Proof. unfold getInputAttributes. cbv zeta. now rewrite !own_spread_when. Qed.

(** The attributes of the input, key by key: a handler prop is removed and,
    when truthy, forwarded under its lower-case attribute name; a truthy
    boolean prop sets its attribute to [true]; when the prop is falsy the
    attribute keeps the value the props give it; every other undeclared key
    is passed through unchanged (so [readOnly] and [autoFocus] stay beside
    [readonly] and [autofocus]). *)
Theorem getInputAttributes_entries (props : obj) :
  (forall handler attribute, In (handler, attribute) inputHandlers ->
     own (getInputAttributes props) handler = None
     /\ own (getInputAttributes props) attribute
        = if truthy (get props handler) then Some (get props handler) else own props attribute)
  /\ (forall prop attribute, In (prop, attribute) inputBooleans ->
        own (getInputAttributes props) attribute
        = if truthy (get props prop) then Some (VBool true) else own props attribute)
  /\ (forall k, ~ In k inputKeys ->
        ~ In k (map snd (inputHandlers ++ inputBooleans)) ->
        own (getInputAttributes props) k = own props k).
Proof.
  split; [| split].
  - intros h a Hin. split.
    + apply own_getInputAttributes. simpl in Hin. simpl.
      destruct Hin as [[= <- <-] | [[= <- <-] | [[= <- <-] | [[= <- <-] | []]]]]; tauto.
    + rewrite own_getInputAttributes_all. simpl in Hin.
      destruct Hin as [[= <- <-] | [[= <- <-] | [[= <- <-] | [[= <- <-] | []]]]];
        cbn [String.eqb Ascii.eqb Bool.eqb andb]; rewrite ?andb_false_r, ?andb_true_r;
        (destruct (truthy (get props _)); [reflexivity |]);
        apply own_omit_out; simpl; intros H; repeat (destruct H as [H | H]; [discriminate |]); exact H.
  - intros p a Hin. rewrite own_getInputAttributes_all. simpl in Hin.
    destruct Hin as [[= <- <-] | [[= <- <-] | [[= <- <-] | [[= <- <-] | []]]]];
      cbn [String.eqb Ascii.eqb Bool.eqb andb]; rewrite ?andb_false_r, ?andb_true_r;
      (destruct (truthy (get props _)); [reflexivity |]);
      apply own_omit_out; simpl; intros H; repeat (destruct H as [H | H]; [discriminate |]); exact H.
  - intros k Hk Ht. rewrite own_getInputAttributes_all.
    assert (E : forall t, In t (map snd (inputHandlers ++ inputBooleans)) -> String.eqb t k = false).
    { intros t Hin. apply String.eqb_neq. intros ->. now apply Ht. }
    rewrite !E by (simpl; tauto). rewrite !andb_false_r.
    now apply own_omit_out.
Qed.

End InputFacts.

(** ** The class string of a variant table *)

Module ClassTextFacts.
Import Str JS Clsx Cva Utils Components StrFacts ObjFacts CvaFacts MergeFacts More SerializerLaws.

Lemma fold_push_join (l : list string) (acc : string) :
  Forall (fun t => nonempty t = true) l ->
  fold_left push l acc = if nonempty acc then join " " (acc :: l) else join " " l.
Proof.
  revert acc. induction l as [| x l IH]; intros acc Hl.
  - simpl. now destruct acc.
  - inversion Hl as [| ? ? Hx Hl']; subst. cbn [fold_left]. rewrite IH by assumption.
    unfold push. destruct (nonempty acc) eqn:Ha.
    + rewrite nonempty_append_l by (now apply nonempty_append_l).
      change (join " " (acc :: x :: l)) with (acc ++ " " ++ join " " (x :: l)).
      destruct l as [| y l].
      * simpl. now rewrite append_assoc.
      * change (join " " (((acc ++ " ") ++ x) :: y :: l))
          with (((acc ++ " ") ++ x) ++ " " ++ join " " (y :: l)).
        change (join " " (x :: y :: l)) with (x ++ " " ++ join " " (y :: l)).
        now rewrite !append_assoc.
    + apply nonempty_false in Ha. subst. simpl. now rewrite Hx.
Qed.

Lemma loop_pieces (items : list ClassValue) (acc : string) :
  fold_left (fun str item =>
               if cv_truthy item then
                 let y := toVal item in if nonempty y then push str y else str
               else str) items acc
  = fold_left push (filter nonempty (map classText items)) acc.
Proof.
  revert acc. induction items as [| item items IH]; intros acc; [reflexivity |].
  cbn [fold_left map filter].
  assert (E : classText item = if cv_truthy item then toVal item else "") by reflexivity.
  destruct (cv_truthy item); rewrite E; [| apply IH].
  cbv zeta. destruct (nonempty (toVal item)); [| apply IH].
  cbn [fold_left]. apply IH.
Qed.

Lemma filter_nonempty_all (l : list string) :
  Forall (fun t => nonempty t = true) (filter nonempty l).
Proof. apply Forall_forall. intros x Hx. now apply filter_In in Hx. Qed.

Lemma clsx_join (args : list ClassValue) :
  clsx args = join " " (filter nonempty (map classText args)).
Proof.
  unfold clsx. rewrite loop_pieces, fold_push_join by apply filter_nonempty_all. reflexivity.
Qed.

Lemma toVal_array_join (items : list ClassValue) :
  toVal (CArray items) = join " " (filter nonempty (map classText items)).
Proof.
  rewrite toVal_array, loop_pieces, fold_push_join by apply filter_nonempty_all. reflexivity.
Qed.

Lemma join_flat (A B C : list string) :
  B <> [] -> join " " (A ++ join " " B :: C)%list = join " " (A ++ B ++ C)%list.
Proof.
  intros HB. induction A as [| a A IH].
  - cbn [app]. destruct C as [| c C].
    + now rewrite app_nil_r.
    + rewrite join_app by (assumption || discriminate). reflexivity.
  - cbn [app].
    destruct (A ++ join " " B :: C)%list as [| u U] eqn:E1; [now destruct A |].
    destruct (A ++ B ++ C)%list as [| w W] eqn:E2.
    { destruct A; [| discriminate]. destruct B; [congruence | discriminate]. }
    change (join " " (a :: u :: U)) with (a ++ " " ++ join " " (u :: U)).
    change (join " " (a :: w :: W)) with (a ++ " " ++ join " " (w :: W)).
    now rewrite IH.
Qed.

Lemma filter_join_flat (A B C : list string) :
  join " " (filter nonempty (A ++ join " " (filter nonempty B) :: C)%list)
  = join " " (filter nonempty (A ++ B ++ C)%list).
Proof.
  rewrite !filter_app. cbn [filter].
  destruct (filter nonempty B) as [| b B'] eqn:EB.
  - reflexivity.
  - assert (Hb : nonempty b = true).
    { pose proof (filter_nonempty_all B) as H. rewrite EB in H. now inversion H. }
    rewrite join_nonempty by assumption.
    apply join_flat. discriminate.
Qed.

(** The class string of a variant table in closed form: the base, the
    fragment of each axis in declaration order, then [class] and
    [className], the empty ones left out, joined by single spaces. *)
Theorem cva_closed_form (base : string) (cfg : config) (props : obj) :
  cva base cfg props
  = join " "
      (filter nonempty
         (base
          :: map (fun axis => classText (CVal (variantClassName cfg props (fst axis) (snd axis))))
                 (variants cfg)
          ++ [ classText (CVal (JVal (get props "class")));
               classText (CVal (JVal (get props "className"))) ])%list).
Proof.
  unfold cva. cbv zeta. rewrite clsx_join.
  cbn [map]. unfold classText at 2. cbn [cv_truthy]. rewrite toVal_array_join.
  rewrite map_map.
  change (classText (CVal (JVal (VStr base)))) with (if nonempty base then base else "").
  change (classText (CVal (JVal VUndefined))) with "".
  set (F := map _ (variants cfg)).
  set (c1 := classText (CVal (JVal (get props "class")))).
  set (c2 := classText (CVal (JVal (get props "className")))).
  pose proof (filter_join_flat [if nonempty base then base else ""] F [ ""; c1; c2 ]) as E.
  cbn [app] in E. rewrite E. clear E.
  cbn [filter]. rewrite !filter_app. cbn [filter nonempty].
  destruct base; reflexivity.
Qed.

End ClassTextFacts.

(** ** The initials *)

Module InitialsFacts.
Import Str JS Components Spec StrFacts TokenFacts AvatarFacts MergeFacts More TextLaws.

Lemma charAt0_length (s : string) : String.length (charAt0 s) <= 1.
Proof. destruct s; simpl; lia. Qed.

Lemma charAt0_nonempty (s : string) : nonempty s = true -> String.length (charAt0 s) = 1.
Proof. destruct s; [discriminate | reflexivity]. Qed.

Lemma initials_facts (s : string) :
  toUpperCase (initials s) = initials s
  /\ String.length (initials s) = Nat.min (length (tokens s)) 2.
Proof.
  unfold initials. pose proof (tokens_all_nonempty s) as Hne.
  destruct (tokens s) as [| t [| t' rest]] eqn:E.
  - split; reflexivity.
  - split; [apply toUpperCase_idem |].
    rewrite toUpperCase_length. inversion Hne; subst. now rewrite charAt0_nonempty.
  - split; [apply toUpperCase_idem |].
    rewrite toUpperCase_length, length_app.
    inversion Hne as [| ? ? Ht Hrest]; subst.
    rewrite (charAt0_nonempty t Ht).
    assert (Hl : nonempty (last (t' :: rest) "") = true).
    { rewrite Forall_forall in Hrest. apply Hrest.
      destruct (exists_last (l := t' :: rest) ltac:(discriminate)) as [l' [a ->]].
      rewrite last_last. apply in_or_app. right. now left. }
    rewrite (charAt0_nonempty _ Hl). cbn [length]. lia.
Qed.

(** The initials of a string: the call returns, the result is in upper
    case, it has as many characters as the name has words, up to two, and
    it depends on the words only, not on the white space around or between
    them. *)
Theorem getInitials_shape (s s' : string) :
  exists r,
    getInitials (VStr s) = Return r
    /\ toUpperCase r = r
    /\ String.length r = Nat.min (length (tokens s)) 2
    /\ (tokens s' = tokens s -> getInitials (VStr s') = Return r).
Proof.
  exists (initials s). rewrite !getInitials_string.
  destruct (initials_facts s) as [Hu Hl].
  repeat split; try assumption.
  intros E. unfold initials. now rewrite E.
Qed.

End InitialsFacts.

(** ** The markup of the factories *)

Module MarkupFacts.
Import Str JS Clsx Cva TailwindMerge Utils Components Helpers Spec StrFacts ObjFacts AvatarFacts More.

Section WithTailwind.
Context {tw : Config}.

(** The badge writes its content with [??]: every value other than
    [undefined] and [null] is written as text (so [false] and [0] are),
    between the tag built from the other props; [children] itself never
    becomes an attribute. *)
Theorem badge_children (props : obj) (v : value) :
  createBadge (set props "children" v)
  = html "<span class='" ++ badgeClasses props ++ html "' "
    ++ createAttributesStringified (omit badgeKeys props)
    ++ ">" ++ (if present v then ToString v else "") ++ "</span>".
Proof.
  unfold createBadge. cbv zeta.
  rewrite get_set_eq, omit_set_in by (simpl; tauto).
  unfold badgeClasses. rewrite !get_set_ne by discriminate.
  now destruct v.
Qed.


Lemma trim_kpiMarkup (classes attributesStringified titleHtml valueHtml descriptionHtml changeHtml iconSvg : string) :
  trim (kpiMarkup classes attributesStringified titleHtml valueHtml descriptionHtml changeHtml iconSvg)
  = kpiElement classes attributesStringified titleHtml valueHtml descriptionHtml changeHtml iconSvg.
Proof.
  unfold kpiMarkup, kpiElement, trim.
  match goal with
  | |- context [trimStart (html _ ++ ?X)] =>
      change (trimStart (html _ ++ X))
        with (trimStart (html "
    " ++ String "<" (html "div class='" ++ X)))
  end.
  rewrite trimStart_app_spaces by reflexivity.
  cbn [trimStart is_space].
  change (is_space "<") with false. cbv iota.
  rewrite trimEnd_cons_nonspace by reflexivity.
  rewrite !trimEnd_app;
    [ reflexivity | repeat apply trimEnd_app_ne; discriminate .. ].
Qed.

Lemma omit_comm (A B : list string) (o : obj) : omit A (omit B o) = omit B (omit A o).
Proof.
  unfold omit. induction o as [| kv o IH]; [reflexivity |].
  cbn [filter]. destruct (negb (mem (fst kv) B)) eqn:HB; destruct (negb (mem (fst kv) A)) eqn:HA;
    cbn [filter]; rewrite ?HA, ?HB, IH; reflexivity.
Qed.

Lemma omit_omit_set (A B : list string) (o : obj) (k : string) (v : value) :
  In k B -> omit B (omit A (set o k v)) = omit B (omit A o).
Proof. intros H. rewrite (omit_comm B A), omit_set_in by assumption. apply omit_comm. Qed.

Lemma kpiClasses_set (props : obj) (k : string) (v : value) :
  ~ In k [ "variant"; "size"; "className" ] -> kpiClasses (set props k v) = kpiClasses props.
Proof.
  intros H. unfold kpiClasses. rewrite !get_set_ne; [reflexivity | ..];
    intros ->; apply H; simpl; tauto.
Qed.

Lemma omit_subset (A B : list string) (o : obj) :
  (forall k, In k A -> In k B) -> omit B (omit A o) = omit B o.
Proof.
  intros H. unfold omit. induction o as [| kv o IH]; [reflexivity |].
  cbn [filter]. destruct (negb (mem (fst kv) A)) eqn:HA.
  - cbn [filter]. now rewrite IH.
  - rewrite IH. apply negb_false_iff in HA. apply mem_In in HA. apply H in HA.
    apply mem_In in HA. now rewrite HA.
Qed.

Lemma kpiElement_shape (classes attributes title value description change icon : string) :
  exists inner,
    kpiElement classes attributes title value description change icon
    = html "<div class='" ++ classes ++ html "' " ++ attributes ++ ">" ++ inner ++ "</div>".
Proof.
  exists (html "
      <div class='flex items-start justify-between'>
        <div class='flex-1'>
          " ++ title ++ html "
          <div class='flex items-baseline gap-2'>
            " ++ value ++ html "
          </div>
          " ++ description ++ html "
          " ++ change ++ html "
        </div>
        " ++ icon ++ html "
      </div>
    ").
  unfold kpiElement. rewrite !append_assoc. reflexivity.
Qed.

(** The KPI is one [div] element: [trim] removes exactly the indentation
    around the template, whatever is interpolated, and the markup starts
    with the opening tag, carrying the classes and the attributes of the
    props without any declared key, and ends with the closing tag. *)
Theorem createKPI_element (props : obj) :
  (forall classes attributes title value description change icon,
     trim (kpiMarkup classes attributes title value description change icon)
     = kpiElement classes attributes title value description change icon)
  /\ exists inner,
       createKPI props
       = html "<div class='" ++ kpiClasses props ++ html "' "
         ++ createAttributesStringified (omit kpiKeys props) ++ ">" ++ inner ++ "</div>".
Proof.
  split; [apply trim_kpiMarkup |].
  unfold createKPI. cbv zeta. rewrite trim_kpiMarkup. unfold getKPIAttributes.
  rewrite omit_subset by (simpl; tauto).
  apply kpiElement_shape.
Qed.

End WithTailwind.

(** The activity item and the user-info block forward no attribute other
    than [data-testid]: a prop they do not name never changes the markup. *)
Theorem fixed_markup_ignores_other_props (props : obj) (k : string) (v : value) :
  (~ In k [ "hasBorder"; "className"; "data-testid"; "statusColor"; "description"; "title";
            "timeAgo" ] ->
   createActivityItem (set props k v) = createActivityItem props)
  /\ (~ In k [ "data-testid"; "user" ] ->
      createUserInfoFields (set props k v) = createUserInfoFields props).
Proof.
  split; intros H.
  - unfold createActivityItem, getActivityItemClasses, testidAttribute, activityStatusColor,
      activityDescriptionHtml. cbv zeta.
    rewrite !get_set_ne; [reflexivity | ..]; intros ->; apply H; simpl; tauto.
  - unfold createUserInfoFields, testidAttribute. cbv zeta.
    rewrite !get_set_ne; [reflexivity | ..]; intros ->; apply H; simpl; tauto.
Qed.

(** An [id] given to either of them is dropped. *)
Lemma activity_item_drops_id :
  (createActivityItem (set [ ("title", VStr "Deployed") ] "id" (VStr "a1"))
   = createActivityItem [ ("title", VStr "Deployed") ])
  /\ (createUserInfoFields (set [ ("user", VObj [ ("name", VStr "Ada") ]) ] "id" (VStr "a1"))
      = createUserInfoFields [ ("user", VObj [ ("name", VStr "Ada") ]) ]).
Proof.
  split.
  - apply (proj1 (fixed_markup_ignores_other_props [ ("title", VStr "Deployed") ] "id" (VStr "a1"))).
    simpl. intros H. repeat (destruct H as [H | H]; [discriminate |]). exact H.
  - apply (proj2 (fixed_markup_ignores_other_props [ ("user", VObj [ ("name", VStr "Ada") ]) ] "id" (VStr "a1"))).
    simpl. intros H. repeat (destruct H as [H | H]; [discriminate |]). exact H.
Defined.

Lemma number_to_string_nonempty (n : Z) : nonempty (number_to_string n) = true.
Proof.
  unfold number_to_string. destruct (Z.to_int n) as [d | d]; [| reflexivity].
  destruct d; reflexivity.
Qed.

Lemma ToString_truthy (v : value) : truthy v = true -> nonempty (ToString v) = true.
Proof.
  destruct v as [| | [] | n | s | f]; simpl; try discriminate; try reflexivity.
  - intros _. apply number_to_string_nonempty.
  - trivial.
Qed.

Section WithTailwind.
Context {tw : Config}.

(** The avatar image: with a truthy [src], and a [name] that is falsy or a
    string, the factory returns an [img] whose alternative text is [alt],
    else [name], else the word Avatar, and is never empty. *)
Theorem avatar_image_alt (props : obj) :
  truthy (get props "src") = true ->
  (truthy (get props "name") = false \/ isString (get props "name") = true) ->
  exists altText,
    nonempty altText = true
    /\ altText = ToString (if truthy (get props "alt") then get props "alt"
                           else if truthy (get props "name") then get props "name"
                           else VStr "Avatar")
    /\ createAvatar props
       = Return (html "<img data-slot='avatar' class='" ++ avatarClasses props
                 ++ html "' src='" ++ ToString (get props "src")
                 ++ html "' alt='" ++ altText ++ html "' "
                 ++ createAttributesStringified (omit avatarKeys props) ++ " />").
Proof.
  intros Hsrc Hname.
  eexists. split; [| split; [reflexivity |]].
  - destruct (truthy (get props "alt")) eqn:Ha; [now apply ToString_truthy |].
    destruct (truthy (get props "name")) eqn:Hn; [now apply ToString_truthy | reflexivity].
  - unfold createAvatar. cbv zeta. rewrite Hsrc. unfold getAvatarAttributes. rewrite omit_idem.
    unfold JS.or.
    destruct (truthy (get props "name")) eqn:Hn.
    + destruct Hname as [Hname | Hname]; [discriminate |].
      destruct (get props "name") as [| | | | s |] eqn:E; try discriminate.
      rewrite getInitials_string. cbn [bind].
      destruct (truthy (get props "alt")) eqn:Ha; rewrite ?Ha, ?Hn; cbv iota; rewrite ?Ha, ?Hn;
        reflexivity.
    + cbn [bind]. destruct (truthy (get props "alt")) eqn:Ha; rewrite ?Ha, ?Hn; cbv iota;
        rewrite ?Ha, ?Hn; reflexivity.
Qed.

End WithTailwind.

(** An empty [alt] and no name give the default text. *)
Lemma avatar_image_example :
  exists altText,
    nonempty altText = true
    /\ altText = ToString (if truthy (get [ ("src", VStr "a.png"); ("alt", VStr "") ] "alt") then get [ ("src", VStr "a.png"); ("alt", VStr "") ] "alt"
                           else if truthy (get [ ("src", VStr "a.png"); ("alt", VStr "") ] "name") then get [ ("src", VStr "a.png"); ("alt", VStr "") ] "name"
                           else VStr "Avatar")
    /\ @createAvatar paddingConfig [ ("src", VStr "a.png"); ("alt", VStr "") ]
       = Return (html "<img data-slot='avatar' class='" ++ @avatarClasses paddingConfig [ ("src", VStr "a.png"); ("alt", VStr "") ]
                 ++ html "' src='" ++ ToString (get [ ("src", VStr "a.png"); ("alt", VStr "") ] "src")
                 ++ html "' alt='" ++ altText ++ html "' "
                 ++ createAttributesStringified (omit avatarKeys [ ("src", VStr "a.png"); ("alt", VStr "") ]) ++ " />").
Proof.
  apply (@avatar_image_alt paddingConfig [ ("src", VStr "a.png"); ("alt", VStr "") ]).
  - reflexivity.
  - left. reflexivity.
Defined.

Section WithTailwind.
Context {tw : Config}.
Variable Context_ : Type.
Variable createButton : obj -> string.

(** Every registered component helper is either the block helper of one of
    the eight block factories or one of the six helpers that never read the
    block: in block form these render as in inline form, the enclosed
    content being dropped. *)
Theorem helpers_block_or_inline (name : string) (helper : Helper Context_) :
  In (name, helper) (registerHandlebarsHelpers Context_ createButton) ->
  (exists create, In (name, create) (blockFactories createButton)
                  /\ helper = blockHelper Context_ create)
  \/ (In name [ "input"; "avatar"; "badge"; "activityItem"; "kpi"; "userInfoFields" ]
      /\ forall this h f,
           helper this {| hash := h; fn := f |} = helper this {| hash := h; fn := None |}).
Proof.
  intros Hin. unfold registerHandlebarsHelpers in Hin. simpl in Hin.
  repeat (destruct Hin as [[= <- <-] | Hin];
          [ first [ right; split; [simpl; tauto | intros this h f; reflexivity]
                  | left; eexists; split; [| reflexivity]; simpl; tauto ] |]).
  contradiction.
Qed.
End WithTailwind.

(** The badge helper drops the content of its block. *)
Lemma badge_helper_drops_block :
  (exists create,
      In ("badge", create) (@blockFactories paddingConfig (fun _ => ""))
      /\ inlineHelper unit (total (@createBadge paddingConfig)) = blockHelper unit create)
  \/ (In "badge" [ "input"; "avatar"; "badge"; "activityItem"; "kpi"; "userInfoFields" ]
      /\ forall this h f,
           inlineHelper unit (total (@createBadge paddingConfig)) this {| hash := h; fn := f |}
           = inlineHelper unit (total (@createBadge paddingConfig)) this {| hash := h; fn := None |}).
Proof.
  apply (@helpers_block_or_inline paddingConfig unit (fun _ => "") "badge").
  do 3 right. left. reflexivity.
Defined.

End MarkupFacts.

(** ** The factories with the conversions that throw *)

Module StrictFacts.
Import Str JS Clsx Cva TailwindMerge Utils Components Spec StrFacts ObjFacts CvaFacts.



Lemma ToString_unstringable (v : value) :
  Strict.stringable v = false -> Strict.ToString v = TypeError Strict.conversion_error.
Proof. intros H. unfold Strict.ToString. now rewrite H. Qed.

Lemma unstringable_truthy (v : value) : Strict.stringable v = false -> truthy v = true.
Proof. destruct v; try discriminate. reflexivity. Qed.

Lemma stringable_or (a b : value) :
  Strict.stringable b = true -> Strict.stringable (JS.or a b) = Strict.stringable a.
Proof.
  intros Hb. unfold JS.or. destruct (truthy a) eqn:Ha; [reflexivity |].
  rewrite Hb. destruct a; try reflexivity. discriminate.
Qed.

Lemma stringable_falsyToString (v : value) :
  Strict.stringable (falsyToString v) = Strict.stringable v.
Proof. destruct v as [| | [] | [] | |]; reflexivity. Qed.

Lemma truthy_falsyToString_object (v : value) :
  Strict.stringable v = false -> truthy (falsyToString v) = true.
Proof. destruct v; try discriminate. reflexivity. Qed.

Lemma mapM_map {A B : Type} (f : A -> result B) (g : A -> B) (ok : A -> bool)
    (message : string) (xs : list A) :
  (forall x, In x xs -> f x = if ok x then Return (g x) else TypeError message) ->
  Strict.mapM f xs = if forallb ok xs then Return (map g xs) else TypeError message.
Proof.
  induction xs as [| x xs IH]; intros H; [reflexivity |].
  cbn [Strict.mapM forallb map]. rewrite (H x (or_introl eq_refl)).
  destruct (ok x); cbn [bind andb]; [| reflexivity].
  rewrite IH by (intros y Hy; apply H; now right).
  now destruct (forallb ok xs).
Qed.

(** One axis: the conversion of the key fails exactly for a value that is
    an object with a [toString] property of its own. *)
Lemma variantClassName_strict (cfg : config) (props : obj) (axis : string) (table : obj) :
  Strict.stringable (get (defaultVariants cfg) axis) = true ->
  Strict.variantClassName cfg props axis table
  = if Strict.stringable (get props axis)
    then Return (variantClassName cfg props axis table)
    else TypeError Strict.conversion_error.
Proof.
  intros Hd. unfold Strict.variantClassName, variantClassName, Strict.ToPropertyKey.
  cbv zeta.
  assert (E : Strict.stringable
                (JS.or (falsyToString (get props axis))
                       (falsyToString (get (defaultVariants cfg) axis)))
              = Strict.stringable (get props axis)).
  { rewrite stringable_or by now rewrite stringable_falsyToString.
    apply stringable_falsyToString. }
  unfold Strict.ToString. rewrite E. clear E.
  destruct (Strict.stringable (get props axis)) eqn:S.
  - destruct (get props axis); reflexivity.
  - destruct (get props axis); try discriminate S. reflexivity.
Qed.

Lemma cva_strict (base : string) (cfg : config) (props : obj) :
  (forall axis, In axis (variants cfg) ->
     Strict.stringable (get (defaultVariants cfg) (fst axis)) = true) ->
  Strict.cva base cfg props
  = if forallb (fun axis => Strict.stringable (get props (fst axis))) (variants cfg)
    then Return (cva base cfg props)
    else TypeError Strict.conversion_error.
Proof.
  intros Hd. unfold Strict.cva.
  rewrite (mapM_map _ (fun axis => variantClassName cfg props (fst axis) (snd axis))
             (fun axis => Strict.stringable (get props (fst axis))) Strict.conversion_error).
  - destruct (forallb _ (variants cfg)); [| reflexivity].
    cbn [bind]. unfold cva. now rewrite map_map.
  - intros axis Hin. apply variantClassName_strict. now apply Hd.
Qed.

Lemma variantTables_defaults (base : string) (cfg : config) :
  In (base, cfg) variantTables ->
  forall axis, In axis (variants cfg) ->
    Strict.stringable (get (defaultVariants cfg) (fst axis)) = true.
Proof.
  intros Htable axis Haxis. simpl in Htable.
  repeat (destruct Htable as [Htable | Htable];
          [ injection Htable as <- <-; simpl in Haxis;
            repeat (destruct Haxis as [<- | Haxis]; [reflexivity |]); contradiction |]).
  contradiction.
Qed.

Lemma forallb_ext_in {A : Type} (f g : A -> bool) (l : list A) :
  (forall x, In x l -> f x = g x) -> forallb f l = forallb g l.
Proof.
  induction l as [| x l IH]; intros H; [reflexivity |].
  simpl. rewrite (H x (or_introl eq_refl)), IH; [reflexivity |].
  intros y Hy. apply H. now right.
Qed.

Lemma forallb_without (props : obj) (axis : string) (l : list (string * obj)) :
  Strict.stringable (get props axis) = true ->
  forallb (fun a => Strict.stringable (get props (fst a)))
    (filter (fun a => negb (String.eqb (fst a) axis)) l)
  = forallb (fun a => Strict.stringable (get props (fst a))) l.
Proof.
  intros H. induction l as [| a l IH]; [reflexivity |].
  cbn [filter forallb]. destruct (String.eqb (fst a) axis) eqn:E; cbn [negb].
  - apply String.eqb_eq in E. rewrite E, H. exact IH.
  - cbn [forallb]. now rewrite IH.
Qed.

(** C1, as amended.  For every variant table of the components: class
    resolution raises exactly when the value given for one of the axes is
    an object with a [toString] property of its own, which cannot be
    converted to a property key; otherwise it returns.  For each axis, an
    absent value (a missing prop, [undefined] or the empty string) resolves
    as the declared default of the axis does; a value the table does not
    know ([null], or a convertible value that names no entry) resolves as if
    the table did not have the axis: no fragment is selected for it, the
    default's included. *)
Theorem variant_resolution (base : string) (cfg : config) :
  In (base, cfg) variantTables ->
  forall props,
    returns (Strict.cva base cfg props)
    = forallb (fun axis => Strict.stringable (get props (fst axis))) (variants cfg)
    /\ forall axis table, In (axis, table) (variants cfg) ->
         (absent (get props axis) ->
          Strict.cva base cfg props
          = Strict.cva base cfg (set props axis (get (defaultVariants cfg) axis)))
         /\ (unknown table (get props axis) ->
             Strict.stringable (get props axis) = true ->
             Strict.cva base cfg props = Strict.cva base (without axis cfg) props).
Proof.
  intros Htable props.
  pose proof (variantTables_defaults base cfg Htable) as Hd.
  split.
  - rewrite cva_strict by assumption. now destruct (forallb _ (variants cfg)).
  - intros axis table Haxis.
    destruct (variantTables_axes base cfg axis table Htable Haxis)
      as [Hclass [HclassName [Hdefault Hfun]]].
    split.
    + intros Habs. rewrite !cva_strict by assumption.
      rewrite <- (cva_absent_default base cfg props axis) by assumption.
      replace (forallb (fun a => Strict.stringable
                                   (get (set props axis (get (defaultVariants cfg) axis)) (fst a)))
                 (variants cfg))
        with (forallb (fun a => Strict.stringable (get props (fst a))) (variants cfg));
        [reflexivity |].
      apply forallb_ext_in. intros a Ha.
      destruct (String.eqb axis (fst a)) eqn:E.
      * apply String.eqb_eq in E. rewrite <- E, get_set_eq.
        pose proof (Hd (axis, table) Haxis) as Hdefault'. cbn [fst] in Hdefault'.
        rewrite Hdefault'. destruct Habs as [-> | ->]; reflexivity.
      * apply String.eqb_neq in E. now rewrite get_set_ne.
    + intros Hunk Hs. rewrite cva_strict by assumption.
      rewrite (cva_strict base (without axis cfg)).
      * cbn [without variants]. rewrite forallb_without by assumption.
        rewrite (cva_without base cfg props axis); [reflexivity |].
        intros a t Hin Ha. subst a. rewrite (Hfun axis t Hin eq_refl).
        now apply variantClassName_unknown.
      * cbn [without variants defaultVariants]. intros a Ha.
        apply filter_In in Ha. now apply Hd.
Qed.

(** The avatar of size [lg] without a variant resolves as with the default
    variant; it returns, and with the unknown variant [bogus] the variant
    fragment is missing. *)
Lemma avatar_variant_examples :
  Strict.avatarVariants [ ("size", VStr "lg") ]
  = Strict.avatarVariants [ ("size", VStr "lg"); ("variant", VStr "default") ]
  /\ returns (Strict.avatarVariants [ ("variant", VStr "bogus") ]) = true
  /\ Strict.avatarVariants [ ("variant", VStr "bogus") ]
     = Return "relative flex shrink-0 overflow-hidden rounded-full size-10 text-sm".
Proof.
  pose proof (variant_resolution avatarBase avatarConfig (or_intror (or_introl eq_refl))) as H.
  split; [| split].
  - apply (proj1 (proj2 (H [ ("size", VStr "lg") ]) "variant" _ (or_introl eq_refl))).
    now left.
  - unfold Strict.avatarVariants. rewrite (proj1 (H [ ("variant", VStr "bogus") ])). reflexivity.
  - unfold Strict.avatarVariants.
    rewrite (proj2 (proj2 (H [ ("variant", VStr "bogus") ]) "variant" _ (or_introl eq_refl))).
    + reflexivity.
    + right. split; reflexivity.
    + reflexivity.
Defined.

(** An unknown value does not resolve to the class string of the default:
    the fragment of the default ([bg-muted] for the avatar's variant) is not
    there; and a value that is an object with a [toString] property of its
    own makes the resolution throw. *)
Lemma unknown_variant_is_not_default :
  Strict.avatarVariants [ ("variant", VStr "bogus") ]
  = Return "relative flex shrink-0 overflow-hidden rounded-full size-10 text-sm"
  /\ Strict.avatarVariants [ ("variant", VStr "default") ]
     = Return "relative flex shrink-0 overflow-hidden rounded-full bg-muted size-10 text-sm"
  /\ Strict.avatarVariants [ ("variant", VStr "bogus") ]
     <> Strict.avatarVariants [ ("variant", VStr "default") ]
  /\ Strict.inputVariants [ ("size", VStr "xl") ] <> Strict.inputVariants [ ("size", VStr "md") ]
  /\ Strict.avatarVariants [ ("variant", VObj [ ("toString", VNum 1) ]) ]
     = TypeError "Cannot convert object to primitive value".
Proof.
  assert (N : forall x y : string, String.eqb x y = false -> @Return string x <> Return y).
  { intros x y E H. injection H as H. apply String.eqb_neq in E. contradiction. }
  repeat split; try reflexivity; vm_compute; apply N; vm_compute; reflexivity.
Qed.

(** *** Plain props: the functions of [Components] give the result *)











Lemma stringifyEntry_strict (kv : string * value) :
  Strict.stringifyEntry kv
  = if Strict.stringable (snd kv) then Return (stringifyEntry kv)
    else TypeError Strict.conversion_error.
Proof.
  destruct kv as [k v]. unfold Strict.stringifyEntry, stringifyEntry, Strict.ToString.
  cbn [snd fst]. destruct v; try reflexivity. now destruct (Strict.stringable (VObj fields)).
Qed.

(** The serializer throws exactly when an entry it writes holds an object
    that does not convert. *)
Lemma createAttributesStringified_strict (attributes : obj) :
  Strict.createAttributesStringified attributes
  = if forallb (fun kv => Strict.stringable (snd kv))
         (filter (fun kv => present (snd kv)) attributes)
    then Return (createAttributesStringified attributes)
    else TypeError Strict.conversion_error.
Proof.
  unfold Strict.createAttributesStringified.
  rewrite (mapM_map _ stringifyEntry (fun kv => Strict.stringable (snd kv))
             Strict.conversion_error) by (intros kv _; apply stringifyEntry_strict).
  now destruct (forallb _ _).
Qed.





Section WithTailwind.
Context {tw : Config}.




End WithTailwind.


Section Factories.
Context {tw : Config}.
















End Factories.

Section Claims.
Context {tw : Config}.


(** The conversions of [createKPI] that are made whether or not their
    result is written: without a truthy [change] the trend and the change
    description have no effect on the outcome, and without a truthy
    [iconPath] the icon colour has none, as long as the trend and the icon
    colour convert to a property key; one that does not makes [createKPI]
    throw, also where its class would not be written. *)
Theorem createKPI_unused (props : obj) (v w : value) :
  (truthy (get props "change") = false ->
   Strict.stringable (get props "trend") = true -> Strict.stringable v = true ->
   Strict.createKPI (set (set props "trend" v) "changeDescription" w) = Strict.createKPI props)
  /\ (truthy (get props "iconPath") = false ->
      Strict.stringable (get props "iconColor") = true -> Strict.stringable v = true ->
      Strict.createKPI (set props "iconColor" v) = Strict.createKPI props)
  /\ (Strict.stringable (get props "trend") = false
      \/ Strict.stringable (get props "iconColor") = false ->
      Strict.createKPI props = TypeError Strict.conversion_error).
Proof.
  assert (Hkey : forall d x, Strict.stringable d = true ->
            Strict.ToString (JS.or x d)
            = if Strict.stringable x then Return (ToString (JS.or x d))
              else TypeError Strict.conversion_error).
  { intros d x Hd. unfold Strict.ToString. now rewrite stringable_or. }
  assert (Hclasses : forall p k x, ~ In k [ "variant"; "size"; "className" ] ->
            Strict.kpiClasses (set p k x) = Strict.kpiClasses p).
  { intros p k x Hk. unfold Strict.kpiClasses.
    rewrite !get_set_ne; [reflexivity | ..]; intros ->; apply Hk; simpl; tauto. }
  split; [| split].
  - intros Hchange Ht Hv. unfold Strict.createKPI, Strict.getTrendColorClasses,
      Strict.getIconColorClasses, Strict.ToPropertyKey, getKPIAttributes. cbv zeta.
    rewrite !Hclasses by (simpl; intros [E | [E | [E | []]]]; discriminate).
    rewrite !MarkupFacts.omit_omit_set by (simpl; tauto).
    rewrite !(get_set_ne _ "changeDescription" "trend"), get_set_eq by discriminate.
    rewrite !(get_set_ne _ _ "change"), !(get_set_ne _ _ "iconPath"),
      !(get_set_ne _ _ "iconColor"), !(get_set_ne _ _ "title"), !(get_set_ne _ _ "value"),
      !(get_set_ne _ _ "description") by discriminate.
    rewrite !Hkey by reflexivity. rewrite Ht, Hv, Hchange. cbn [bind andb]. cbv iota.
    reflexivity.
  - intros Hpath Hc Hv. unfold Strict.createKPI, Strict.getTrendColorClasses,
      Strict.getIconColorClasses, Strict.ToPropertyKey, Strict.kpiChangeDescription,
      getKPIAttributes. cbv zeta.
    rewrite !Hclasses by (simpl; intros [E | [E | [E | []]]]; discriminate).
    rewrite !MarkupFacts.omit_omit_set by (simpl; tauto).
    rewrite get_set_eq. rewrite !(get_set_ne _ "iconColor") by discriminate.
    rewrite !Hkey by reflexivity. rewrite Hc, Hv, Hpath. cbn [bind]. cbv iota.
    reflexivity.
  - intros Hbad. unfold Strict.createKPI, Strict.kpiClasses, Strict.kpiVariants,
      Strict.getTrendColorClasses, Strict.getIconColorClasses, Strict.ToPropertyKey. cbv zeta.
    rewrite cva_strict by (apply (variantTables_defaults kpiBase); simpl; tauto).
    destruct (forallb _ (variants kpiConfig)); cbn [bind]; [| reflexivity].
    rewrite createAttributesStringified_strict.
    destruct (forallb _ (filter _ _)); cbn [bind]; [| reflexivity].
    rewrite !Hkey by reflexivity.
    destruct (Strict.stringable (get props "iconColor")); cbn [bind]; [| reflexivity].
    destruct Hbad as [Hbad | Hbad]; [| discriminate Hbad].
    now rewrite Hbad.
Qed.

End Claims.



(** C3.  The activity item with the override [py-2]: its class string
    keeps [py-4] of the base, a class of the same padding group, next to
    the override, and that class string is written in the markup.  The KPI,
    whose classes go through [cn] as those of the other factories do, drops
    its [p-6] for the override [p-2]. *)
Theorem activity_item_override_keeps_base_padding :
  Strict.getActivityItemClasses
    [ ("title", VStr "T"); ("timeAgo", VStr "now"); ("className", VStr "py-2") ]
  = Return "flex items-center justify-between py-4 hover:bg-gray-50 px-4 rounded-lg transition-colors border-b border-gray-100 py-2"
  /\ (exists markup,
        Strict.createActivityItem
          [ ("title", VStr "T"); ("timeAgo", VStr "now"); ("className", VStr "py-2") ]
        = Return markup
        /\ includes (html "<div class='flex items-center justify-between py-4 hover:bg-gray-50 px-4 rounded-lg transition-colors border-b border-gray-100 py-2' >") markup
           = true)
  /\ @classId paddingConfig "py-4" = Some "py"
  /\ @classId paddingConfig "py-2" = Some "py"
  /\ @Strict.kpiClasses paddingConfig [ ("className", VStr "p-2") ]
     = Return "rounded-lg border bg-card text-card-foreground shadow-sm transition-all hover:shadow-md border-gray-200 p-2"
  /\ kpiVariants [ ("variant", VUndefined); ("size", VUndefined) ]
     = "rounded-lg border bg-card text-card-foreground shadow-sm transition-all hover:shadow-md border-gray-200 p-6".
Proof.
  split; [reflexivity |]. split.
  - eexists. split; [reflexivity |]. vm_compute. reflexivity.
  - repeat split.
Qed.

End StrictFacts.
